(** * ManiSkill2-Learn environment wrappers

    A shallow embedding of [maniskill2_learn/env/wrappers.py]:
    [ExtendedEnv] (reward scaling, action coercion, float64 to float32
    coercion) and [ManiSkill2_ObsWrapper] (observation-mode transform).

    Conventions of the embedding.
    - Python objects are values of the inductive type [value]; a dict is an
      association list in insertion order.
    - Numbers are given by their values, as rationals.  A Python float or
      a numpy floating-point scalar that the code computes is a [float]: a
      rational or an infinity, rounded to its binary format as IEEE 754
      has it (to nearest, ties to even).  This covers the reward that
      [step] returns and the scaling of an image by [render].
    - numpy arrays carry their dtype and their elements as rationals; an
      array holds no infinity.  A cast of an array between float dtypes
      changes the dtype tag and keeps the elements.
    - A Python call either returns, raises, or terminates the process
      ([exit]); stateful calls thread the state of the simulator and of the
      global random generator ([World]).  What is printed on the standard
      output is not represented, and for ill-typed input the class of the
      exception raised is approximate.
    - numpy's indexing and shape rules are followed for the shapes the
      source documents (clouds of N points, images of height, width and
      channels, poses of seven numbers), not in full generality. *)

From Stdlib Require Import String List ZArith QArith Qround Qabs Qpower Bool Lia.
From Stdlib Require Import DecimalString SpecFloat.
From ExtLib Require Import Structures.Monad.
Import ListNotations.
Import MonadNotation.
Local Open Scope string_scope.
Local Open Scope monad_scope.

(** ** Python outcomes *)

Inductive exn : Type :=
| AssertionError (msg : string)
| KeyError (key : string)
| AttributeError (attr : string)
| TypeError
| ValueError
| IndexError.

Inductive outcome (A : Type) : Type :=
| Return (a : A)
| Raise (e : exn)
| Exit (code : Z).

Arguments Return {A} a.
Arguments Raise {A} e.
Arguments Exit {A} code.

Definition obind {A B : Type} (c : outcome A) (k : A -> outcome B) : outcome B :=
  match c with
  | Return a => k a
  | Raise e => Raise e
  | Exit n => Exit n
  end.

#[export] Instance Monad_outcome : Monad outcome :=
  {| ret := @Return; bind := @obind |}.

(** [assert c, msg] *)
Definition assert (c : bool) (msg : string) : outcome unit :=
  if c then Return tt else Raise (AssertionError msg).

(** ** numpy arrays *)

Inductive dtype : Type := Bool_ | UInt8 | Int64 | Float16 | Float32 | Float64.

Definition dtype_eqb (a b : dtype) : bool :=
  match a, b with
  | Bool_, Bool_ | UInt8, UInt8 | Int64, Int64
  | Float16, Float16 | Float32, Float32 | Float64, Float64 => true
  | _, _ => false
  end.

Definition is_floating (dt : dtype) : bool :=
  match dt with
  | Float16 | Float32 | Float64 => true
  | _ => false
  end.

(** Result dtype when arrays of two dtypes are combined
    ([np.concatenate], [np.stack], binary arithmetic). *)
Definition promote (a b : dtype) : dtype :=
  match a, b with
  | Float64, _ | _, Float64 => Float64
  | Int64, (Float16 | Float32) | (Float16 | Float32), Int64 => Float64
  | Float32, _ | _, Float32 => Float32
  | Float16, _ | _, Float16 => Float16
  | Int64, _ | _, Int64 => Int64
  | UInt8, _ | _, UInt8 => UInt8
  | Bool_, Bool_ => Bool_
  end.

Definition vec : Type := list Q.
Definition mat : Type := list vec.
Definition tensor3 : Type := list mat.

(** An array of rank 0 to 3, by rows. *)
Inductive array : Type :=
| A0 (x : Q)
| A1 (v : vec)
| A2 (m : mat)
| A3 (t : tensor3).

(** [a.flatten()] and [a.reshape(-1)]: the elements in row-major order. *)
Definition flatten (a : array) : vec :=
  match a with
  | A0 x => [x]
  | A1 v => v
  | A2 m => concat m
  | A3 t => concat (map (@concat Q) t)
  end.

(** [a.size] *)
Definition size (a : array) : nat := length (flatten a).

(** [len(a)]: the extent of the first axis. *)
Definition len (a : array) : outcome nat :=
  match a with
  | A0 _ => Raise TypeError
  | A1 v => Return (length v)
  | A2 m => Return (length m)
  | A3 t => Return (length t)
  end.

(** [int(x)]: truncation towards zero. *)
Definition int (x : Q) : Z := Z.quot (Qnum x) (Zpos (Qden x)).

(** [x > y] on numbers. *)
Definition Qgtb (x y : Q) : bool := negb (Qle_bool x y).

(** [str(n)] for a natural number, as an f-string prints it. *)
Definition decimal (n : nat) : string := NilZero.string_of_uint (Nat.to_uint n).

(** ** Floating-point numbers *)

(** A Python [float] or a numpy floating-point scalar, by its value.
    Not-a-number is left out: it does not arise from the finite numbers
    the computations of this file start from. *)
Inductive float : Type :=
| Finite (q : Q)
| Infinity (negative : bool).

(** The binary formats of IEEE 754: the number of significant bits and
    the exponent above the largest finite number (binary16, binary32,
    binary64). *)
Definition precision (dt : dtype) : Z :=
  match dt with
  | Float16 => 11
  | Float32 => 24
  | _ => 53
  end.

Definition emax (dt : dtype) : Z :=
  match dt with
  | Float16 => 16
  | Float32 => 128
  | _ => 1024
  end.

(** The binary magnitude of [q]: for [q] other than 0, the [e] with
    [2 ^ (e - 1) <= |q| < 2 ^ e]. *)
Definition mag (q : Q) : Z :=
  let e := (Z.log2 (Z.abs (Qnum q)) - Z.log2 (Zpos (Qden q)))%Z in
  if Qle_bool (2 ^ e) (Qabs q) then (e + 1)%Z else e.

(** The integer nearest to [x]; halfway between two, the even one. *)
Definition nearest_even (x : Q) : Z :=
  let f := Qfloor x in
  match Qcompare (x - inject_Z f) (1 # 2) with
  | Lt => f
  | Gt => (f + 1)%Z
  | Eq => if Z.even f then f else (f + 1)%Z
  end.

(** [q] rounded to the format of [dt]: to the nearest multiple of the
    unit in the last place that [q] has in the format (subnormal numbers
    included), and to an infinity from [2 ^ emax] on. *)
Definition round (dt : dtype) (q : Q) : float :=
  let e := Z.max (mag q - precision dt) (3 - emax dt - precision dt) in
  let y := inject_Z (nearest_even (q / 2 ^ e)) * 2 ^ e in
  if Qle_bool (2 ^ emax dt) (Qabs y) then Infinity (Qnum q <? 0)%Z else Finite y.

(** [q] is a number of the format of [dt]: a significand of at most
    [precision dt] bits times a power of two not below the least one of
    the format, of a magnitude below [2 ^ emax dt]. *)
Definition representable (dt : dtype) (q : Q) : Prop :=
  exists m e,
    q == inject_Z m * 2 ^ e
    /\ (Z.abs m < 2 ^ precision dt)%Z
    /\ (3 - emax dt - precision dt <= e)%Z
    /\ Qabs q < 2 ^ emax dt.

(** The same rounding as the Standard Library's specification of IEEE
    754 has it ([SpecFloat]): the quotient of numerator by denominator,
    taken in the format.  [round] is checked against it on the numbers
    [samples] ([round_as_specified]). *)
Definition of_Z (z : Z) : spec_float :=
  match z with
  | Z0 => S754_zero false
  | Zpos p => S754_finite false p 0
  | Zneg p => S754_finite true p 0
  end.

Definition of_spec_float (x : spec_float) : float :=
  match x with
  | S754_finite s m e => Finite (inject_Z (cond_Zopp s (Zpos m)) * 2 ^ e)
  | S754_infinity s => Infinity s
  | S754_zero _ | S754_nan => Finite 0
  end.

Definition round_specified (dt : dtype) (q : Q) : float :=
  of_spec_float (SFdiv (precision dt) (emax dt) (of_Z (Qnum q)) (of_Z (Zpos (Qden q)))).

Definition float_eqb (x y : float) : bool :=
  match x, y with
  | Finite p, Finite q => Qeq_bool p q
  | Infinity s, Infinity t => Bool.eqb s t
  | _, _ => false
  end.

(** Numbers at which rounding is delicate: halfway cases, the largest
    finite numbers, subnormal numbers, and a few ordinary ones. *)
Definition samples : list Q :=
  [0; 1; -1; 1 # 10; 3 # 10; - (1 # 3); 1 # 255; 255; (1 # 2) * 255;
   16777217; 16777219; 33554435; 2049; 2051; 65519; 65520;
   inject_Z (10 ^ 39); - inject_Z (10 ^ 39);
   inject_Z (2 ^ 128 - 2 ^ 103); inject_Z (2 ^ 128 - 2 ^ 103 - 1);
   inject_Z (2 ^ 1024 - 2 ^ 970); inject_Z (2 ^ 1024 - 2 ^ 970 - 1);
   1 # (2 ^ 149); 1 # (2 ^ 150); 3 # (2 ^ 151); 1 # (2 ^ 24);
   1 # (2 ^ 1074); 1 # (2 ^ 1075); 3 # (2 ^ 1076);
   3602879701896397 # 36028797018963968; 282578800148737 # 72057594037927936].

(** [x * y] on Python floats, which are binary64. *)
Definition float_mul (x y : Q) : float := round Float64 (x * y).

(** [np.float32(x)] *)
Definition np_float32 (x : float) : float :=
  match x with
  | Finite q => round Float32 q
  | Infinity s => Infinity s
  end.

(** The element that an array holds for [x].  Arrays hold no infinity:
    this is used only where [x] is bounded. *)
Definition element (x : float) : Q :=
  match x with
  | Finite q => q
  | Infinity _ => 0
  end.

(** ** Python values *)

Scheme All for list.
Scheme All for prod.

Inductive value : Type :=
| VNone
| VBool (b : bool)
| VInt (n : Z)
| VStr (s : string)
| VArr (dt : dtype) (a : array)
| VList (l : list value)
| VDict (d : list (string * value)).

Definition dict : Type := list (string * value).

Fixpoint dict_get (k : string) (d : dict) : option value :=
  match d with
  | [] => None
  | (k', v) :: d' => if String.eqb k k' then Some v else dict_get k d'
  end.

(** [k in d] *)
Definition dict_mem (k : string) (d : dict) : bool :=
  match dict_get k d with Some _ => true | None => false end.

(** [d[k] = v]: an existing key keeps its place, a new key goes last. *)
Fixpoint dict_set (k : string) (v : value) (d : dict) : dict :=
  match d with
  | [] => [(k, v)]
  | (k', v') :: d' =>
      if String.eqb k k' then (k, v) :: d' else (k', v') :: dict_set k v d'
  end.

(** [d.pop(k, None)] as the remaining dict; the popped value is [dict_get]. *)
Fixpoint dict_pop (k : string) (d : dict) : dict :=
  match d with
  | [] => []
  | (k', v') :: d' =>
      if String.eqb k k' then d' else (k', v') :: dict_pop k d'
  end.

(** [d.keys()] *)
Definition keys (d : dict) : list string := map fst d.

(** [d[k]] *)
Definition getitem (k : string) (d : dict) : outcome value :=
  match dict_get k d with
  | Some v => Return v
  | None => Raise (KeyError k)
  end.

(** Subscripting an object that has to be a dict. *)
Definition as_dict (v : value) : outcome dict :=
  match v with
  | VDict d => Return d
  | _ => Raise TypeError
  end.

Definition as_vec (v : value) : outcome (dtype * vec) :=
  match v with
  | VArr dt (A1 x) => Return (dt, x)
  | _ => Raise TypeError
  end.

(** [v[k]] on an object that has to be a dict. *)
Definition item (v : value) (k : string) : outcome value :=
  d <- as_dict v ;; getitem k d.

(** A loop that stops at the first failure. *)
Fixpoint mapM {A B : Type} (f : A -> outcome B) (l : list A) : outcome (list B) :=
  match l with
  | [] => Return []
  | x :: l' => y <- f x ;; ys <- mapM f l' ;; ret (y :: ys)
  end.

(** ** Array operations *)

Definition array_map (f : Q -> Q) (a : array) : array :=
  match a with
  | A0 x => A0 (f x)
  | A1 v => A1 (map f v)
  | A2 m => A2 (map (map f) m)
  | A3 t => A3 (map (map (map f)) t)
  end.

(** Element cast of [a.astype(dt)]: to an integer dtype the fraction is
    dropped (and uint8 wraps); between float dtypes the element is kept. *)
Definition cast (dt : dtype) (x : Q) : Q :=
  match dt with
  | Bool_ => if Qeq_bool x 0 then 0 else 1
  | UInt8 => inject_Z (int x mod 256)%Z
  | Int64 => inject_Z (int x)
  | Float16 | Float32 | Float64 => x
  end.

Definition astype (dt : dtype) (a : array) : array := array_map (cast dt) a.

(** dtype of [a / 255.0]. *)
Definition true_divide_dtype (dt : dtype) : dtype :=
  match dt with
  | Float16 => Float16
  | Float32 => Float32
  | _ => Float64
  end.

(** [v / c] for an array [v] and a Python float [c]. *)
Definition true_divide (v : value) (c : Q) : outcome value :=
  match v with
  | VArr dt a => Return (VArr (true_divide_dtype dt) (array_map (fun x => x / c) a))
  | _ => Raise TypeError
  end.

(** The entries of [l] at which [mask] is true. *)
Fixpoint compress {A : Type} (mask : list bool) (l : list A) : list A :=
  match mask, l with
  | b :: mask', x :: l' =>
      if b then x :: compress mask' l' else compress mask' l'
  | _, _ => []
  end.

(** [v[mask]] for a one-dimensional boolean [mask]: it selects along the
    first axis, whose extent has to be the length of the mask. *)
Definition getitem_mask (mask : list bool) (v : value) : outcome value :=
  let pick {A : Type} (l : list A) : outcome (list A) :=
    if Nat.eqb (length l) (length mask) then Return (compress mask l)
    else Raise IndexError in
  match v with
  | VArr dt (A1 x) => x' <- pick x ;; ret (VArr dt (A1 x'))
  | VArr dt (A2 m) => m' <- pick m ;; ret (VArr dt (A2 m'))
  | VArr dt (A3 t) => t' <- pick t ;; ret (VArr dt (A3 t'))
  | _ => Raise IndexError
  end.

(** [v[idx]] for a list of indices along the first axis. *)
Definition getitem_indices (idx : list nat) (v : value) : outcome value :=
  let pick {A : Type} (l : list A) : outcome (list A) :=
    mapM (fun i => match nth_error l i with
                   | Some x => Return x
                   | None => Raise IndexError
                   end) idx in
  match v with
  | VArr dt (A1 x) => x' <- pick x ;; ret (VArr dt (A1 x'))
  | VArr dt (A2 m) => m' <- pick m ;; ret (VArr dt (A2 m'))
  | VArr dt (A3 t) => t' <- pick t ;; ret (VArr dt (A3 t'))
  | _ => Raise IndexError
  end.

(** [m[:, -1]] *)
Definition last_col (m : mat) : outcome vec :=
  mapM (fun r => match r with
                 | [] => Raise IndexError
                 | _ => Return (last r 0)
                 end) m.

(** Element-wise [a + b] and [a - b] of two vectors of one length. *)
Definition vzip (f : Q -> Q -> Q) (a b : vec) : outcome vec :=
  if Nat.eqb (length a) (length b)
  then Return (map (fun xy => f (fst xy) (snd xy)) (combine a b))
  else Raise ValueError.

Definition dot (a b : vec) : Q :=
  fold_right Qplus 0 (map (fun xy => fst xy * snd xy) (combine a b)).

(** [m @ v] *)
Definition mat_vec (m : mat) (v : vec) : vec := map (fun r => dot r v) m.

(** [np.concatenate] and [np.stack] of two or more arrays: the dtype. *)
Definition promote_all (dts : list dtype) : dtype :=
  match dts with
  | [] => Float64
  | dt :: dts' => fold_left promote dts' dt
  end.

(** [np.stack(l, axis=0)] of vectors (or of matrices): at least one, all
    of one length. *)
Definition stack {A : Type} (l : list (dtype * list A))
  : outcome (dtype * list (list A)) :=
  match l with
  | [] => Raise ValueError
  | (_, x) :: _ =>
      if forallb (fun y => Nat.eqb (length (snd y)) (length x)) l
      then Return (promote_all (map fst l), map snd l)
      else Raise ValueError
  end.

(** [np.concatenate(l)] along the first axis. *)
Definition concatenate {A : Type} (l : list (dtype * list A))
  : outcome (dtype * list A) :=
  match l with
  | [] => Raise ValueError
  | _ => Return (promote_all (map fst l), concat (map snd l))
  end.

(** [t.transpose(2, 0, 1)]: from height, width, channel to channel,
    height, width. *)
Definition transpose201 (t : tensor3) : tensor3 :=
  let c := match t with (px :: _) :: _ => length px | _ => 0%nat end in
  map (fun k => map (map (fun px => nth k px 0)) t) (seq 0%nat c).

(** [s in t] on strings. *)
Definition contains (sub s : string) : bool :=
  match String.index 0 sub s with Some _ => true | None => false end.

Definition as_mat (v : value) : outcome (dtype * mat) :=
  match v with
  | VArr dt (A2 m) => Return (dt, m)
  | _ => Raise IndexError
  end.

Definition as_tensor3 (v : value) : outcome (dtype * tensor3) :=
  match v with
  | VArr dt (A3 t) => Return (dt, t)
  | _ => Raise ValueError
  end.

(** ** [GDict.f64_to_f32] *)

(** Modelled from the spec: [GDict] and its [f64_to_f32] live in
    [maniskill2_learn/utils/data], which is not part of the sources at
    hand.  The spec describes it as the float64 to float32 coercion applied
    uniformly to observations and info: walking the nested lists and
    dicts, every array of dtype float64 becomes an array of dtype float32
    and everything else is kept. *)
Fixpoint f64_to_f32 (v : value) : value :=
  match v with
  | VArr Float64 a => VArr Float32 a
  | VList l => VList (map f64_to_f32 l)
  | VDict d => VDict (map (fun kv => (fst kv, f64_to_f32 (snd kv))) d)
  | _ => v
  end.

(** The dtypes of the array leaves of a value. *)
Fixpoint dtypes (v : value) : list dtype :=
  match v with
  | VArr dt _ => [dt]
  | VList l => flat_map dtypes l
  | VDict d => flat_map (fun kv => dtypes (snd kv)) d
  | _ => []
  end.

(** Every floating-point field of [v] is of dtype float32. *)
Definition all_floats_f32 (v : value) : bool :=
  forallb (fun dt => implb (is_floating dt) (dtype_eqb dt Float32)) (dtypes v).

(** No field of [v] is of dtype float64. *)
Definition no_f64 (v : value) : bool :=
  forallb (fun dt => negb (dtype_eqb dt Float64)) (dtypes v).

(** ** Stateful calls *)

(** A call that may read and change the state of the world (the simulator
    and numpy's global random generator). *)
Definition M (World A : Type) : Type := World -> outcome A * World.

Definition mbind {World A B : Type} (c : M World A) (k : A -> M World B)
  : M World B :=
  fun w =>
    match c w with
    | (Return a, w') => k a w'
    | (Raise e, w') => (Raise e, w')
    | (Exit n, w') => (Exit n, w')
    end.

#[export] Instance Monad_M (World : Type) : Monad (M World) :=
  {| ret := fun A (a : A) w => (Return a, w); bind := @mbind World |}.

(** A call that does not touch the world. *)
Definition lift {World A : Type} (c : outcome A) : M World A := fun w => (c, w).

(** ** Gym environments *)

Inductive space : Type :=
| Discrete (n : nat)
| Box (shape : list nat).

(** An action handed to [step]: a Python or numpy number, or an array. *)
Inductive action : Type :=
| AInt (n : Z)
| AFloat (x : Q)
| AArr (a : array).

(** Modelled from the spec: [is_num] is imported from
    [maniskill2_learn/utils/data], which is not part of the sources at
    hand.  The spec has an action be either a discrete index or a vector:
    [is_num] tells the number from the array. *)
Definition is_num (a : action) : bool :=
  match a with
  | AInt _ | AFloat _ => true
  | AArr _ => false
  end.

(** What a wrapper sees of the environment it wraps: the attributes the
    wrappers read (found through [ExtendedWrapper.__getattr__]) and the
    Gym calls [reset] (with keyword arguments), [step(action)] and
    [get_obs()].  [step] returns [(obs, reward, done, info)]. *)
Record GymEnv (World : Type) : Type := {
  action_space : space;
  obs_mode : string;
  env_str : string;
  env_reset : dict -> M World value;
  env_step : action -> M World (value * Q * bool * value);
  env_get_obs : M World value
}.

Arguments action_space {World} _.
Arguments obs_mode {World} _.
Arguments env_str {World} _.
Arguments env_reset {World} _ _ _.
Arguments env_step {World} _ _ _.
Arguments env_get_obs {World} _ _.

(** ** [class ExtendedEnv] *)

Module ExtendedEnv.
Section WithWorld.
Context {World : Type}.

Record t : Type := {
  env : GymEnv World;
  is_discrete : bool;
  is_cost : Z;
  reward_scale : Q
}.

(** [ExtendedEnv.__init__(self, env, reward_scale, use_cost)].  The
    product of [reward_scale] with 1 or -1 is exact. *)
Definition __init__ (env : GymEnv World) (reward_scale : Q) (use_cost : bool)
  : outcome t :=
  assert (Qgtb reward_scale 0) "Reward scale should be positive!" ;;
  let is_discrete :=
    match action_space env with Discrete _ => true | Box _ => false end in
  let is_cost := if use_cost then (-1)%Z else 1%Z in
  ret {| env := env;
         is_discrete := is_discrete;
         is_cost := is_cost;
         reward_scale := reward_scale * inject_Z is_cost |}.

(** [ExtendedEnv._process_action(self, action)] *)
Definition _process_action (self : t) (a : action) : outcome action :=
  if is_discrete self then
    if is_num a then
      match a with
      | AInt n => ret (AInt n)
      | AFloat x => ret (AInt (int x))
      | AArr _ => Raise TypeError
      end
    else
      match a with
      | AArr arr =>
          (if Nat.eqb (size arr) 1 then ret tt
           else n <- len arr ;;
                Raise (AssertionError
                         ("Dim of discrete action should be 1, but we get "
                            ++ decimal n))) ;;
          match flatten arr with
          | x :: _ => ret (AInt (int x))
          | [] => Raise IndexError
          end
      | _ => Raise (AttributeError "size")
      end
  else ret a.

(** [ExtendedEnv.reset(self, *args, **kwargs)] *)
Definition reset (self : t) (kwargs : dict) : M World value :=
  obs <- env_reset (env self) kwargs ;;
  ret (f64_to_f32 obs).

(** [if isinstance(info, dict) and "TimeLimit.truncated" not in info:
     info["TimeLimit.truncated"] = False] *)
Definition default_truncated (info : value) : value :=
  match info with
  | VDict d =>
      if negb (dict_mem "TimeLimit.truncated" d)
      then VDict (dict_set "TimeLimit.truncated" (VBool false) d)
      else info
  | _ => info
  end.

(** [a, b = x] *)
Definition unpack2 (x : value) : outcome (value * value) :=
  match x with
  | VList [a; b] => Return (a, b)
  | _ => Raise ValueError
  end.

(** What [step] does with the action once processed: the rest of
    [ExtendedEnv.step] from the call of the wrapped [step] on.  The
    reward of the wrapped environment and [reward_scale] are Python
    floats; their product is returned as [np.float32], the flag as
    [np.bool_]. *)
Definition forward (self : t) (a : action)
  : M World (value * float * bool * value) :=
  '(obs, reward, done, info) <- env_step (env self) a ;;
  let info := default_truncated info in
  '(obs, info) <- lift (unpack2 (f64_to_f32 (VList [obs; info]))) ;;
  ret (obs, np_float32 (float_mul reward (reward_scale self)), done, info).

(** [ExtendedEnv.step(self, action, *args, **kwargs)] *)
Definition step (self : t) (a : action)
  : M World (value * float * bool * value) :=
  a <- lift (_process_action self a) ;;
  forward self a.

End WithWorld.
Arguments t : clear implicits.
End ExtendedEnv.

(** ** Libraries the wrappers call *)

(** The calls into sapien ([Pose]), mani_skill2 ([flatten_state_dict]),
    OpenCV ([cv2.resize]) and numpy's global random generator.  They are not
    code of this repository: the wrappers are modelled over any
    implementation of them. *)
Class Libraries (World : Type) : Type := {
  (** [sapien.core.Pose] *)
  Pose : Type;
  (** [Pose(p=p, q=q)] *)
  Pose_new : vec -> vec -> Pose;
  (** [pose.inv()] *)
  inv : Pose -> Pose;
  (** [a * b] *)
  mul : Pose -> Pose -> Pose;
  (** [pose.p] and [pose.q] *)
  pose_p : Pose -> vec;
  pose_q : Pose -> vec;
  (** [pose.to_transformation_matrix()], a 4 by 4 matrix *)
  to_transformation_matrix : Pose -> mat;
  (** the dtype of the arrays sapien hands out *)
  pose_dtype : dtype;
  (** [mani_skill2.utils.common.flatten_state_dict] *)
  flatten_state_dict : value -> outcome value;
  (** [cv2.resize(img, size, interpolation=cv2.INTER_LINEAR)] *)
  cv2_resize : dtype * tensor3 -> nat * nat -> outcome (dtype * array);
  (** one draw of [np.random.uniform(low, high)] *)
  uniform : Q -> Q -> World -> Q * World;
  (** one draw of an index below [n] *)
  rand_index : nat -> World -> nat * World
}.

(** [k] draws in a row. *)
Fixpoint draws {World A : Type} (draw : World -> A * World) (k : nat) (w : World)
  : list A * World :=
  match k with
  | O => ([], w)
  | S k' =>
      let (x, w1) := draw w in
      let (xs, w2) := draws draw k' w1 in
      (x :: xs, w2)
  end.

(** [k] draws as a call. *)
Definition sample {World A : Type} (draw : World -> A * World) (k : nat)
  : M World (list A) :=
  fun w => let (xs, w') := draws draw k w in (Return xs, w').

(** ** [class ManiSkill2_ObsWrapper] *)

Module ManiSkill2_ObsWrapper.
Section WithWorld.
Context {World : Type} {L : Libraries World}.

(** The attributes set by [__init__].  The source sets [img_size] only
    in rgbd mode and [n_points], [n_goal_points] only in pointcloud mode,
    which are the only modes that read them. *)
Record t : Type := {
  env : GymEnv World;
  img_size : option (nat * nat);
  n_points : nat;
  n_goal_points : Z;
  obs_frame : string;
  ignore_dones : bool;
  fix_seed : option Z
}.

(** [ManiSkill2_ObsWrapper.__init__], with the defaults
    [img_size=None, n_points=1200, n_goal_points=-1, obs_frame='base',
    ignore_dones=False, fix_seed=None]. *)
Definition __init__ (env : GymEnv World) (img_size : option (nat * nat))
    (n_points : nat) (n_goal_points : Z) (obs_frame : string)
    (ignore_dones : bool) (fix_seed : option Z) : t :=
  {| env := env; img_size := img_size; n_points := n_points;
     n_goal_points := n_goal_points; obs_frame := obs_frame;
     ignore_dones := ignore_dones; fix_seed := fix_seed |}.

(** *** Frame changes *)

(** Modelled from the spec: [apply_pose_to_point] and
    [apply_pose_to_points] are imported from
    [maniskill2_learn/utils/lib3d/mani_skill2_contrib], which is not part
    of the sources at hand.  The spec has them convert positions into the
    target reference frame: each point, in homogeneous coordinates, is
    multiplied by the transformation matrix of the pose. *)
Definition apply_pose_to_point (x : dtype * vec) (pose : Pose) : dtype * vec :=
  (promote (fst x) pose_dtype,
   firstn 3 (mat_vec (to_transformation_matrix pose) (snd x ++ [1])%list)).

Definition apply_pose_to_points (x : value) (pose : Pose) : outcome value :=
  '(dt, m) <- as_mat x ;;
  ret (VArr (promote dt pose_dtype)
            (A2 (map (fun r => snd (apply_pose_to_point (dt, r) pose)) m))).

(** [Pose(p=v[:3], q=v[3:])] *)
Definition pose_of (v : value) : outcome Pose :=
  '(_, x) <- as_vec v ;;
  ret (Pose_new (firstn 3 x) (skipn 3 x)).

(** [v[:3]] *)
Definition head3 (v : value) : outcome (dtype * vec) :=
  '(dt, x) <- as_vec v ;;
  ret (dt, firstn 3 x).

(** Lines 285 to 295: the pose that maps world coordinates into the
    frame [obs_frame]; an unknown frame ends the process ([exit(0)],
    after a message on the standard output). *)
Definition to_origin_of (self : t) (observation : value) : outcome Pose :=
  if existsb (String.eqb (obs_frame self)) ["base"; "world"] then
    agent <- item observation "agent" ;;
    base_pose <- item agent "base_pose" ;;
    pose <- pose_of base_pose ;;
    ret (inv pose)
  else if String.eqb (obs_frame self) "ee" then
    extra <- item observation "extra" ;;
    pose <- item extra "tcp_pose" ;;
    pose <- pose_of pose ;;
    ret (inv pose)
  else Exit 0.

(** *** Point clouds *)

(** Lines 298 to 305, on the copy of [observation['pointcloud']]: when
    the cloud comes as [xyzw] (an N by 4 array), the points whose [w] is
    not above 0.5 are dropped from every field. *)
Definition mask_pointcloud (pointcloud : dict) : outcome dict :=
  match dict_get "xyzw" pointcloud with
  | None | Some VNone => ret (dict_pop "xyzw" pointcloud)
  | Some xyzw =>
      let pointcloud := dict_pop "xyzw" pointcloud in
      assert (negb (dict_mem "xyz" pointcloud)) "" ;;
      '(dt, rows) <- as_mat xyzw ;;
      w <- last_col rows ;;
      let mask := map (fun x => Qgtb x (1 # 2)) w in
      let xyz := map (@removelast Q) rows in
      pointcloud <- mapM (fun kv => v <- getitem_mask mask (snd kv) ;;
                                    ret (fst kv, v)) pointcloud ;;
      xyz <- getitem_mask mask (VArr dt (A2 xyz)) ;;
      ret (dict_set "xyz" xyz pointcloud)
  end.

(** Line 306: [{mode: pointcloud[mode] for mode in ['xyz', 'rgb',
    'robot_seg'] if mode in pointcloud}] *)
Definition select_modes (pointcloud : dict) : dict :=
  flat_map (fun mode => match dict_get mode pointcloud with
                        | Some v => [(mode, v)]
                        | None => []
                        end) ["xyz"; "rgb"; "robot_seg"].

(** Modelled from the spec: [pcd_uniform_downsample] is imported from
    [maniskill2_learn/env/observation_process], which is not part of the
    sources at hand.  The spec names it only as the downsampling that
    fixes the downsampled point count: the cloud is resampled to [num]
    points, every field at the same drawn indices.  What [ground_eps]
    does to the candidate points is not said and is left out. *)
Definition pcd_uniform_downsample (ret_ : dict) (ground_eps : Q) (num : nat)
  : M World dict :=
  '(_, xyz) <- lift (v <- getitem "xyz" ret_ ;; as_mat v) ;;
  match xyz with
  | [] => lift (Raise ValueError)
  | _ =>
      idx <- sample (rand_index (length xyz)) num ;;
      lift (mapM (fun kv => v <- getitem_indices idx (snd kv) ;;
                            ret (fst kv, v)) ret_)
  end.

(** Lines 313 to 328: what the [extra] dict says about the end effector
    and the goal. *)
Record extras : Type := {
  tcp_pose : option Pose;
  goal_pos : option (dtype * vec);
  goal_pose : option Pose;
  tcp_to_goal_pos : option (dtype * vec)
}.

Definition read_extras (extra : dict) : outcome extras :=
  tcp_pose <- (if dict_mem "tcp_pose" extra
               then v <- getitem "tcp_pose" extra ;;
                    p <- pose_of v ;; ret (Some p)
               else ret None) ;;
  '(goal_pos, goal_pose) <-
     (if dict_mem "goal_pos" extra
      then v <- getitem "goal_pos" extra ;;
           g <- as_vec v ;; ret (Some g, None)
      else if dict_mem "goal_pose" extra
      then v <- getitem "goal_pose" extra ;;
           g <- head3 v ;;
           p <- pose_of v ;; ret (Some g, Some p)
      else ret (None, None)) ;;
  tcp_to_goal_pos <-
     match tcp_pose, goal_pos with
     | Some _, Some g =>
         v <- getitem "tcp_pose" extra ;;
         t <- head3 v ;;
         d <- vzip Qminus (snd g) (snd t) ;;
         ret (Some (promote (fst g) (fst t), d))
     | _, _ => ret None
     end ;;
  ret {| tcp_pose := tcp_pose; goal_pos := goal_pos;
         goal_pose := goal_pose; tcp_to_goal_pos := tcp_to_goal_pos |}.

(** [np.zeros_like(r)] with [r[1] = 1], for one row. *)
Definition green (r : vec) : outcome vec :=
  match map (fun _ => 0) r with
  | a :: _ :: rest => Return (a :: 1 :: rest)
  | _ => Raise IndexError
  end.

(** Lines 330 to 340: [n_goal_points] random points around the goal,
    coloured green, appended to the cloud. *)
Definition add_goal_points (self : t) (to_origin : Pose)
    (goal_pos : option (dtype * vec)) (ret_ : dict) : M World dict :=
  if (n_goal_points self >? 0)%Z then
    match goal_pos with
    | None =>
        lift (Raise (AssertionError
          "n_goal_points should only be used if goal_pos(e) is contained in the environment observation"))
    | Some (gdt, g) =>
        noise <- sample (draws (uniform (-1) 1) 3) (Z.to_nat (n_goal_points self)) ;;
        let goal_pts_xyz := map (map (fun x => x * (1 # 100))) noise in
        lift (goal_pts_xyz <- mapM (fun r => vzip Qplus r g) goal_pts_xyz ;;
              goal_pts_xyz <- apply_pose_to_points
                                (VArr (promote Float64 gdt) (A2 goal_pts_xyz))
                                to_origin ;;
              '(gdt', goal_pts_xyz) <- as_mat goal_pts_xyz ;;
              goal_pts_rgb <- mapM green goal_pts_xyz ;;
              xyz <- (v <- getitem "xyz" ret_ ;; as_mat v) ;;
              '(dt, xyz) <- concatenate [xyz; (gdt', goal_pts_xyz)] ;;
              let ret_ := dict_set "xyz" (VArr dt (A2 xyz)) ret_ in
              rgb <- (v <- getitem "rgb" ret_ ;; as_mat v) ;;
              '(dt, rgb) <- concatenate [rgb; (gdt', goal_pts_rgb)] ;;
              ret (dict_set "rgb" (VArr dt (A2 rgb)) ret_))
    end
  else ret ret_.

(** *** State vectors *)

Definition opt_list {A : Type} (o : option A) : list A :=
  match o with Some x => [x] | None => [] end.

(** Lines 342 to 367: positions in the target frame, stacked. *)
Definition frame_related_states (observation : value) (extra : dict)
    (e : extras) (to_origin : Pose) : outcome (dtype * mat) :=
  agent <- item observation "agent" ;;
  base_pose <- item agent "base_pose" ;;
  base <- head3 base_pose ;;
  let base_info := apply_pose_to_point base to_origin in
  let tcp_info :=
    map (fun tp => apply_pose_to_point (pose_dtype, pose_p tp) to_origin)
        (opt_list (tcp_pose e)) in
  let goal_info :=
    map (fun g => apply_pose_to_point g to_origin) (opt_list (goal_pos e)) in
  let tcp_to_goal_info :=
    map (fun g => apply_pose_to_point g to_origin)
        (opt_list (tcp_to_goal_pos e)) in
  gripper_info <- (if dict_mem "gripper_pose" extra
                   then v <- getitem "gripper_pose" extra ;;
                        g <- head3 v ;;
                        ret [apply_pose_to_point g to_origin]
                   else ret []) ;;
  joint_axis_info <-
     (if dict_mem "joint_axis" extra
      then v <- getitem "joint_axis" extra ;;
           '(dt, axis) <- as_vec v ;;
           let rot := map (firstn 3) (firstn 3 (to_transformation_matrix to_origin)) in
           ret [(promote pose_dtype dt, mat_vec rot axis)]
      else ret []) ;;
  link_pos_info <- (if dict_mem "link_pos" extra
                    then v <- getitem "link_pos" extra ;;
                         g <- as_vec v ;;
                         ret [apply_pose_to_point g to_origin]
                    else ret []) ;;
  stack (base_info :: tcp_info ++ goal_info ++ tcp_to_goal_info
           ++ gripper_info ++ joint_axis_info ++ link_pos_info)%list.

(** [np.hstack([pose.p, pose.q])] *)
Definition hstack_pose (pose : Pose) : dtype * vec :=
  (pose_dtype, (pose_p pose ++ pose_q pose)%list).

(** Lines 369 to 380: the goal pose, and the pose of the goal relative
    to the end effector, in the target frame. *)
Definition frame_goal_related_poses (e : extras) (to_origin : Pose)
  : list (dtype * vec) :=
  match goal_pose e with
  | Some gp =>
      hstack_pose (mul to_origin gp)
      :: map (fun tp => hstack_pose (mul to_origin (mul gp (inv tp))))
             (opt_list (tcp_pose e))
  | None => []
  end.

(** Lines 385 to 397: the transforms into the base, hand and goal
    frames, stacked. *)
Definition to_frames (observation : value) (e : extras) (to_origin : Pose)
  : outcome (dtype * tensor3) :=
  agent <- item observation "agent" ;;
  base_pose <- item agent "base_pose" ;;
  base_pose <- pose_of base_pose ;;
  let frame (pose : Pose) :=
    (pose_dtype, to_transformation_matrix (inv (mul to_origin pose))) in
  stack (frame base_pose
         :: map frame (opt_list (tcp_pose e))
         ++ map frame (opt_list (goal_pose e)))%list.

(** [val.flatten() if isinstance(val, np.ndarray) else np.array([val])] *)
Definition as_flat (val : value) : outcome (dtype * vec) :=
  match val with
  | VArr dt a => Return (dt, flatten a)
  | VBool b => Return (Bool_, [if b then 1 else 0])
  | VInt n => Return (Int64, [inject_Z n])
  | _ => Raise TypeError
  end.

Definition state_keys_left_out : list string :=
  ["tcp_pose"; "goal_pos"; "goal_pose"; "tcp_to_goal_pos";
   "tcp_to_goal_pose"; "joint_axis"; "link_pos"].

(** Lines 399 to 412: joint positions and velocities, then the stacked
    states, then what is left of [extra]. *)
Definition agent_state (observation : value) (extra : dict)
    (frs : dtype * mat) (fgp : list (dtype * vec)) : outcome (dtype * vec) :=
  agent <- item observation "agent" ;;
  qpos <- (v <- item agent "qpos" ;; as_vec v) ;;
  qvel <- (v <- item agent "qvel" ;; as_vec v) ;;
  agent_state <- concatenate [qpos; qvel] ;;
  agent_state <- (if Nat.ltb 0 (length (snd frs))
                  then concatenate [agent_state; (fst frs, concat (snd frs))]
                  else ret agent_state) ;;
  agent_state <- (if Nat.ltb 0 (length fgp)
                  then poses <- stack fgp ;;
                       concatenate [agent_state; (fst poses, concat (snd poses))]
                  else ret agent_state) ;;
  fold_left (fun acc kv =>
               agent_state <- acc ;;
               if existsb (String.eqb (fst kv)) state_keys_left_out
               then ret agent_state
               else val <- as_flat (snd kv) ;;
                    concatenate [agent_state; val])
            extra (Return agent_state).

(** Lines 342 to 415: the fields added to the cloud. *)
Definition add_states (observation : value) (extra : dict) (e : extras)
    (to_origin : Pose) (ret_ : dict) : outcome value :=
  frs <- frame_related_states observation extra e to_origin ;;
  let ret_ := dict_set "frame_related_states" (VArr (fst frs) (A2 (snd frs))) ret_ in
  let fgp := frame_goal_related_poses e to_origin in
  ret_ <- (if Nat.ltb 0 (length fgp)
           then poses <- stack fgp ;;
                ret (dict_set "frame_goal_related_poses"
                              (VArr (fst poses) (A2 (snd poses))) ret_)
           else ret ret_) ;;
  frames <- to_frames observation e to_origin ;;
  let ret_ := dict_set "to_frames" (VArr (fst frames) (A3 (snd frames))) ret_ in
  state <- agent_state observation extra frs fgp ;;
  ret (VDict (dict_set "state" (VArr (fst state) (A1 (snd state))) ret_)).

(** The wrapped environment already downsamples: line 309. *)
Definition preprocessed (self : t) : bool :=
  contains "PointCloudPreprocessObsWrapper" (env_str (env self)).

(** Lines 285 to 415: the pointcloud mode. *)
Definition observation_pointcloud (self : t) (observation : value)
  : M World value :=
  to_origin <- lift (to_origin_of self observation) ;;
  pointcloud <- lift (pc <- item observation "pointcloud" ;; as_dict pc) ;;
  pointcloud <- lift (mask_pointcloud pointcloud) ;;
  let ret_ := select_modes pointcloud in
  rgb <- lift (v <- getitem "rgb" ret_ ;; true_divide v 255) ;;
  let ret_ := dict_set "rgb" rgb ret_ in
  ret_ <- (if negb (preprocessed self)
           then pcd_uniform_downsample ret_ (1 # 10000) (n_points self)
           else ret ret_) ;;
  xyz <- lift (v <- getitem "xyz" ret_ ;; apply_pose_to_points v to_origin) ;;
  let ret_ := dict_set "xyz" xyz ret_ in
  extra <- lift (x <- item observation "extra" ;; as_dict x) ;;
  e <- lift (read_extras extra) ;;
  ret_ <- add_goal_points self to_origin (goal_pos e) ret_ ;;
  lift (add_states observation extra e to_origin ret_).

(** *** Images *)

Fixpoint zip_with_strict {A B C : Type} (f : A -> B -> outcome C)
    (a : list A) (b : list B) : outcome (list C) :=
  match a, b with
  | [], [] => Return []
  | x :: a', y :: b' =>
      z <- f x y ;; zs <- zip_with_strict f a' b' ;; ret (z :: zs)
  | _, _ => Raise ValueError
  end.

(** [np.concatenate(l, axis=2)]: the channels of every pixel, one camera
    after the other. *)
Definition concatenate_axis2 (l : list value) : outcome (dtype * tensor3) :=
  l <- mapM as_tensor3 l ;;
  match l with
  | [] => Raise ValueError
  | first :: l' =>
      fold_left (fun acc x =>
                   '(dt, t) <- acc ;;
                   t' <- zip_with_strict
                           (zip_with_strict (fun px py => Return (px ++ py)%list))
                           t (snd x) ;;
                   ret (promote dt (fst x), t'))
                l' (Return first)
  end.

(** [(t.shape[0], t.shape[1])] *)
Definition shape01 (t : tensor3) : nat * nat :=
  (length t, match t with r :: _ => length r | [] => 0%nat end).

Definition size_eqb (a b : nat * nat) : bool :=
  Nat.eqb (fst a) (fst b) && Nat.eqb (snd a) (snd b).

(** [a.transpose(2, 0, 1)] *)
Definition transpose (a : dtype * array) : outcome value :=
  match snd a with
  | A3 t => Return (VArr (fst a) (A3 (transpose201 t)))
  | _ => Raise ValueError
  end.

(** Lines 241 to 270: the rgbd mode. *)
Definition observation_rgbd (self : t) (observation : value) : outcome value :=
  obs <- as_dict observation ;;
  imgs <- (v <- getitem "image" obs ;; as_dict v) ;;
  cams <- mapM (fun cam => rgb <- item (snd cam) "rgb" ;;
                           depth <- item (snd cam) "depth" ;;
                           ret (rgb, depth)) imgs ;;
  rgb <- concatenate_axis2 (map fst cams) ;;
  assert (dtype_eqb (fst rgb) UInt8) "" ;;
  depth <- concatenate_axis2 (map snd cams) ;;
  let obs := dict_pop "image" obs in
  extra <- (v <- getitem "extra" obs ;; as_dict v) ;;
  obs <- (if dict_mem "tcp_pose" extra && dict_mem "goal_pos" extra
          then g <- (v <- getitem "goal_pos" extra ;; as_vec v) ;;
               t <- (v <- getitem "tcp_pose" extra ;; head3 v) ;;
               d <- vzip Qminus (snd g) (snd t) ;;
               let extra := dict_set "tcp_to_goal_pos"
                              (VArr (promote (fst g) (fst t)) (A1 d)) extra in
               ret (dict_set "extra" (VDict extra) obs)
          else ret obs) ;;
  s <- flatten_state_dict (VDict obs) ;;
  '(rgb, depth) <-
     match img_size self with
     | Some sz =>
         if negb (size_eqb sz (shape01 (snd rgb)))
         then rgb <- cv2_resize (Float16, snd rgb) sz ;;
              depth <- cv2_resize depth sz ;;
              ret ((UInt8, astype UInt8 (snd rgb)), depth)
         else ret ((fst rgb, A3 (snd rgb)), (fst depth, A3 (snd depth)))
     | None => ret ((fst rgb, A3 (snd rgb)), (fst depth, A3 (snd depth)))
     end ;;
  let depth := (Float16, astype Float16 (snd depth)) in
  rgb <- transpose rgb ;;
  depth <- transpose depth ;;
  ret (VDict [("rgb", rgb); ("depth", depth); ("state", s)]).

(** Lines 416 to 427: the particles mode, and every other mode. *)
Definition observation_particles (observation : value) : outcome value :=
  match observation with
  | VDict obs =>
      if dict_mem "particles" obs then
        particles <- getitem "particles" obs ;;
        xyz <- item particles "x" ;;
        vel <- item particles "v" ;;
        agent <- getitem "agent" obs ;;
        state <- flatten_state_dict agent ;;
        ret (VDict [("xyz", xyz); ("state", state)])
      else ret observation
  | _ => Raise (AttributeError "keys")
  end.

(** *** The wrapper's calls *)

(** [ManiSkill2_ObsWrapper.observation(self, observation)].  [obs_mode]
    is an attribute of the wrapped environment. *)
Definition observation (self : t) (observation : value) : M World value :=
  let obs_mode := obs_mode (env self) in
  if String.eqb obs_mode "state" then ret observation
  else if String.eqb obs_mode "rgbd" then lift (observation_rgbd self observation)
  else if String.eqb obs_mode "pointcloud" then observation_pointcloud self observation
  else if String.eqb obs_mode "particles" then lift (observation_particles observation)
  else ret observation.

(** [ManiSkill2_ObsWrapper.reset(self, **kwargs)]; a [seed] given twice
    is refused by Python. *)
Definition reset (self : t) (kwargs : dict) : M World value :=
  obs <- match fix_seed self with
         | Some seed =>
             if dict_mem "seed" kwargs then lift (Raise TypeError)
             else env_reset (env self) (("seed", VInt seed) :: kwargs)
         | None => env_reset (env self) kwargs
         end ;;
  observation self obs.

(** [gym.core.ObservationWrapper.step], which [super().step] resolves
    to: the observation of the wrapped step goes through [observation]. *)
Definition super_step (self : t) (a : action)
  : M World (value * Q * bool * value) :=
  '(obs, reward, done, info) <- env_step (env self) a ;;
  obs <- observation self obs ;;
  ret (obs, reward, done, info).

(** [ManiSkill2_ObsWrapper.step(self, action)] *)
Definition step (self : t) (a : action) : M World (value * Q * bool * value) :=
  '(next_obs, reward, done, info) <- super_step self a ;;
  let done := if ignore_dones self then false else done in
  ret (next_obs, reward, done, info).

(** [ManiSkill2_ObsWrapper.get_obs(self)] *)
Definition get_obs (self : t) : M World value :=
  obs <- env_get_obs (env self) ;;
  observation self obs.

(** The wrapper as an environment, for the next wrapper: attributes it
    does not define are those of the wrapped environment
    ([ExtendedWrapper.__getattr__]); gym prints a wrapper as its class
    name and the wrapped environment between angle brackets. *)
Definition as_env (self : t) : GymEnv World :=
  {| action_space := action_space (env self);
     obs_mode := obs_mode (env self);
     env_str := "<ManiSkill2_ObsWrapper" ++ env_str (env self) ++ ">";
     env_reset := reset self;
     env_step := step self;
     env_get_obs := get_obs self |}.

End WithWorld.
Arguments t : clear implicits.
End ManiSkill2_ObsWrapper.

(** ** A small instance, for concrete runs *)

(** Stand-ins for the libraries, used to run the wrappers on concrete
    inputs: poses are translations (the quaternion is carried along and
    not applied), the random generator is a counter, [cv2.resize] keeps the
    image, [flatten_state_dict] lines up every array element it finds. *)
Module Demo.

Definition World : Type := nat.

Fixpoint elements (v : value) : vec :=
  match v with
  | VArr _ a => flatten a
  | VList l => flat_map elements l
  | VDict d => flat_map (fun kv => elements (snd kv)) d
  | _ => []
  end.

Definition translation (p : vec) : mat :=
  [[1; 0; 0; nth 0 p 0]; [0; 1; 0; nth 1 p 0]; [0; 0; 1; nth 2 p 0];
   [0; 0; 0; 1]].

#[global] Instance libraries : Libraries World := {|
  Pose := vec * vec;
  Pose_new := fun p q => (p, q);
  inv := fun a => (map Qopp (fst a), snd a);
  mul := fun a b => (map (fun xy => fst xy + snd xy) (combine (fst a) (fst b)), snd a);
  pose_p := fst;
  pose_q := snd;
  to_transformation_matrix := fun a => translation (fst a);
  pose_dtype := Float32;
  flatten_state_dict := fun v => Return (VArr Float32 (A1 (elements v)));
  cv2_resize := fun img _ => Return (fst img, A3 (snd img));
  uniform := fun lo hi w => ((lo + hi) / 2, S w);
  rand_index := fun n w => (Nat.modulo w n, S w)
|}.

(** An environment that always reports the same observation, reward,
    flag and info. *)
Definition constant_env (space : space) (mode str : string)
    (obs : value) (reward : Q) (done : bool) (info : value) : GymEnv World :=
  {| action_space := space;
     obs_mode := mode;
     env_str := str;
     env_reset := fun _ w => (Return obs, w);
     env_step := fun _ w => (Return (obs, reward, done, info), w);
     env_get_obs := fun w => (Return obs, w) |}.

(** A cloud of three points in [xyzw] form, the second one outside the
    depth range, with its colours. *)
Definition cloud_obs : value :=
  VDict [("pointcloud",
          VDict [("xyzw", VArr Float32 (A2 [[1; 0; 1; 1]; [5; 5; 5; 0]; [0; 2; 1; 1]]));
                 ("rgb", VArr UInt8 (A2 [[255; 0; 0]; [0; 0; 0]; [0; 0; 255]]))]);
         ("agent",
          VDict [("qpos", VArr Float32 (A1 [0; 0]));
                 ("qvel", VArr Float32 (A1 [0; 0]));
                 ("base_pose", VArr Float32 (A1 [1; 0; 0; 1; 0; 0; 0]))]);
         ("extra",
          VDict [("tcp_pose", VArr Float32 (A1 [1; 0; 1; 1; 0; 0; 0]));
                 ("goal_pos", VArr Float32 (A1 [1; 1; 1]))])].

(** An image observation of one camera with a single pixel. *)
Definition image_obs : value :=
  VDict [("image",
          VDict [("base_camera",
                  VDict [("rgb", VArr UInt8 (A3 [[[255; 0; 0]]]));
                         ("depth", VArr Float32 (A3 [[[1 # 2]]]))])]);
         ("agent", VDict [("qpos", VArr Float32 (A1 [0; 0]))]);
         ("extra", VDict [])].

(** A discrete environment in state mode, and [ExtendedEnv] around it
    with [reward_scale=3, use_cost=True]. *)
Definition discrete_env : GymEnv World :=
  constant_env (Discrete 4) "state" "<Env>"
               (VArr Float64 (A1 [1; 2])) (1 # 2) true (VDict []).

Definition discrete_self : ExtendedEnv.t World :=
  {| ExtendedEnv.env := discrete_env;
     ExtendedEnv.is_discrete := true;
     ExtendedEnv.is_cost := (-1)%Z;
     ExtendedEnv.reward_scale := 3 * inject_Z (-1) |}.

(** An environment whose info carries its own truncation entry, a
    float64 number, and [ExtendedEnv] around it with
    [reward_scale=1, use_cost=False]. *)
Definition truncating_info : dict :=
  [("TimeLimit.truncated", VArr Float64 (A0 1))].

Definition truncating_env : GymEnv World :=
  constant_env (Box [2%nat]) "state" "<Env>"
               (VArr Float64 (A1 [1; 2])) 1 false (VDict truncating_info).

Definition truncating_self : ExtendedEnv.t World :=
  {| ExtendedEnv.env := truncating_env;
     ExtendedEnv.is_discrete := false;
     ExtendedEnv.is_cost := 1%Z;
     ExtendedEnv.reward_scale := 1 * inject_Z 1 |}.

(** An environment whose episode was cut by a time limit: its info has
    the entry that Gym's [TimeLimit] sets, a bool; and [ExtendedEnv] around
    it with [reward_scale=1, use_cost=False]. *)
Definition timelimit_env : GymEnv World :=
  constant_env (Box [2%nat]) "state" "<Env>"
               (VArr Float64 (A1 [1; 2])) 1 true
               (VDict [("TimeLimit.truncated", VBool true)]).

Definition timelimit_self : ExtendedEnv.t World :=
  {| ExtendedEnv.env := timelimit_env;
     ExtendedEnv.is_discrete := false;
     ExtendedEnv.is_cost := 1%Z;
     ExtendedEnv.reward_scale := 1 * inject_Z 1 |}.

(** The observation wrapper in rgbd mode with its default arguments, and
    [ExtendedEnv] around it. *)
Definition rgbd_wrapper : ManiSkill2_ObsWrapper.t World :=
  ManiSkill2_ObsWrapper.__init__
    (constant_env (Box [7%nat]) "rgbd" "<Env>" image_obs 1 false (VDict []))
    None 1200 (-1) "base" false None.

Definition rgbd_self : ExtendedEnv.t World :=
  {| ExtendedEnv.env := ManiSkill2_ObsWrapper.as_env rgbd_wrapper;
     ExtendedEnv.is_discrete := false;
     ExtendedEnv.is_cost := 1%Z;
     ExtendedEnv.reward_scale := 1 * inject_Z 1 |}.

(** The observation wrapper in pointcloud mode. *)
Definition cloud_wrapper (str : string) (n_points : nat) (n_goal_points : Z)
    (obs_frame : string) : ManiSkill2_ObsWrapper.t World :=
  ManiSkill2_ObsWrapper.__init__
    (constant_env (Box [7%nat]) "pointcloud" str cloud_obs 1 true (VDict []))
    None n_points n_goal_points obs_frame true None.

(** The Python float [0.1], an environment in state mode whose reward it
    is, and [ExtendedEnv] around it with [reward_scale=1, use_cost=False]. *)
Definition tenth : Q := 3602879701896397 # 36028797018963968.

Definition tenth_env : GymEnv World :=
  constant_env (Discrete 4) "state" "<Env>"
               (VArr Float64 (A1 [1; 2])) tenth false (VDict []).

Definition tenth_self : ExtendedEnv.t World :=
  {| ExtendedEnv.env := tenth_env;
     ExtendedEnv.is_discrete := true;
     ExtendedEnv.is_cost := 1%Z;
     ExtendedEnv.reward_scale := 1 * inject_Z 1 |}.

(** The observation wrapper in state mode, with [ignore_dones=True]. *)
Definition state_wrapper : ManiSkill2_ObsWrapper.t World :=
  ManiSkill2_ObsWrapper.__init__ discrete_env None 1200 (-1) "base" true None.

End Demo.

(** ** Reading the results *)

(** The dtype a field has once float64 has been coerced to float32. *)
Definition coerced (dt : dtype) : dtype :=
  match dt with
  | Float64 => Float32
  | _ => dt
  end.

(** The number of points of a per-point field: the extent of its first
    axis. *)
Definition n_rows (field : option value) : option nat :=
  match field with
  | Some (VArr _ (A1 v)) => Some (length v)
  | Some (VArr _ (A2 m)) => Some (length m)
  | Some (VArr _ (A3 t)) => Some (length t)
  | _ => None
  end.




(** The number of goal points the wrapper injects. *)
Definition goal_count (n_goal_points : Z) : nat :=
  if (n_goal_points >? 0)%Z then Z.to_nat n_goal_points else 0%nat.

(** ** The rest of the wrappers *)

(** A loop of stateful calls that stops at the first failure. *)
Fixpoint forM {World A B : Type} (f : A -> M World B) (l : list A)
  : M World (list B) :=
  match l with
  | [] => ret []
  | x :: l' => y <- f x ;; ys <- forM f l' ;; ret (y :: ys)
  end.

(** [v[i]] for an index along the first axis. *)
Definition getitem_int (v : value) (i : nat) : outcome value :=
  let pick {A : Type} (l : list A) : outcome A :=
    match nth_error l i with
    | Some x => Return x
    | None => Raise IndexError
    end in
  match v with
  | VArr dt (A1 x) => y <- pick x ;; ret (VArr dt (A0 y))
  | VArr dt (A2 m) => y <- pick m ;; ret (VArr dt (A1 y))
  | VArr dt (A3 t) => y <- pick t ;; ret (VArr dt (A2 y))
  | VList l => pick l
  | _ => Raise IndexError
  end.

(** Methods that some environments have and others lack; the wrappers
    look them up with [hasattr], or call them through
    [ExtendedWrapper.__getattr__]. *)
Record StateApi (World : Type) : Type := {
  set_state : option (value -> M World unit);
  get_state : option (M World value)
}.

Arguments set_state {World} _.
Arguments get_state {World} _.

(** *** [ExtendedEnv.step_states_actions] *)

Module ExtendedEnvApi.
Section WithWorld.
Context {World : Type}.

(** The reward of one step, as written into [rewards[i, j]], a slice of
    the extent of [actions[i, j, :1]]. *)
Definition reward_entry (self : ExtendedEnv.t World) (act : vec)
  : M World (list float) :=
  '(_, reward, _, _) <- ExtendedEnv.step self (AArr (A1 act)) ;;
  ret (map (fun _ => reward) (firstn 1 act)).

(** [ExtendedEnv.step_states_actions(self, states=None, actions=None)];
    [states] is None or an array of states, [actions] an array.  What
    it returns is the array [rewards]: its dtype and its entries, which
    are the rewards as [step] returns them. *)
Definition step_states_actions (self : ExtendedEnv.t World) (api : StateApi World)
    (states actions : value) : M World (dtype * list (list (list float))) :=
  match actions with
  | VArr _ (A3 t) =>
      rewards <- forM (fun i_row =>
                         match set_state api, states with
                         | None, _ | _, VNone => ret tt
                         | Some set_state, _ =>
                             s <- lift (getitem_int states (fst i_row)) ;;
                             set_state s
                         end ;;
                         forM (reward_entry self) (snd i_row))
                      (combine (seq 0 (length t)) t) ;;
      ret (Float32, rewards)
  | VArr _ _ => lift (Raise (AssertionError ""))
  | _ => lift (Raise (AttributeError "ndim"))
  end.

End WithWorld.
End ExtendedEnvApi.

(** *** [class FixedInitWrapper] *)

Module FixedInitWrapper.
Section WithWorld.
Context {World : Type}.

Record t : Type := {
  env : GymEnv World;
  api : StateApi World;
  init_state : value;
  level : option value
}.

(** [FixedInitWrapper.__init__(self, env, init_state, level=None)]; [api]
    is what the wrapped environment offers besides the Gym calls. *)
Definition __init__ (env : GymEnv World) (api : StateApi World)
    (init_state : value) (level : option value) : t :=
  {| env := env; api := api; init_state := init_state; level := level |}.

(** [FixedInitWrapper.reset(self, *args, **kwargs)]: the arguments are
    not used. *)
Definition reset (self : t) (kwargs : dict) : M World value :=
  env_reset (env self)
            (match level self with
             | Some l => [("level", l)]
             | None => []
             end) ;;
  match set_state (api self) with
  | Some set_state => set_state (init_state self)
  | None => lift (Raise (AttributeError "set_state"))
  end ;;
  env_get_obs (env self).

End WithWorld.
Arguments t : clear implicits.
End FixedInitWrapper.

(** *** [ManiSkill2_ObsWrapper.render] *)

(** What [env.render] hands back: nothing, an image of rank up to three,
    a batch of images (rank four), or a dict of such by name. *)
Inductive rendered : Type :=
| RNone
| RImg (dt : dtype) (a : array)
| RBatch (dt : dtype) (b : list tensor3)
| RDict (d : list (string * rendered)).

Fixpoint rendered_get (k : string) (d : list (string * rendered)) : option rendered :=
  match d with
  | [] => None
  | (k', v) :: d' => if String.eqb k k' then Some v else rendered_get k d'
  end.

(** [np.clip(x, a_min=lo, a_max=hi)] *)
Definition clip (x lo hi : Q) : Q :=
  if Qle_bool x lo then lo else if Qle_bool hi x then hi else x.

(** [a[..., :3]] *)
Definition first3 (a : array) : outcome array :=
  match a with
  | A0 _ => Raise IndexError
  | A1 v => Return (A1 (firstn 3 v))
  | A2 m => Return (A2 (map (firstn 3) m))
  | A3 t => Return (A3 (map (map (firstn 3)) t))
  end.

Module Render.
Section WithWorld.
Context {World : Type}.

(** Lines 442 to 451: the image picked out of a dict. *)
Definition pick_image (img : rendered) : outcome rendered :=
  img <- match img with
         | RDict d =>
             match rendered_get "world" d, rendered_get "main" d with
             | Some world, _ => ret world
             | None, Some main => ret main
             | None, None => Exit 0
             end
         | _ => ret img
         end ;;
  match img with
  | RDict d =>
      match rendered_get "rgb" d with
      | Some rgb => ret rgb
      | None => Raise (KeyError "rgb")
      end
  | _ => ret img
  end.

(** Lines 452 to 459: one image, scaled to 0..255 if it is float32 or
    float64, cut to three channels, as uint8.  The product with 255 is
    rounded to the dtype of the image; it is at most 255. *)
Definition to_uint8 (img : rendered) : outcome value :=
  '(dt, a) <- match img with
              | RBatch dt b =>
                  assert (Nat.eqb (length b) 1) "" ;;
                  match b with
                  | t :: _ => ret (dt, A3 t)
                  | [] => Raise IndexError
                  end
              | RImg dt a => ret (dt, a)
              | _ => Raise (AttributeError "ndim")
              end ;;
  let a := if dtype_eqb dt Float32 || dtype_eqb dt Float64
           then array_map (fun x => element (round dt (clip x 0 1 * 255))) a
           else a in
  a <- first3 a ;;
  ret (VArr UInt8 (astype UInt8 a)).

(** [ManiSkill2_ObsWrapper.render(self, mode="human", *args, **kwargs)];
    [env_render] is the [render] of the wrapped environment. *)
Definition render (env_render : string -> M World rendered) (mode : string)
  : M World value :=
  if String.eqb mode "human" then
    env_render mode ;; ret VNone
  else
    img <- (if existsb (String.eqb mode) ["rgb_array"; "color_image"]
            then env_render "rgb_array"
            else env_render mode) ;;
    lift (img <- pick_image img ;; to_uint8 img).

End WithWorld.
End Render.

(** *** Instances for concrete runs of the rest *)

Module Cases.

(** An environment whose state is a counter: each step adds one to it and
    pays the first component of the action times the count so far. *)
Definition counting_env : GymEnv nat :=
  {| action_space := Box [2%nat];
     obs_mode := "state";
     env_str := "<Env>";
     env_reset := fun _ w => (Return (VArr Float32 (A0 0)), 0%nat);
     env_step := fun a w =>
       (Return (VArr Float32 (A0 (inject_Z (Z.of_nat w))),
                match a with
                | AArr (A1 (x :: _)) => x * inject_Z (Z.of_nat w)
                | _ => 0
                end, false, VDict []), S w);
     env_get_obs := fun w => (Return (VArr Float32 (A0 (inject_Z (Z.of_nat w)))), w) |}.

Definition counting_self : ExtendedEnv.t nat :=
  {| ExtendedEnv.env := counting_env;
     ExtendedEnv.is_discrete := false;
     ExtendedEnv.is_cost := 1%Z;
     ExtendedEnv.reward_scale := 2 * inject_Z 1 |}.

Definition no_api : StateApi nat := {| set_state := None; get_state := None |}.

(** The same counter with [set_state] and [get_state]: a state is the
    count, as an integer. *)
Definition counter_api : StateApi nat :=
  {| set_state := Some (fun s w => match s with
                                   | VInt n => (Return tt, Z.to_nat n)
                                   | _ => (Raise TypeError, w)
                                   end);
     get_state := Some (fun w => (Return (VInt (Z.of_nat w)), w)) |}.


Definition fixed_counter : FixedInitWrapper.t nat :=
  FixedInitWrapper.__init__ counting_env counter_api (VInt 7) None.

Definition unfixable_counter : FixedInitWrapper.t nat :=
  FixedInitWrapper.__init__ counting_env no_api (VInt 7) (Some (VInt 3)).

(** A renderer that hands back the same thing in every mode. *)
Definition renders (img : rendered) : string -> M nat rendered :=
  fun _ w => (Return img, S w).

(** A float image of one pixel with four channels, one value below 0 and
    one above 1. *)
Definition float_image : rendered :=
  RImg Float32 (A3 [[[1 # 2; -1; 2; 1]]]).

(** A float64 image of one pixel whose channels are the Python floats
    [1/255], [3/255] and [7/255]. *)
Definition dim_image : rendered :=
  RImg Float64 (A3 [[[282578800148737 # 72057594037927936;
                      847736400446211 # 72057594037927936;
                      1978051601041159 # 72057594037927936]]]).

End Cases.

(** The last axis of an image has at most three entries. *)
Definition at_most_three_channels (a : array) : Prop :=
  match a with
  | A0 _ => True
  | A1 v => (length v <= 3)%nat
  | A2 m => Forall (fun r => (length r <= 3)%nat) m
  | A3 t => Forall (Forall (fun px => (length px <= 3)%nat)) t
  end.

(** Every element of an array is a whole number from 0 to 255. *)
Definition all_bytes (a : array) : Prop :=
  Forall (fun x => exists z, x = inject_Z z /\ (0 <= z <= 255)%Z) (flatten a).

(** The mode [render] asks the wrapped environment for. *)
Definition asked_mode (mode : string) : string :=
  if existsb (String.eqb mode) ["rgb_array"; "color_image"]
  then "rgb_array" else mode.

(** What [extra] holds, as the pointcloud mode reads it: the end-effector
    pose, a goal position (given as such, or as the position of a goal
    pose), and a goal pose, which counts only when no goal position is
    given. *)
Definition has_tcp_pose (extra : dict) : bool := dict_mem "tcp_pose" extra.

Definition has_goal (extra : dict) : bool :=
  dict_mem "goal_pos" extra || dict_mem "goal_pose" extra.

Definition uses_goal_pose (extra : dict) : bool :=
  negb (dict_mem "goal_pos" extra) && dict_mem "goal_pose" extra.

(** The keys of the observation the pointcloud mode returns. *)
Definition pointcloud_keys (pointcloud extra : dict) : list string :=
  (["xyz"; "rgb"]
   ++ (if dict_mem "robot_seg" pointcloud then ["robot_seg"] else [])
   ++ ["frame_related_states"]
   ++ (if uses_goal_pose extra then ["frame_goal_related_poses"] else [])
   ++ ["to_frames"; "state"])%list.



(** [Demo.image_obs] with another picture: the pixel is blue and twice as
    far. *)
Definition blue_image_obs : value :=
  VDict [("image",
          VDict [("base_camera",
                  VDict [("rgb", VArr UInt8 (A3 [[[0; 0; 255]]]));
                         ("depth", VArr Float32 (A3 [[[1]]]))])]);
         ("agent", VDict [("qpos", VArr Float32 (A1 [0; 0]))]);
         ("extra", VDict [])].

(** The colours of a camera are an image of bytes or of booleans. *)
Definition byte_image (cam : string * value) : Prop :=
  exists dt t,
    item (snd cam) "rgb" = Return (VArr dt (A3 t)) /\ (dt = UInt8 \/ dt = Bool_).

(** * Properties *)

(** ** Reasoning about calls *)

Lemma obind_Return {A B : Type} (c : outcome A) (k : A -> outcome B) (b : B) :
  obind c k = Return b -> exists a, c = Return a /\ k a = Return b.
Proof. destruct c as [a | e | n]; simpl; intros H; try discriminate; eauto. Qed.

Lemma mbind_Return {World A B : Type} (c : M World A) (k : A -> M World B)
    (w w' : World) (b : B) :
  mbind c k w = (Return b, w') ->
  exists a w1, c w = (Return a, w1) /\ k a w1 = (Return b, w').
Proof.
  unfold mbind. destruct (c w) as [[a | e | n] w1]; intros H;
    try discriminate; eauto.
Qed.

Lemma lift_Return {World A : Type} (c : outcome A) (w w' : World) (a : A) :
  @lift World A c w = (Return a, w') -> c = Return a /\ w' = w.
Proof. unfold lift. intros H. inversion H. auto. Qed.

Lemma assert_Return (c : bool) (msg : string) (u : unit) :
  assert c msg = Return u -> c = true.
Proof. destruct c; simpl; [reflexivity | discriminate]. Qed.

(** Take a returning call apart, one bind at a time. *)
Ltac returns H :=
  let a := fresh "a" in
  let w := fresh "w" in
  let H1 := fresh "H" in
  first
    [ apply mbind_Return in H; destruct H as (a & w & H1 & H)
    | apply obind_Return in H; destruct H as (a & H1 & H)
    | apply lift_Return in H; destruct H as (H & ->)
    | apply assert_Return in H ].

(** Take apart every returning call among the hypotheses. *)
Ltac unbind :=
  repeat match goal with
    | H : obind _ _ = Return _ |- _ =>
        apply obind_Return in H; destruct H as (? & ? & H)
    | H : mbind _ _ _ = (Return _, _) |- _ =>
        apply mbind_Return in H; destruct H as (? & ? & ? & H)
    | H : lift _ _ = (Return _, _) |- _ =>
        apply lift_Return in H; destruct H as (H & ?); subst
    | H : (let (_, _) := ?x in _) = _ |- _ => destruct x
    | H : (let (_, _) := ?x in _) _ = _ |- _ => destruct x
    | H : Return _ = Return _ |- _ => inversion H; subst; clear H
    | H : (Return _, _) = (Return _, _) |- _ => inversion H; subst; clear H
    end.

Lemma getitem_Return (k : string) (d : dict) (v : value) :
  getitem k d = Return v -> dict_get k d = Some v.
Proof.
  unfold getitem. destruct (dict_get k d); intros H; inversion H; reflexivity.
Qed.

Lemma as_mat_Return (v : value) (p : dtype * mat) :
  as_mat v = Return p -> v = VArr (fst p) (A2 (snd p)).
Proof.
  destruct v as [| | | | dt0 [x | x | m0 | t] | |]; simpl; intros H;
    inversion H; reflexivity.
Qed.

Lemma as_dict_Return (v : value) (d : dict) : as_dict v = Return d -> v = VDict d.
Proof. destruct v; simpl; intros H; inversion H; reflexivity. Qed.

Lemma concatenate_two {A : Type} (x y : dtype * list A) (z : dtype * list A) :
  concatenate [x; y] = Return z -> snd z = (snd x ++ snd y)%list.
Proof.
  unfold concatenate. intros H. inversion H. simpl. rewrite app_nil_r. reflexivity.
Qed.

Lemma Qgtb_true (x y : Q) : Qgtb x y = true <-> y < x.
Proof.
  unfold Qgtb. rewrite negb_true_iff, <- not_true_iff_false, Qle_bool_iff.
  split; [apply Qnot_le_lt | apply Qlt_not_le].
Qed.

Lemma Qgtb_false (x y : Q) : Qgtb x y = false <-> x <= y.
Proof.
  unfold Qgtb. rewrite negb_false_iff. apply Qle_bool_iff.
Qed.

Lemma int_inject_Z (n : Z) : int (inject_Z n) = n.
Proof. unfold int. simpl. apply Z.quot_1_r. Qed.

(** ** [ExtendedEnv] *)

(** C3: constructing [ExtendedEnv] with a reward scale that is not
    positive fails the assertion; with a positive reward scale the
    construction succeeds. *)
Theorem init_reward_scale_positive :
  forall (World : Type) (env : GymEnv World) (reward_scale : Q) (use_cost : bool),
    (reward_scale <= 0 ->
     ExtendedEnv.__init__ env reward_scale use_cost
     = Raise (AssertionError "Reward scale should be positive!"))
    /\ (0 < reward_scale ->
        exists self, ExtendedEnv.__init__ env reward_scale use_cost = Return self
                     /\ ExtendedEnv.env self = env).
Proof.
  intros World env s c. unfold ExtendedEnv.__init__. split; intros H.
  - apply Qgtb_false in H. rewrite H. reflexivity.
  - apply Qgtb_true in H. rewrite H. simpl. eexists. split; reflexivity.
Qed.

Lemma init_reward_scale_positive_witness :
  ExtendedEnv.__init__
    (Demo.constant_env (Discrete 4) "state" "<Env>" VNone 1 false VNone) 0 false
  = Raise (AssertionError "Reward scale should be positive!")
  /\ exists self,
      ExtendedEnv.__init__
        (Demo.constant_env (Discrete 4) "state" "<Env>" VNone 1 false VNone)
        (3 # 2) true = Return self
      /\ ExtendedEnv.env self
         = Demo.constant_env (Discrete 4) "state" "<Env>" VNone 1 false VNone.
Proof.
  split.
  - apply (init_reward_scale_positive Demo.World). unfold Qle. simpl. lia.
  - apply (init_reward_scale_positive Demo.World). reflexivity.
Defined.

Lemma init_fields {World : Type} (env : GymEnv World) (reward_scale : Q)
    (use_cost : bool) (self : ExtendedEnv.t World) :
  ExtendedEnv.__init__ env reward_scale use_cost = Return self ->
  ExtendedEnv.env self = env
  /\ ExtendedEnv.is_discrete self
     = match action_space env with Discrete _ => true | Box _ => false end
  /\ ExtendedEnv.reward_scale self
     = reward_scale * inject_Z (if use_cost then (-1)%Z else 1%Z).
Proof.
  unfold ExtendedEnv.__init__. intros H. simpl in H.
  returns H. inversion H. simpl. auto.
Qed.

(** *** Rounding to a binary format *)

Lemma round_as_specified :
  forallb (fun dt =>
             forallb (fun q => float_eqb (round dt q) (round_specified dt q)) samples)
          [Float16; Float32; Float64] = true.
Proof. vm_compute. reflexivity. Qed.

Lemma nearest_even_bounds (x : Q) (a b : Z) :
  inject_Z a <= x -> x <= inject_Z b -> (a <= nearest_even x <= b)%Z.
Proof.
  intros Ha Hb.
  assert (Hfa : (a <= Qfloor x)%Z)
    by (rewrite <- (Qfloor_Z a); apply Qfloor_resp_le; exact Ha).
  assert (Hfb : (Qfloor x <= b)%Z)
    by (rewrite <- (Qfloor_Z b); apply Qfloor_resp_le; exact Hb).
  assert (Hlt : Qfloor x = b -> Qcompare (x - inject_Z (Qfloor x)) (1 # 2) = Lt).
  { intros E. apply Qlt_alt. rewrite E.
    apply Qle_lt_trans with (y := 0); [| unfold Qlt; simpl; lia].
    apply Qle_minus_iff in Hb. apply Qle_minus_iff.
    setoid_replace (0 + - (x - inject_Z b)) with (inject_Z b + - x) by ring.
    exact Hb. }
  unfold nearest_even.
  destruct (Qcompare (x - inject_Z (Qfloor x)) (1 # 2)) eqn:E.
  - destruct (Z.even (Qfloor x)); [lia |].
    destruct (Z.eq_dec (Qfloor x) b) as [Eb | Nb]; [| lia].
    discriminate (Hlt Eb).
  - lia.
  - destruct (Z.eq_dec (Qfloor x) b) as [Eb | Nb]; [| lia].
    discriminate (Hlt Eb).
Qed.

Lemma mag_byte (q : Q) : 0 <= q -> q <= 255 -> (mag q <= 9)%Z.
Proof.
  destruct q as [n d]. unfold Qle, mag. cbn [Qnum Qden]. intros H0 H1.
  rewrite Z.mul_1_r in H0. rewrite Z.mul_1_r in H1.
  assert (Hl : (Z.log2 (Z.abs n) <= 8 + Z.log2 (Z.pos d))%Z).
  { rewrite Z.abs_eq by exact H0.
    transitivity (Z.log2 (Z.pos d * 2 ^ 8)).
    - apply Z.log2_le_mono. lia.
    - rewrite Z.log2_mul_pow2 by lia. lia. }
  destruct (Qle_bool _ _); lia.
Qed.

Lemma Qpower_nonpos (e : Z) :
  (e <= 0)%Z -> 2 ^ e == 1 / inject_Z (2 ^ (- e)).
Proof.
  intros He. replace e with (- - e)%Z at 1 by lia.
  rewrite Qpower_opp. rewrite <- (Zpower_Qpower 2 (- e)) by lia.
  unfold Qdiv. rewrite Qmult_1_l. reflexivity.
Qed.

Lemma round_byte (dt : dtype) (p : Q) :
  dt = Float32 \/ dt = Float64 ->
  0 <= p -> p <= 255 ->
  exists y, round dt p = Finite y /\ 0 <= y /\ y <= 255.
Proof.
  intros Hdt H0 H1. unfold round.
  pose proof (mag_byte p H0 H1) as Hm.
  set (e := Z.max (mag p - precision dt) (3 - emax dt - precision dt)).
  assert (He : (e <= 0)%Z) by (unfold e; destruct Hdt; subst; simpl; lia).
  set (k := (2 ^ (- e))%Z).
  assert (Hk : (0 < k)%Z) by (apply Z.pow_pos_nonneg; lia).
  assert (HkQ : 0 < inject_Z k) by (change 0 with (inject_Z 0); rewrite <- Zlt_Qlt; exact Hk).
  assert (Hx : p / 2 ^ e == p * inject_Z k).
  { rewrite (Qpower_nonpos e He). fold k. field.
    intros E. rewrite E in HkQ. discriminate. }
  assert (Hb : (0 <= nearest_even (p / 2 ^ e) <= 255 * k)%Z).
  { apply nearest_even_bounds; rewrite Hx.
    - apply Qmult_le_0_compat; [exact H0 | apply Qlt_le_weak; exact HkQ].
    - rewrite inject_Z_mult. apply Qmult_le_compat_r; [exact H1 |].
      apply Qlt_le_weak; exact HkQ. }
  set (m := nearest_even (p / 2 ^ e)) in *.
  assert (Hy : inject_Z m * 2 ^ e == inject_Z m / inject_Z k).
  { rewrite (Qpower_nonpos e He). fold k. field.
    intros E. rewrite E in HkQ. discriminate. }
  assert (Hy0 : 0 <= inject_Z m * 2 ^ e).
  { rewrite Hy. apply Qle_shift_div_l; [exact HkQ |].
    rewrite Qmult_0_l. change 0 with (inject_Z 0). rewrite <- Zle_Qle. lia. }
  assert (Hy1 : inject_Z m * 2 ^ e <= 255).
  { rewrite Hy. apply Qle_shift_div_r; [exact HkQ |].
    change 255 with (inject_Z 255). rewrite <- inject_Z_mult, <- Zle_Qle. lia. }
  assert (Hfin : Qle_bool (2 ^ emax dt) (Qabs (inject_Z m * 2 ^ e)) = false).
  { destruct (Qle_bool _ _) eqn:E; [| reflexivity].
    apply Qle_bool_iff in E. rewrite Qabs_pos in E by exact Hy0.
    assert (Hbig : 2 ^ emax dt <= 255) by (eapply Qle_trans; eassumption).
    apply Qle_bool_iff in Hbig.
    destruct Hdt; subst; vm_compute in Hbig; discriminate. }
  rewrite Hfin. eauto.
Qed.

Lemma int_byte (y : Q) : 0 <= y -> y <= 255 -> (0 <= int y <= 255)%Z.
Proof.
  destruct y as [n d]. unfold Qle, int. cbn [Qnum Qden]. intros H0 H1.
  rewrite Z.mul_1_r in H0. rewrite Z.mul_1_r in H1.
  rewrite Z.quot_div_nonneg by lia. split.
  - apply Z.div_pos; lia.
  - apply Z.div_le_upper_bound; lia.
Qed.

Lemma two_neq_0 : ~ 2 == 0.
Proof. discriminate. Qed.

Lemma one_lt_two : 1 < 2.
Proof. reflexivity. Qed.

Lemma mag_le (q : Q) (E : Z) : ~ q == 0 -> Qabs q < 2 ^ E -> (mag q <= E)%Z.
Proof.
  intros Hq HE. unfold mag.
  set (a := Z.log2 (Z.abs (Qnum q))). set (b := Z.log2 (Z.pos (Qden q))).
  destruct (Qle_bool (2 ^ (a - b)) (Qabs q)) eqn:C.
  - apply Qle_bool_iff in C.
    assert (H : 2 ^ (a - b) < 2 ^ E) by (eapply Qle_lt_trans; eassumption).
    apply Qpower_lt_compat_l_inv in H; [lia | exact one_lt_two].
  - assert (H : 2 ^ (a - b - 1) < Qabs q).
    { assert (Hn : (0 < Z.abs (Qnum q))%Z).
      { destruct q as [n d]. unfold Qeq in Hq. simpl in *. lia. }
      pose proof (Z.log2_spec _ Hn) as [Ha _]. fold a in Ha.
      pose proof (Z.log2_spec (Z.pos (Qden q)) ltac:(lia)) as [_ Hb]. fold b in Hb.
      assert (Ha0 : (0 <= a)%Z) by apply Z.log2_nonneg.
      assert (Hb0 : (0 <= b)%Z) by apply Z.log2_nonneg.
      replace (a - b - 1)%Z with (a - (b + 1))%Z by lia.
      rewrite (Qpower_minus 2 a (b + 1) two_neq_0).
      change 2 with (inject_Z 2).
      rewrite <- (Zpower_Qpower 2 a) by lia.
      rewrite <- (Zpower_Qpower 2 (b + 1)) by lia.
      assert (HB : (0 < 2 ^ (b + 1))%Z) by (apply Z.pow_pos_nonneg; lia).
      apply Qlt_shift_div_r.
      - change 0 with (inject_Z 0). rewrite <- Zlt_Qlt. exact HB.
      - destruct q as [n d]. unfold Qabs, Qlt, Qmult, inject_Z. simpl in *.
        rewrite <- Z.add_1_r in Hb.
        rewrite Z.mul_1_r, Pos.mul_1_r. nia. }
    assert (H' : 2 ^ (a - b - 1) < 2 ^ E) by (eapply Qlt_trans; eassumption).
    apply Qpower_lt_compat_l_inv in H'; [lia | exact one_lt_two].
Qed.

Lemma nearest_even_integer (x : Q) (k : Z) : x == inject_Z k -> nearest_even x = k.
Proof.
  intros H.
  assert (H1 : inject_Z k <= x) by (rewrite H; apply Qle_refl).
  assert (H2 : x <= inject_Z k) by (rewrite H; apply Qle_refl).
  pose proof (nearest_even_bounds x k k H1 H2). lia.
Qed.

Lemma round_exact (dt : dtype) (q : Q) :
  representable dt q -> exists y, round dt q = Finite y /\ y == q.
Proof.
  intros (m & e0 & Hq & Hm & He0 & Hmax). unfold round.
  set (P := precision dt) in *. set (emin := (3 - emax dt - P)%Z) in *.
  set (e := Z.max (mag q - P) emin).
  assert (HP : (0 < P)%Z) by (unfold P; destruct dt; simpl; lia).
  assert (Hint : exists k, q / 2 ^ e == inject_Z k /\ inject_Z k * 2 ^ e == q).
  { destruct (Qeq_dec q 0) as [Hz | Hnz].
    - exists 0%Z. rewrite Hz. split; [| ring].
      unfold Qdiv. ring.
    - assert (Hmag : (mag q <= P + e0)%Z).
      { apply mag_le; [exact Hnz |]. rewrite Hq, Qabs_Qmult.
        rewrite (Qabs_pos (2 ^ e0)) by (apply Qpower_0_le; discriminate).
        rewrite (Qpower_plus 2 P e0 two_neq_0).
        apply Qmult_lt_compat_r; [apply Qpower_0_lt; reflexivity |].
        change 2 with (inject_Z 2). rewrite <- (Zpower_Qpower 2 P) by lia.
        change (Qabs (inject_Z m)) with (inject_Z (Z.abs m)).
        rewrite <- Zlt_Qlt. exact Hm. }
      assert (Hle : (e <= e0)%Z) by (unfold e; lia).
      exists (m * 2 ^ (e0 - e))%Z.
      assert (Hpow : inject_Z (2 ^ (e0 - e)) == 2 ^ e0 / 2 ^ e).
      { rewrite (Zpower_Qpower 2 (e0 - e)) by lia.
        apply (Qpower_minus 2 e0 e two_neq_0). }
      assert (Hne : ~ 2 ^ e == 0).
      { intros E. pose proof (Qpower_0_lt 2 e ltac:(reflexivity)) as Hpos.
        rewrite E in Hpos. discriminate. }
      rewrite inject_Z_mult, Hpow, Hq. split; field; exact Hne. }
  destruct Hint as (k & Hk & Hy).
  rewrite (nearest_even_integer _ _ Hk).
  assert (Hfin : Qle_bool (2 ^ emax dt) (Qabs (inject_Z k * 2 ^ e)) = false).
  { destruct (Qle_bool _ _) eqn:E; [| reflexivity].
    apply Qle_bool_iff in E. rewrite Hy in E.
    exfalso. apply (Qlt_irrefl (Qabs q)). eapply Qlt_le_trans; eassumption. }
  rewrite Hfin. eauto.
Qed.

Lemma representable_Qeq (dt : dtype) (p q : Q) :
  p == q -> representable dt p -> representable dt q.
Proof.
  intros E (m & e & Hp & Hm & He & Hmax). exists m, e.
  rewrite <- E. auto.
Qed.

Lemma representable_binary64 (q : Q) :
  representable Float32 q -> representable Float64 q.
Proof.
  intros (m & e & Hq & Hm & He & Hmax). exists m, e.
  split; [exact Hq |]. cbn [precision emax] in *. split; [| split].
  - eapply Z.lt_trans; [exact Hm | reflexivity].
  - lia.
  - eapply Qlt_trans; [exact Hmax |].
    apply Qpower_lt_compat_l; [lia | reflexivity].
Qed.

(** What [step] makes of the outcome of the wrapped [step], once the
    action has been processed. *)
Lemma step_forwards {World : Type} (self : ExtendedEnv.t World) (a a' : action)
    (w : World) :
  ExtendedEnv._process_action self a = Return a' ->
  ExtendedEnv.step self a w
  = (let (res, w') := env_step (ExtendedEnv.env self) a' w in
     (match res with
      | Return (obs, r, done, info) =>
          Return (f64_to_f32 obs,
                  np_float32 (float_mul r (ExtendedEnv.reward_scale self)),
                  done, f64_to_f32 (ExtendedEnv.default_truncated info))
      | Raise e => Raise e
      | Exit k => Exit k
      end, w')).
Proof.
  intros Hp. unfold ExtendedEnv.step, ExtendedEnv.forward.
  cbn [bind ret Monad_M]. unfold mbind, lift. rewrite Hp.
  destruct (env_step (ExtendedEnv.env self) a' w)
    as [[[[[obs r] done] info] | e | k] w']; reflexivity.
Qed.

Lemma step_refuses {World : Type} (self : ExtendedEnv.t World) (a : action)
    (e : exn) (w : World) :
  ExtendedEnv._process_action self a = Raise e ->
  ExtendedEnv.step self a w = (Raise e, w).
Proof.
  intros Hp. unfold ExtendedEnv.step. cbn [bind ret Monad_M]. unfold mbind, lift.
  rewrite Hp. reflexivity.
Qed.

Lemma forward_Return {World : Type} (self : ExtendedEnv.t World) (a : action)
    (w w' : World) (obs' info' : value) (r' : float) (done' : bool) :
  ExtendedEnv.forward self a w = (Return (obs', r', done', info'), w') ->
  exists obs r info,
    env_step (ExtendedEnv.env self) a w = (Return (obs, r, done', info), w')
    /\ obs' = f64_to_f32 obs
    /\ info' = f64_to_f32 (ExtendedEnv.default_truncated info)
    /\ r' = np_float32 (float_mul r (ExtendedEnv.reward_scale self)).
Proof.
  unfold ExtendedEnv.forward. intros H. simpl in H.
  returns H. destruct a0 as [[[obs r] done] info].
  unfold mbind, lift in H. simpl in H. inversion H; subst.
  exists obs, r, info. auto.
Qed.

Lemma step_Return {World : Type} (self : ExtendedEnv.t World) (a : action)
    (w w' : World) (obs' info' : value) (r' : float) (done' : bool) :
  ExtendedEnv.step self a w = (Return (obs', r', done', info'), w') ->
  exists a' obs r info,
    ExtendedEnv._process_action self a = Return a'
    /\ env_step (ExtendedEnv.env self) a' w = (Return (obs, r, done', info), w')
    /\ obs' = f64_to_f32 obs
    /\ info' = f64_to_f32 (ExtendedEnv.default_truncated info)
    /\ r' = np_float32 (float_mul r (ExtendedEnv.reward_scale self)).
Proof.
  unfold ExtendedEnv.step. intros H. simpl in H.
  returns H. returns H0.
  destruct (forward_Return _ _ _ _ _ _ _ _ H) as (obs & r & info & Hs).
  exists a0, obs, r, info. auto.
Qed.

Lemma step_runs {World : Type} (self : ExtendedEnv.t World) (a a' : action)
    (w w' : World) (obs info : value) (r : Q) (done : bool) :
  ExtendedEnv._process_action self a = Return a' ->
  env_step (ExtendedEnv.env self) a' w = (Return (obs, r, done, info), w') ->
  ExtendedEnv.step self a w
  = (Return (f64_to_f32 obs,
             np_float32 (float_mul r (ExtendedEnv.reward_scale self)), done,
             f64_to_f32 (ExtendedEnv.default_truncated info)), w').
Proof.
  intros Hp He. rewrite (step_forwards _ _ _ _ Hp), He. reflexivity.
Qed.

(** C4: when the action space of the wrapped environment is discrete,
    [step] turns an array action of size 1 into the integer it holds and
    calls the [step] of the wrapped environment with that integer: what
    [step] returns, raises or exits with is what the wrapped [step] does
    on that integer, the result coerced and scaled as for every step.  An
    array action of size above 1 fails the assertion, with the message that
    names its length, and the wrapped environment is not called: the
    world is left as it was. *)
Theorem discrete_action_coerced :
  forall (World : Type) (env : GymEnv World) (reward_scale : Q) (use_cost : bool)
         (self : ExtendedEnv.t World) (n : nat),
    action_space env = Discrete n ->
    ExtendedEnv.__init__ env reward_scale use_cost = Return self ->
    (forall arr x, flatten arr = [x] ->
       size arr = 1%nat
       /\ ExtendedEnv._process_action self (AArr arr) = Return (AInt (int x))
       /\ forall w,
            ExtendedEnv.step self (AArr arr) w
            = (let (res, w') := env_step env (AInt (int x)) w in
               (match res with
                | Return (obs, r, done, info) =>
                    Return (f64_to_f32 obs,
                            np_float32 (float_mul r (ExtendedEnv.reward_scale self)),
                            done, f64_to_f32 (ExtendedEnv.default_truncated info))
                | Raise e => Raise e
                | Exit k => Exit k
                end, w')))
    /\ (forall arr k, flatten arr = [inject_Z k] ->
          ExtendedEnv._process_action self (AArr arr) = Return (AInt k))
    /\ (forall arr, (1 < size arr)%nat ->
          exists m,
            len arr = Return m
            /\ ExtendedEnv._process_action self (AArr arr)
               = Raise (AssertionError
                          ("Dim of discrete action should be 1, but we get "
                             ++ decimal m))
            /\ forall w,
                 ExtendedEnv.step self (AArr arr) w
                 = (Raise (AssertionError
                             ("Dim of discrete action should be 1, but we get "
                                ++ decimal m)), w)).
Proof.
  intros World env s c self n Hspace Hinit.
  destruct (init_fields _ _ _ _ Hinit) as (Henv & Hd & _).
  rewrite Hspace in Hd.
  assert (Hone : forall arr x, flatten arr = [x] ->
            ExtendedEnv._process_action self (AArr arr) = Return (AInt (int x))).
  { intros arr x Hx. unfold ExtendedEnv._process_action, size.
    rewrite Hd, Hx. reflexivity. }
  split; [| split].
  - intros arr x Hx. split; [unfold size; rewrite Hx; reflexivity |].
    split; [auto |].
    intros w. rewrite (step_forwards _ _ _ w (Hone arr x Hx)), Henv. reflexivity.
  - intros arr k Hk. rewrite (Hone arr _ Hk), int_inject_Z. reflexivity.
  - intros arr Hsize.
    assert (Hlen : exists m, len arr = Return m).
    { destruct arr as [x | v | m | t]; simpl; eauto.
      unfold size in Hsize. simpl in Hsize. lia. }
    destruct Hlen as (m & Hlen). exists m. split; [exact Hlen |].
    assert (Hp : ExtendedEnv._process_action self (AArr arr)
                 = Raise (AssertionError
                            ("Dim of discrete action should be 1, but we get "
                               ++ decimal m))).
    { unfold ExtendedEnv._process_action. rewrite Hd. cbn [is_num].
      destruct (Nat.eqb_spec (size arr) 1) as [E | _]; [lia |].
      cbn [bind ret Monad_outcome obind]. rewrite Hlen. reflexivity. }
    split; [exact Hp |].
    intros w. exact (step_refuses _ _ _ w Hp).
Qed.

Lemma discrete_action_coerced_witness :
  (size (A1 [2]) = 1%nat
   /\ ExtendedEnv._process_action Demo.discrete_self (AArr (A1 [2]))
      = Return (AInt (int 2))
   /\ forall w,
        ExtendedEnv.step Demo.discrete_self (AArr (A1 [2])) w
        = (let (res, w') := env_step Demo.discrete_env (AInt (int 2)) w in
           (match res with
            | Return (obs, r, done, info) =>
                Return (f64_to_f32 obs,
                        np_float32
                          (float_mul r (ExtendedEnv.reward_scale Demo.discrete_self)),
                        done, f64_to_f32 (ExtendedEnv.default_truncated info))
            | Raise e => Raise e
            | Exit k => Exit k
            end, w')))
  /\ ExtendedEnv._process_action Demo.discrete_self (AArr (A2 [[inject_Z 3]]))
     = Return (AInt 3)
  /\ exists m,
      len (A1 [2; 3]) = Return m
      /\ ExtendedEnv._process_action Demo.discrete_self (AArr (A1 [2; 3]))
         = Raise (AssertionError
                    ("Dim of discrete action should be 1, but we get "
                       ++ decimal m))
      /\ forall w,
           ExtendedEnv.step Demo.discrete_self (AArr (A1 [2; 3])) w
           = (Raise (AssertionError
                       ("Dim of discrete action should be 1, but we get "
                          ++ decimal m)), w).
Proof.
  destruct (discrete_action_coerced Demo.World Demo.discrete_env 3 true
              Demo.discrete_self 4 eq_refl eq_refl) as (H1 & H2 & H3).
  split; [| split].
  - apply H1. reflexivity.
  - apply H2. reflexivity.
  - apply H3. unfold size. simpl. lia.
Defined.

Lemma Qmult_one (s : Q) : s * inject_Z 1 = s.
Proof.
  destruct s as [n d]. unfold Qmult, inject_Z. cbn [Qnum Qden].
  rewrite Z.mul_1_r, Pos.mul_1_r. reflexivity.
Qed.

Lemma Qmult_minus_one (s : Q) : s * inject_Z (-1) = - s.
Proof.
  destruct s as [n d]. unfold Qmult, Qopp, inject_Z. cbn [Qnum Qden].
  rewrite Pos.mul_1_r. f_equal. lia.
Qed.

(** C5, as amended: the reward returned by [step] is the reward of the
    wrapped environment multiplied by [reward_scale], or by [reward_scale]
    with its sign flipped when the wrapper was built with [use_cost] true,
    the product taken on Python floats and converted to [np.float32]: it
    is the product itself whenever that is a binary32 number, and is
    rounded to one otherwise.  And [step] returns whenever the action is
    accepted and the wrapped [step] returns. *)
Theorem step_reward_scaled :
  forall (World : Type) (env : GymEnv World) (reward_scale : Q) (use_cost : bool)
         (self : ExtendedEnv.t World),
    ExtendedEnv.__init__ env reward_scale use_cost = Return self ->
    (forall a w w' obs' info' r' done',
        ExtendedEnv.step self a w = (Return (obs', r', done', info'), w') ->
        exists a' obs r info,
          ExtendedEnv._process_action self a = Return a'
          /\ env_step env a' w = (Return (obs, r, done', info), w')
          /\ r' = np_float32
                    (float_mul r (if use_cost then - reward_scale else reward_scale)))
    /\ (forall a a' w w' obs r done info,
          ExtendedEnv._process_action self a = Return a' ->
          env_step env a' w = (Return (obs, r, done, info), w') ->
          exists obs' info',
            ExtendedEnv.step self a w
            = (Return (obs',
                       np_float32
                         (float_mul r
                            (if use_cost then - reward_scale else reward_scale)),
                       done, info'), w'))
    /\ (forall r,
          representable Float32
            (r * (if use_cost then - reward_scale else reward_scale)) ->
          exists y,
            np_float32
              (float_mul r (if use_cost then - reward_scale else reward_scale))
            = Finite y
            /\ y == r * (if use_cost then - reward_scale else reward_scale)).
Proof.
  intros World env s c self Hinit.
  destruct (init_fields _ _ _ _ Hinit) as (Henv & _ & Hscale).
  assert (Hr : ExtendedEnv.reward_scale self = if c then - s else s).
  { rewrite Hscale. destruct c; [apply Qmult_minus_one | apply Qmult_one]. }
  split; [| split];
    [| | intros r Hrep; unfold float_mul;
         destruct (round_exact Float64 _ (representable_binary64 _ Hrep))
           as (y1 & -> & Hy1);
         destruct (round_exact Float32 y1
                     (representable_Qeq _ _ _ (Qeq_sym _ _ Hy1) Hrep))
           as (y2 & Hy2 & Hy21);
         exists y2; split; [exact Hy2 | rewrite Hy21; exact Hy1]].
  - intros a w w' obs' info' r' done' Hstep.
    destruct (step_Return _ _ _ _ _ _ _ _ Hstep)
      as (a' & obs & r & info & Hp & He & _ & _ & ->).
    exists a', obs, r, info. rewrite <- Henv, <- Hr. auto.
  - intros a a' w w' obs r done info Hp He. rewrite <- Henv in He.
    do 2 eexists. rewrite <- Hr. apply (step_runs _ _ _ _ _ _ _ _ _ Hp He).
Qed.

Lemma step_reward_scaled_witness :
  (exists a' obs r info,
      ExtendedEnv._process_action Demo.discrete_self (AInt 1) = Return a'
      /\ env_step Demo.discrete_env a' 0%nat = (Return (obs, r, true, info), 0%nat)
      /\ np_float32 (float_mul (1 # 2) (3 * inject_Z (-1)))
         = np_float32 (float_mul r (- 3)))
  /\ (exists obs' info',
      ExtendedEnv.step Demo.discrete_self (AArr (A1 [1])) 0%nat
      = (Return (obs', np_float32 (float_mul (1 # 2) (- 3)), true, info'), 0%nat))
  /\ exists y, np_float32 (float_mul (1 # 2) (- 3)) = Finite y /\ y == (1 # 2) * - 3.
Proof.
  destruct (step_reward_scaled Demo.World Demo.discrete_env 3 true
              Demo.discrete_self eq_refl) as (H1 & H2 & H3).
  split; [| split].
  - exact (H1 (AInt 1) 0%nat 0%nat
              (VArr Float32 (A1 [1; 2])) (VDict [("TimeLimit.truncated", VBool false)])
              (np_float32 (float_mul (1 # 2) (3 * inject_Z (-1)))) true eq_refl).
  - exact (H2 (AArr (A1 [1])) (AInt 1) 0%nat 0%nat
              (VArr Float64 (A1 [1; 2])) (1 # 2) true (VDict []) eq_refl eq_refl).
  - apply (H3 (1 # 2)). exists (-3)%Z, (-1)%Z.
    split; [reflexivity |]. split; [reflexivity |]. split; [discriminate |].
    reflexivity.
Defined.

(** C5, as stated, fails: an environment gives the reward 0.1, the
    wrapper is built with [reward_scale] 1 and without [use_cost], and the
    reward that [step] returns is the binary32 number nearest to 0.1,
    13421773 / 2 ^ 27, which is not 0.1 times 1. *)
Lemma step_reward_scaled_counterexample :
  exists self obs' r' done' info' w',
    ExtendedEnv.__init__ Demo.tenth_env 1 false = Return self
    /\ env_step Demo.tenth_env (AInt 0) 0%nat
       = (Return (VArr Float64 (A1 [1; 2]), Demo.tenth, false, VDict []), 0%nat)
    /\ ExtendedEnv.step self (AInt 0) 0%nat
       = (Return (obs', Finite r', done', info'), w')
    /\ r' == 13421773 # 134217728
    /\ ~ r' == Demo.tenth * 1.
Proof.
  do 6 eexists. split; [reflexivity |]. split; [reflexivity |].
  split; [vm_compute; reflexivity |].
  split; [reflexivity | discriminate].
Qed.

(** ** Dicts *)

Lemma dict_get_set_same (k : string) (v : value) (d : dict) :
  dict_get k (dict_set k v d) = Some v.
Proof.
  induction d as [| [k' v'] d IH]; simpl.
  - rewrite String.eqb_refl. reflexivity.
  - destruct (String.eqb k k') eqn:E; simpl; rewrite ?String.eqb_refl, ?E; auto.
Qed.

Lemma dict_get_set_other (k k' : string) (v : value) (d : dict) :
  k <> k' -> dict_get k (dict_set k' v d) = dict_get k d.
Proof.
  intros Hk. apply String.eqb_neq in Hk.
  induction d as [| [k0 v0] d IH]; simpl.
  - rewrite Hk. reflexivity.
  - destruct (String.eqb k' k0) eqn:E; simpl.
    + apply String.eqb_eq in E. subst k0. rewrite Hk. reflexivity.
    + rewrite IH. reflexivity.
Qed.

Lemma dict_set_absent (k : string) (v : value) (d : dict) :
  dict_get k d = None -> dict_set k v d = (d ++ [(k, v)])%list.
Proof.
  induction d as [| [k' v'] d IH]; simpl; [reflexivity |].
  destruct (String.eqb k k'); [discriminate |].
  intros H. rewrite (IH H). reflexivity.
Qed.

Lemma dict_get_map (f : value -> value) (k : string) (d : dict) :
  dict_get k (map (fun kv => (fst kv, f (snd kv))) d) = option_map f (dict_get k d).
Proof.
  induction d as [| [k' v'] d IH]; simpl; [reflexivity |].
  destruct (String.eqb k k'); auto.
Qed.

(** ** The float64 to float32 coercion *)

Lemma dtypes_f64_to_f32 (v : value) :
  dtypes (f64_to_f32 v) = map coerced (dtypes v).
Proof.
  induction v as [| b | n | s | dt a | l IH | d IH]; try reflexivity.
  - destruct dt; reflexivity.
  - simpl. induction IH as [| x Hx l Hl IHl]; simpl; [reflexivity |].
    rewrite map_app, Hx, IHl. reflexivity.
  - simpl. induction IH as [| x Hx d Hd IHd]; simpl; [reflexivity |].
    destruct Hx as [k _ v Hv]. simpl. rewrite map_app, Hv, IHd. reflexivity.
Qed.

Lemma no_f64_after (v : value) : no_f64 (f64_to_f32 v) = true.
Proof.
  unfold no_f64. rewrite dtypes_f64_to_f32.
  induction (dtypes v) as [| dt l IH]; simpl; [reflexivity |].
  rewrite IH. destruct dt; reflexivity.
Qed.

Lemma f64_to_f32_fixed (v : value) : no_f64 v = true -> f64_to_f32 v = v.
Proof.
  unfold no_f64.
  induction v as [| b | n | s | dt a | l IH | d IH]; try reflexivity.
  - destruct dt; simpl; intros H; [reflexivity .. | discriminate].
  - simpl. intros H. f_equal. induction IH as [| x Hx l Hl IHl]; [reflexivity |].
    simpl in *. rewrite forallb_app in H. apply andb_true_iff in H as [H1 H2].
    rewrite Hx, IHl; auto.
  - simpl. intros H. f_equal. induction IH as [| x Hx d Hd IHd]; [reflexivity |].
    destruct Hx as [k _ v Hv].
    simpl in *. rewrite forallb_app in H. apply andb_true_iff in H as [H1 H2].
    rewrite Hv, IHd; auto.
Qed.

Lemma all_floats_f32_after (v : value) :
  ~ In Float16 (dtypes v) -> all_floats_f32 (f64_to_f32 v) = true.
Proof.
  unfold all_floats_f32. rewrite dtypes_f64_to_f32.
  induction (dtypes v) as [| dt l IH]; simpl; [reflexivity |].
  intros H. rewrite IH by tauto.
  destruct dt; try reflexivity. exfalso. apply H. left. reflexivity.
Qed.

Lemma dtypes_default_truncated (info : value) :
  dtypes (ExtendedEnv.default_truncated info) = dtypes info.
Proof.
  destruct info as [| b | n | s | dt a | l | d]; try reflexivity.
  unfold ExtendedEnv.default_truncated, dict_mem.
  destruct (dict_get "TimeLimit.truncated" d) eqn:E; simpl; [reflexivity |].
  rewrite (dict_set_absent _ _ _ E), flat_map_app. simpl.
  apply app_nil_r.
Qed.

Lemma reset_runs {World : Type} (self : ExtendedEnv.t World) (kwargs : dict)
    (w w' : World) (obs : value) :
  env_reset (ExtendedEnv.env self) kwargs w = (Return obs, w') ->
  ExtendedEnv.reset self kwargs w = (Return (f64_to_f32 obs), w').
Proof.
  intros He. unfold ExtendedEnv.reset. cbn [bind ret Monad_M]. unfold mbind.
  rewrite He. reflexivity.
Qed.

(** C2, as amended: [reset] and [step] return whenever the wrapped calls
    do (and the action is accepted); in what they return, every field that
    the wrapped environment reported as float64 is float32 and every other
    field keeps its dtype; no float64 field is left, in the observation
    or in the info, and all floating-point fields are float32 unless the
    wrapped environment reported a float16 field. *)
Theorem reset_step_coerce_float64 :
  forall (World : Type) (self : ExtendedEnv.t World),
    (forall kwargs w obs' w',
        ExtendedEnv.reset self kwargs w = (Return obs', w') ->
        exists obs,
          env_reset (ExtendedEnv.env self) kwargs w = (Return obs, w')
          /\ dtypes obs' = map coerced (dtypes obs)
          /\ no_f64 obs' = true
          /\ (~ In Float16 (dtypes obs) -> all_floats_f32 obs' = true))
    /\ (forall a w obs' r' done' info' w',
          ExtendedEnv.step self a w = (Return (obs', r', done', info'), w') ->
          exists a' obs r info,
            ExtendedEnv._process_action self a = Return a'
            /\ env_step (ExtendedEnv.env self) a' w = (Return (obs, r, done', info), w')
            /\ dtypes obs' = map coerced (dtypes obs)
            /\ dtypes info' = map coerced (dtypes info)
            /\ no_f64 obs' = true /\ no_f64 info' = true
            /\ (~ In Float16 (dtypes obs) -> all_floats_f32 obs' = true)
            /\ (~ In Float16 (dtypes info) -> all_floats_f32 info' = true))
    /\ (forall kwargs w w' obs,
          env_reset (ExtendedEnv.env self) kwargs w = (Return obs, w') ->
          exists obs', ExtendedEnv.reset self kwargs w = (Return obs', w'))
    /\ (forall a a' w w' obs r done info,
          ExtendedEnv._process_action self a = Return a' ->
          env_step (ExtendedEnv.env self) a' w = (Return (obs, r, done, info), w') ->
          exists obs' r' info',
            ExtendedEnv.step self a w = (Return (obs', r', done, info'), w')).
Proof.
  intros World self. split; [| split; [| split]].
  - intros kwargs w obs' w' H. unfold ExtendedEnv.reset in H. simpl in H.
    returns H. inversion H; subst. exists a.
    repeat split; auto using dtypes_f64_to_f32, no_f64_after, all_floats_f32_after.
  - intros a w obs' r' done' info' w' H.
    destruct (step_Return _ _ _ _ _ _ _ _ H)
      as (a' & obs & r & info & Hp & He & -> & -> & _).
    exists a', obs, r, info.
    repeat split; auto using dtypes_f64_to_f32, no_f64_after, all_floats_f32_after.
    + rewrite dtypes_f64_to_f32, dtypes_default_truncated. reflexivity.
    + intros Hn. apply all_floats_f32_after.
      rewrite dtypes_default_truncated. exact Hn.
  - intros kwargs w w' obs He. eexists. apply reset_runs. exact He.
  - intros a a' w w' obs r done info Hp He.
    do 3 eexists. apply (step_runs _ _ _ _ _ _ _ _ _ Hp He).
Qed.

Lemma reset_step_coerce_float64_witness :
  (exists obs,
      env_reset Demo.discrete_env [] 0%nat = (Return obs, 0%nat)
      /\ dtypes (VArr Float32 (A1 [1; 2])) = map coerced (dtypes obs)
      /\ no_f64 (VArr Float32 (A1 [1; 2])) = true
      /\ (~ In Float16 (dtypes obs)
          -> all_floats_f32 (VArr Float32 (A1 [1; 2])) = true))
  /\ (exists a' obs r info,
      ExtendedEnv._process_action Demo.truncating_self (AArr (A1 [0; 1])) = Return a'
      /\ env_step Demo.truncating_env a' 0%nat = (Return (obs, r, false, info), 0%nat)
      /\ dtypes (VArr Float32 (A1 [1; 2])) = map coerced (dtypes obs)
      /\ dtypes (VDict [("TimeLimit.truncated", VArr Float32 (A0 1))])
         = map coerced (dtypes info)
      /\ no_f64 (VArr Float32 (A1 [1; 2])) = true
      /\ no_f64 (VDict [("TimeLimit.truncated", VArr Float32 (A0 1))]) = true
      /\ (~ In Float16 (dtypes obs)
          -> all_floats_f32 (VArr Float32 (A1 [1; 2])) = true)
      /\ (~ In Float16 (dtypes info)
          -> all_floats_f32 (VDict [("TimeLimit.truncated", VArr Float32 (A0 1))]) = true))
  /\ (exists obs', ExtendedEnv.reset Demo.discrete_self [] 0%nat = (Return obs', 0%nat))
  /\ exists obs' r' info',
      ExtendedEnv.step Demo.truncating_self (AArr (A1 [0; 1])) 0%nat
      = (Return (obs', r', false, info'), 0%nat).
Proof.
  destruct (reset_step_coerce_float64 Demo.World Demo.discrete_self)
    as (H1 & _ & H3 & _).
  destruct (reset_step_coerce_float64 Demo.World Demo.truncating_self)
    as (_ & H2 & _ & H4).
  split; [| split; [| split]].
  - exact (H1 [] 0%nat (VArr Float32 (A1 [1; 2])) 0%nat eq_refl).
  - exact (H2 (AArr (A1 [0; 1])) 0%nat (VArr Float32 (A1 [1; 2]))
              (np_float32 (float_mul 1 (1 * inject_Z 1))) false
              (VDict [("TimeLimit.truncated", VArr Float32 (A0 1))]) 0%nat eq_refl).
  - exact (H3 [] 0%nat 0%nat (VArr Float64 (A1 [1; 2])) eq_refl).
  - exact (H4 (AArr (A1 [0; 1])) (AArr (A1 [0; 1])) 0%nat 0%nat
              (VArr Float64 (A1 [1; 2])) 1 false (VDict Demo.truncating_info)
              eq_refl eq_refl).
Defined.

(** C2, as stated, fails: the observation wrapper in rgbd mode hands out
    its depth image as float16, the environment around it is wrapped in
    [ExtendedEnv], and after [reset] and after [step] the depth image is
    still float16. *)
Lemma reset_step_coerce_float64_counterexample :
  exists obs w,
    ExtendedEnv.reset Demo.rgbd_self [] 0%nat = (Return obs, w)
    /\ item obs "depth" = Return (VArr Float16 (A3 [[[1 # 2]]]))
    /\ all_floats_f32 obs = false
    /\ exists r done info,
        ExtendedEnv.step Demo.rgbd_self (AArr (A1 [0])) 0%nat
        = (Return (obs, r, done, info), w).
Proof.
  eexists. eexists. split; [reflexivity |]. split; [reflexivity |].
  split; [reflexivity |]. eexists. eexists. eexists. reflexivity.
Qed.

(** C8: when [step] returns a dict as info, the dict has the key
    'TimeLimit.truncated'.  If the wrapped environment did not set it,
    its value is False.  If the wrapped environment set it, [step] does not
    put the default in its place: a bool, which is what Gym stores there,
    comes back as it was set, and so does every value without float64
    data; in general the value is the one set, taken through the float64
    to float32 coercion that all of info goes through.  And [step] returns
    a dict as info whenever the action is accepted and the wrapped [step]
    returns one. *)
Theorem step_info_truncated :
  forall (World : Type) (self : ExtendedEnv.t World),
    (forall a w w' obs' r' done' d',
        ExtendedEnv.step self a w = (Return (obs', r', done', VDict d'), w') ->
        exists a' obs r d,
          ExtendedEnv._process_action self a = Return a'
          /\ env_step (ExtendedEnv.env self) a' w = (Return (obs, r, done', VDict d), w')
          /\ dict_mem "TimeLimit.truncated" d' = true
          /\ match dict_get "TimeLimit.truncated" d with
             | None => dict_get "TimeLimit.truncated" d' = Some (VBool false)
             | Some v =>
                 dict_get "TimeLimit.truncated" d' = Some (f64_to_f32 v)
                 /\ (no_f64 v = true -> dict_get "TimeLimit.truncated" d' = Some v)
                 /\ (forall b, v = VBool b ->
                       dict_get "TimeLimit.truncated" d' = Some (VBool b))
             end)
    /\ (forall a a' w w' obs r done d,
          ExtendedEnv._process_action self a = Return a' ->
          env_step (ExtendedEnv.env self) a' w = (Return (obs, r, done, VDict d), w') ->
          exists obs' r' d',
            ExtendedEnv.step self a w = (Return (obs', r', done, VDict d'), w')).
Proof.
  intros World self. split.
  - intros a w w' obs' r' done' d' H.
    destruct (step_Return _ _ _ _ _ _ _ _ H)
      as (a' & obs & r & info & Hp & He & _ & Hi & _).
    destruct info as [| b | n | s | dt arr | l | d];
      try discriminate Hi; try (destruct dt; discriminate Hi).
    exists a', obs, r, d. split; [exact Hp |]. split; [exact He |].
    unfold ExtendedEnv.default_truncated, dict_mem in Hi.
    destruct (dict_get "TimeLimit.truncated" d) as [v |] eqn:E; simpl in Hi;
      inversion Hi; subst d'; unfold dict_mem; rewrite dict_get_map.
    + rewrite E. simpl. repeat split.
      * intros Hv. rewrite (f64_to_f32_fixed v Hv). reflexivity.
      * intros b ->. reflexivity.
    + rewrite dict_get_set_same. simpl. split; reflexivity.
  - intros a a' w w' obs r done d Hp He.
    pose proof (step_runs _ _ _ _ _ _ _ _ _ Hp He) as Hs.
    unfold ExtendedEnv.default_truncated in Hs.
    destruct (negb (dict_mem "TimeLimit.truncated" d)); simpl in Hs; eauto.
Qed.

Lemma step_info_truncated_witness :
  (exists a' obs r d,
      ExtendedEnv._process_action Demo.timelimit_self (AArr (A1 [0; 1])) = Return a'
      /\ env_step Demo.timelimit_env a' 0%nat = (Return (obs, r, true, VDict d), 0%nat)
      /\ dict_mem "TimeLimit.truncated" [("TimeLimit.truncated", VBool true)] = true
      /\ match dict_get "TimeLimit.truncated" d with
         | None =>
             dict_get "TimeLimit.truncated" [("TimeLimit.truncated", VBool true)]
             = Some (VBool false)
         | Some v =>
             dict_get "TimeLimit.truncated" [("TimeLimit.truncated", VBool true)]
             = Some (f64_to_f32 v)
             /\ (no_f64 v = true ->
                 dict_get "TimeLimit.truncated" [("TimeLimit.truncated", VBool true)]
                 = Some v)
             /\ (forall b, v = VBool b ->
                   dict_get "TimeLimit.truncated" [("TimeLimit.truncated", VBool true)]
                   = Some (VBool b))
         end)
  /\ exists obs' r' d',
      ExtendedEnv.step Demo.discrete_self (AInt 1) 0%nat
      = (Return (obs', r', true, VDict d'), 0%nat).
Proof.
  destruct (step_info_truncated Demo.World Demo.timelimit_self) as [H1 _].
  destruct (step_info_truncated Demo.World Demo.discrete_self) as [_ H2].
  split.
  - exact (H1 (AArr (A1 [0; 1])) 0%nat 0%nat
              (VArr Float32 (A1 [1; 2])) (np_float32 (float_mul 1 (1 * inject_Z 1)))
              true [("TimeLimit.truncated", VBool true)] eq_refl).
  - exact (H2 (AInt 1) (AInt 1) 0%nat 0%nat (VArr Float64 (A1 [1; 2])) (1 # 2) true
              [] eq_refl eq_refl).
Defined.

(** ** [ManiSkill2_ObsWrapper] *)

(** C10: in state mode [observation] returns the observation it was
    given, and leaves the world as it was. *)
Theorem observation_state_identity :
  forall (World : Type) (L : Libraries World) (self : ManiSkill2_ObsWrapper.t World)
         (observation : value) (w : World),
    obs_mode (ManiSkill2_ObsWrapper.env self) = "state" ->
    ManiSkill2_ObsWrapper.observation self observation w = (Return observation, w).
Proof.
  intros World L self observation w Hmode.
  unfold ManiSkill2_ObsWrapper.observation. rewrite Hmode. reflexivity.
Qed.

Lemma observation_state_identity_witness :
  ManiSkill2_ObsWrapper.observation Demo.state_wrapper Demo.cloud_obs 7%nat
  = (Return Demo.cloud_obs, 7%nat).
Proof.
  exact (observation_state_identity Demo.World Demo.libraries Demo.state_wrapper
           Demo.cloud_obs 7%nat eq_refl).
Defined.

(** C9: with [ignore_dones=True], the flag returned by [step] is False,
    whatever the action and whatever flag the wrapped environment
    reported: every returning [step] returns False, and [step] returns,
    with False, whenever the wrapped [step] and [observation] return. *)
Theorem step_ignore_dones :
  forall (World : Type) (L : Libraries World) (self : ManiSkill2_ObsWrapper.t World),
    ManiSkill2_ObsWrapper.ignore_dones self = true ->
    (forall a w w' obs info reward done,
        ManiSkill2_ObsWrapper.step self a w = (Return (obs, reward, done, info), w') ->
        done = false
        /\ exists obs0 done0 w0,
            env_step (ManiSkill2_ObsWrapper.env self) a w
            = (Return (obs0, reward, done0, info), w0))
    /\ (forall a w w0 w' obs0 obs info reward done0,
          env_step (ManiSkill2_ObsWrapper.env self) a w
          = (Return (obs0, reward, done0, info), w0) ->
          ManiSkill2_ObsWrapper.observation self obs0 w0 = (Return obs, w') ->
          ManiSkill2_ObsWrapper.step self a w = (Return (obs, reward, false, info), w')).
Proof.
  intros World L self Hi. split.
  - intros a w w' obs info reward done H.
    unfold ManiSkill2_ObsWrapper.step, ManiSkill2_ObsWrapper.super_step in H.
    cbn [bind ret Monad_M] in H. unbind.
    rewrite Hi. split; [reflexivity | eauto].
  - intros a w w0 w' obs0 obs info reward done0 He Ho.
    unfold ManiSkill2_ObsWrapper.step, ManiSkill2_ObsWrapper.super_step.
    cbn [bind ret Monad_M]. unfold mbind. rewrite He, Ho, Hi. reflexivity.
Qed.

Lemma step_ignore_dones_witness :
  (false = false
   /\ exists obs0 done0 w0,
       env_step Demo.discrete_env (AInt 2) 0%nat
       = (Return (obs0, 1 # 2, done0, VDict []), w0))
  /\ ManiSkill2_ObsWrapper.step Demo.state_wrapper (AInt 2) 0%nat
     = (Return (VArr Float64 (A1 [1; 2]), 1 # 2, false, VDict []), 0%nat).
Proof.
  destruct (step_ignore_dones Demo.World Demo.libraries Demo.state_wrapper eq_refl)
    as [H1 H2].
  split.
  - exact (H1 (AInt 2) 0%nat 0%nat (VArr Float64 (A1 [1; 2])) (VDict []) (1 # 2)
              false eq_refl).
  - exact (H2 (AInt 2) 0%nat 0%nat 0%nat (VArr Float64 (A1 [1; 2]))
              (VArr Float64 (A1 [1; 2])) (VDict []) (1 # 2) true eq_refl eq_refl).
Defined.

(** C6: in pointcloud mode, with an [obs_frame] other than 'base', 'world'
    and 'ee', [observation] ends the process with [exit(0)] on every
    observation: none is returned. *)
Theorem observation_unknown_frame_exits :
  forall (World : Type) (L : Libraries World) (self : ManiSkill2_ObsWrapper.t World)
         (observation : value) (w : World),
    obs_mode (ManiSkill2_ObsWrapper.env self) = "pointcloud" ->
    ManiSkill2_ObsWrapper.obs_frame self <> "base" ->
    ManiSkill2_ObsWrapper.obs_frame self <> "world" ->
    ManiSkill2_ObsWrapper.obs_frame self <> "ee" ->
    ManiSkill2_ObsWrapper.observation self observation w = (Exit 0, w).
Proof.
  intros World L self observation w Hmode Hb Hw He.
  apply String.eqb_neq in Hb, Hw, He.
  unfold ManiSkill2_ObsWrapper.observation. rewrite Hmode. simpl.
  unfold ManiSkill2_ObsWrapper.observation_pointcloud,
    ManiSkill2_ObsWrapper.to_origin_of. simpl.
  rewrite Hb, Hw, He. reflexivity.
Qed.

Lemma observation_unknown_frame_exits_witness :
  ManiSkill2_ObsWrapper.observation
    (Demo.cloud_wrapper "<Env>" 4 2 "camera") Demo.cloud_obs 0%nat
  = (Exit 0, 0%nat).
Proof.
  apply (observation_unknown_frame_exits Demo.World Demo.libraries);
    [reflexivity | discriminate | discriminate | discriminate].
Defined.

(** ** Loops over lists and dicts *)

Lemma mapM_length {A B : Type} (f : A -> outcome B) (l : list A) (l' : list B) :
  mapM f l = Return l' -> length l' = length l.
Proof.
  revert l'. induction l as [| x l IH]; simpl; intros l' H.
  - inversion H. reflexivity.
  - returns H. returns H. inversion H; subst. simpl. f_equal. auto.
Qed.

Lemma mapM_Forall2 {A B : Type} (f : A -> outcome B) (l : list A) (l' : list B) :
  mapM f l = Return l' -> Forall2 (fun x y => f x = Return y) l l'.
Proof.
  revert l'. induction l as [| x l IH]; simpl; intros l' H.
  - inversion H. constructor.
  - returns H. returns H. inversion H; subst. constructor; auto.
Qed.

(** A loop that rewrites every value of a dict keeps the keys. *)
Lemma mapM_dict_get (f : value -> outcome value) (d d' : dict) (k : string) :
  mapM (fun kv => v <- f (snd kv) ;; ret (fst kv, v)) d = Return d' ->
  match dict_get k d with
  | Some v => exists v', f v = Return v' /\ dict_get k d' = Some v'
  | None => dict_get k d' = None
  end.
Proof.
  revert d'. induction d as [| [k0 v0] d IH]; simpl; intros d' H.
  - inversion H. reflexivity.
  - returns H. returns H0. inversion H0; subst. simpl in *.
    returns H. inversion H; subst. simpl.
    destruct (String.eqb k k0); eauto. apply IH. assumption.
Qed.

Lemma dict_get_pop_other (k k' : string) (d : dict) :
  k <> k' -> dict_get k (dict_pop k' d) = dict_get k d.
Proof.
  intros Hk. apply String.eqb_neq in Hk.
  induction d as [| [k0 v0] d IH]; simpl; [reflexivity |].
  destruct (String.eqb k' k0) eqn:E; simpl.
  - apply String.eqb_eq in E. subst k0. rewrite Hk. reflexivity.
  - rewrite IH. reflexivity.
Qed.

(** ** Masks *)







(** ** The stages of the pointcloud mode *)

Section Stages.
Context {World : Type} {L : Libraries World}.

Lemma select_modes_get (pc : dict) (k : string) :
  k = "xyz" \/ k = "rgb" \/ k = "robot_seg" ->
  dict_get k (ManiSkill2_ObsWrapper.select_modes pc) = dict_get k pc.
Proof.
  unfold ManiSkill2_ObsWrapper.select_modes. simpl.
  intros [-> | [-> | ->]];
    destruct (dict_get "xyz" pc), (dict_get "rgb" pc),
      (dict_get "robot_seg" pc); reflexivity.
Qed.

Lemma apply_pose_to_points_Return (v xyz : value) (pose : Pose) :
  ManiSkill2_ObsWrapper.apply_pose_to_points v pose = Return xyz ->
  exists dt m,
    v = VArr dt (A2 m)
    /\ xyz = VArr (promote dt pose_dtype)
                  (A2 (map (fun r => snd (ManiSkill2_ObsWrapper.apply_pose_to_point
                                            (dt, r) pose)) m)).
Proof.
  unfold ManiSkill2_ObsWrapper.apply_pose_to_points, as_mat.
  destruct v as [| | | | dt [x | x | m | t] | |]; simpl; try discriminate.
  intros H. inversion H. eauto.
Qed.

Lemma true_divide_rows (v v' : value) (c : Q) :
  true_divide v c = Return v' -> n_rows (Some v') = n_rows (Some v).
Proof.
  destruct v as [| | | | dt [x | x | m | t] | |]; simpl; try discriminate;
    intros H; inversion H; simpl; rewrite ?length_map; reflexivity.
Qed.

Lemma draws_length {A : Type} (draw : World -> A * World) (k : nat)
    (w w' : World) (xs : list A) :
  draws draw k w = (xs, w') -> length xs = k.
Proof.
  revert w xs. induction k as [| k IH]; simpl; intros w xs H.
  - inversion H. reflexivity.
  - destruct (draw w) as [x w1]. destruct (draws draw k w1) as [ys w2] eqn:E.
    inversion H; subst. simpl. f_equal. eapply IH. eassumption.
Qed.

Lemma sample_Return {A : Type} (draw : World -> A * World) (k : nat)
    (w w' : World) (xs : list A) :
  sample draw k w = (Return xs, w') -> length xs = k.
Proof.
  unfold sample. destruct (draws draw k w) as [ys w2] eqn:E.
  intros H. inversion H; subst. eapply draws_length. eassumption.
Qed.

Lemma getitem_indices_rows (idx : list nat) (v v' : value) :
  getitem_indices idx v = Return v' -> n_rows (Some v') = Some (length idx).
Proof.
  unfold getitem_indices.
  destruct v as [| | | | dt [x | x | m | t] | |]; simpl; try discriminate;
    intros H; returns H; inversion H; subst; simpl;
    f_equal; eapply mapM_length; eassumption.
Qed.

Lemma getitem_indices_mat (idx : list nat) (dt : dtype) (m : mat) (v' : value) :
  getitem_indices idx (VArr dt (A2 m)) = Return v' ->
  exists m', v' = VArr dt (A2 m')
             /\ length m' = length idx
             /\ Forall (fun r => In r m) m'.
Proof.
  unfold getitem_indices. simpl. intros H. returns H. inversion H; subst.
  eexists. split; [reflexivity |]. split; [eapply mapM_length; eassumption |].
  apply mapM_Forall2 in H0. clear H.
  induction H0 as [| i r idx' m' Hi _ IH]; constructor; auto.
  destruct (nth_error m i) eqn:E; [| discriminate].
  inversion Hi; subst. eapply nth_error_In. eassumption.
Qed.

(** The downsampling: every field is cut to [num] entries drawn at the
    same indices, and the points of [xyz] are points of the input. *)
Lemma pcd_uniform_downsample_Return (ret_ ret' : dict) (eps : Q) (num : nat)
    (w w' : World) :
  ManiSkill2_ObsWrapper.pcd_uniform_downsample ret_ eps num w = (Return ret', w') ->
  exists dt xyz xyz',
    dict_get "xyz" ret_ = Some (VArr dt (A2 xyz))
    /\ dict_get "xyz" ret' = Some (VArr dt (A2 xyz'))
    /\ length xyz' = num
    /\ Forall (fun r => In r xyz) xyz'
    /\ forall k v, dict_get k ret_ = Some v ->
         exists v', dict_get k ret' = Some v' /\ n_rows (Some v') = Some num.
Proof.
  unfold ManiSkill2_ObsWrapper.pcd_uniform_downsample.
  cbn [bind ret Monad_M Monad_outcome]. intros H.
  returns H. destruct a as [dt xyz]. returns H0. returns H0.
  unfold getitem in H1. destruct (dict_get "xyz" ret_) as [v |] eqn:Ex;
    [| discriminate]. inversion H1; subst a. clear H1.
  unfold as_mat in H0.
  destruct v as [| | | | dt0 [x | x | m | t] | |]; try discriminate.
  inversion H0; subst. clear H0.
  destruct xyz as [| r0 xyz0]; [apply lift_Return in H; destruct H; discriminate |].
  returns H. apply sample_Return in H0. returns H.
  pose proof (mapM_dict_get _ _ _ "xyz" H) as Hxyz. rewrite Ex in Hxyz.
  destruct Hxyz as (v' & Hv' & Hget).
  destruct (getitem_indices_mat _ _ _ _ Hv') as (m' & -> & Hlen & Hin).
  exists dt, (r0 :: xyz0), m'. repeat split; auto; try congruence.
  intros k v Hk. pose proof (mapM_dict_get _ _ _ k H) as Hm. rewrite Hk in Hm.
  destruct Hm as (v1 & Hv1 & Hget1). exists v1. split; [assumption |].
  rewrite <- H0. eapply getitem_indices_rows. eassumption.
Qed.

End Stages.

Section Pointcloud.
Context {World : Type} {L : Libraries World}.

(** The goal points: nothing is added unless [n_goal_points] is positive;
    then as many rows are appended to [xyz] and to [rgb]. *)
Lemma add_goal_points_Return (self : ManiSkill2_ObsWrapper.t World)
    (to_origin : Pose) (goal_pos : option (dtype * vec)) (ret_ ret' : dict)
    (w w' : World) :
  ManiSkill2_ObsWrapper.add_goal_points self to_origin goal_pos ret_ w
  = (Return ret', w') ->
  ((ManiSkill2_ObsWrapper.n_goal_points self <= 0)%Z /\ ret' = ret_)
  \/ ((0 < ManiSkill2_ObsWrapper.n_goal_points self)%Z
      /\ exists dx xyz dr rgb dx' dr' goal_xyz goal_rgb,
          dict_get "xyz" ret_ = Some (VArr dx (A2 xyz))
          /\ dict_get "rgb" ret_ = Some (VArr dr (A2 rgb))
          /\ dict_get "xyz" ret' = Some (VArr dx' (A2 (xyz ++ goal_xyz)%list))
          /\ dict_get "rgb" ret' = Some (VArr dr' (A2 (rgb ++ goal_rgb)%list))
          /\ length goal_xyz = Z.to_nat (ManiSkill2_ObsWrapper.n_goal_points self)
          /\ length goal_rgb = Z.to_nat (ManiSkill2_ObsWrapper.n_goal_points self)).
Proof.
  unfold ManiSkill2_ObsWrapper.add_goal_points.
  destruct (Z.gtb_spec (ManiSkill2_ObsWrapper.n_goal_points self) 0) as [Hn | Hn].
  - intros H. right. split; [assumption |].
    destruct goal_pos as [[gdt g] |];
      [| apply lift_Return in H; destruct H; discriminate].
    cbn [bind ret Monad_M Monad_outcome] in H.
    unbind.
    repeat match goal with
      | H : sample _ _ _ = _ |- _ => apply sample_Return in H
      | H : mapM _ _ = Return _ |- _ => apply mapM_length in H
      | H : getitem _ _ = Return _ |- _ => apply getitem_Return in H
      | H : as_mat _ = Return _ |- _ => apply as_mat_Return in H
      | H : concatenate [_; _] = Return _ |- _ => apply concatenate_two in H; simpl in H
      | H : ManiSkill2_ObsWrapper.apply_pose_to_points _ _ = Return _ |- _ =>
          apply apply_pose_to_points_Return in H; destruct H as (? & ? & ? & ?)
      end.
    subst.
    repeat match goal with
      | H : VArr _ _ = VArr _ _ |- _ => injection H as ? ?; subst
      | H : dict_get "rgb" (dict_set "xyz" _ _) = _ |- _ =>
          rewrite dict_get_set_other in H by discriminate
      end.
    do 8 eexists. split; [eassumption |]. split; [eassumption |].
    split; [rewrite dict_get_set_other by discriminate; apply dict_get_set_same |].
    split; [apply dict_get_set_same |].
    rewrite !length_map in *. split; congruence.
  - intros H. left. split; [lia |]. inversion H. reflexivity.
Qed.

(** The state fields are added under other keys: [xyz] and [rgb] stay. *)
Lemma add_states_Return (observation : value) (extra : dict)
    (e : ManiSkill2_ObsWrapper.extras) (to_origin : Pose) (ret_ : dict) (v : value) :
  ManiSkill2_ObsWrapper.add_states observation extra e to_origin ret_ = Return v ->
  exists ret', v = VDict ret'
               /\ dict_get "xyz" ret' = dict_get "xyz" ret_
               /\ dict_get "rgb" ret' = dict_get "rgb" ret_.
Proof.
  unfold ManiSkill2_ObsWrapper.add_states.
  cbn [bind ret Monad_outcome]. intros H.
  returns H. returns H. returns H. returns H. inversion H; subst. clear H.
  eexists. split; [reflexivity |].
  assert (Ha : dict_get "xyz" a0
               = dict_get "xyz" ret_ /\ dict_get "rgb" a0 = dict_get "rgb" ret_).
  { destruct (Nat.ltb 0 (length (ManiSkill2_ObsWrapper.frame_goal_related_poses
                                   e to_origin))).
    - returns H1. inversion H1; subst.
      rewrite !dict_get_set_other by discriminate. auto.
    - inversion H1; subst. rewrite !dict_get_set_other by discriminate. auto. }
  destruct Ha as [Hx Hr].
  rewrite !dict_get_set_other by discriminate. auto.
Qed.

(** What a returning run of the pointcloud mode went through. *)
Lemma observation_pointcloud_Return (self : ManiSkill2_ObsWrapper.t World)
    (observation v : value) (w w' : World) :
  ManiSkill2_ObsWrapper.observation_pointcloud self observation w = (Return v, w') ->
  exists to_origin pointcloud pc rgb0 rgb ret2 w2 dtx m extra e ret3,
    ManiSkill2_ObsWrapper.to_origin_of self observation = Return to_origin
    /\ item observation "pointcloud" = Return (VDict pointcloud)
    /\ ManiSkill2_ObsWrapper.mask_pointcloud pointcloud = Return pc
    /\ dict_get "rgb" pc = Some rgb0
    /\ true_divide rgb0 255 = Return rgb
    /\ (if negb (ManiSkill2_ObsWrapper.preprocessed self)
        then ManiSkill2_ObsWrapper.pcd_uniform_downsample
               (dict_set "rgb" rgb (ManiSkill2_ObsWrapper.select_modes pc))
               (1 # 10000) (ManiSkill2_ObsWrapper.n_points self) w
        else (Return (dict_set "rgb" rgb (ManiSkill2_ObsWrapper.select_modes pc)), w))
       = (Return ret2, w2)
    /\ dict_get "xyz" ret2 = Some (VArr dtx (A2 m))
    /\ ManiSkill2_ObsWrapper.add_goal_points self to_origin
         (ManiSkill2_ObsWrapper.goal_pos e)
         (dict_set "xyz"
            (VArr (promote dtx pose_dtype)
               (A2 (map (fun r => snd (ManiSkill2_ObsWrapper.apply_pose_to_point
                                         (dtx, r) to_origin)) m)))
            ret2) w2
       = (Return ret3, w')
    /\ ManiSkill2_ObsWrapper.add_states observation extra e to_origin ret3 = Return v.
Proof.
  unfold ManiSkill2_ObsWrapper.observation_pointcloud.
  cbn [bind ret Monad_M Monad_outcome]. intros H. unbind.
  repeat match goal with
    | H : getitem _ _ = Return _ |- _ => apply getitem_Return in H
    | H : as_dict _ = Return _ |- _ => apply as_dict_Return in H
    | H : ManiSkill2_ObsWrapper.apply_pose_to_points _ _ = Return _ |- _ =>
        apply apply_pose_to_points_Return in H; destruct H as (? & ? & ? & ?)
    end.
  subst.
  match goal with
  | H : dict_get "rgb" (ManiSkill2_ObsWrapper.select_modes _) = _ |- _ =>
      rewrite select_modes_get in H by auto
  end.
  do 12 eexists. repeat split; try eassumption.
  destruct (negb (ManiSkill2_ObsWrapper.preprocessed self)); eassumption.
Qed.

Lemma goal_count_positive (n : Z) : (0 < n)%Z -> goal_count n = Z.to_nat n.
Proof.
  unfold goal_count. destruct (Z.gtb_spec n 0); [reflexivity | lia].
Qed.

Lemma goal_count_none (n : Z) : (n <= 0)%Z -> goal_count n = 0%nat.
Proof.
  unfold goal_count. destruct (Z.gtb_spec n 0); [lia | reflexivity].
Qed.

(** The cloud a returning run of the pointcloud mode hands out: the
    points [m] it kept, converted, followed by the goal points. *)
Lemma observation_pointcloud_cloud (self : ManiSkill2_ObsWrapper.t World)
    (observation v : value) (w w' : World) :
  ManiSkill2_ObsWrapper.observation_pointcloud self observation w = (Return v, w') ->
  exists to_origin pointcloud pc rgb0 rgb ret2 w2 dtx m ret_ dx' goal_xyz,
    ManiSkill2_ObsWrapper.to_origin_of self observation = Return to_origin
    /\ item observation "pointcloud" = Return (VDict pointcloud)
    /\ ManiSkill2_ObsWrapper.mask_pointcloud pointcloud = Return pc
    /\ dict_get "rgb" pc = Some rgb0
    /\ true_divide rgb0 255 = Return rgb
    /\ (if negb (ManiSkill2_ObsWrapper.preprocessed self)
        then ManiSkill2_ObsWrapper.pcd_uniform_downsample
               (dict_set "rgb" rgb (ManiSkill2_ObsWrapper.select_modes pc))
               (1 # 10000) (ManiSkill2_ObsWrapper.n_points self) w
        else (Return (dict_set "rgb" rgb (ManiSkill2_ObsWrapper.select_modes pc)), w))
       = (Return ret2, w2)
    /\ dict_get "xyz" ret2 = Some (VArr dtx (A2 m))
    /\ v = VDict ret_
    /\ dict_get "xyz" ret_
       = Some (VArr dx'
                 (A2 (map (fun r => snd (ManiSkill2_ObsWrapper.apply_pose_to_point
                                           (dtx, r) to_origin)) m
                      ++ goal_xyz)%list))
    /\ length goal_xyz = goal_count (ManiSkill2_ObsWrapper.n_goal_points self)
    /\ n_rows (dict_get "rgb" ret_)
       = option_map
           (fun k => (k + goal_count (ManiSkill2_ObsWrapper.n_goal_points self))%nat)
           (n_rows (dict_get "rgb" ret2)).
Proof.
  intros H.
  destruct (observation_pointcloud_Return _ _ _ _ _ H)
    as (to_origin & pointcloud & pc & rgb0 & rgb & ret2 & w2 & dtx & m & extra
        & e & ret3 & Ho & Hi & Hm & Hr0 & Hr & Hd & Hx & Hg & Hs).
  destruct (add_states_Return _ _ _ _ _ _ Hs) as (ret_ & -> & Hsx & Hsr).
  exists to_origin, pointcloud, pc, rgb0, rgb, ret2, w2, dtx, m, ret_.
  destruct (add_goal_points_Return _ _ _ _ _ _ _ Hg)
    as [[Hn ->] | (Hn & dx & xyz & dr & rgb1 & dx' & dr' & gx & gr
                   & Gx & Gr & Gx' & Gr' & Lx & Lr)].
  - exists (promote dtx pose_dtype), [].
    rewrite Hsx, Hsr, dict_get_set_same, app_nil_r, (goal_count_none _ Hn).
    rewrite dict_get_set_other by discriminate.
    repeat split; auto.
    destruct (n_rows (dict_get "rgb" ret2)); simpl; [rewrite Nat.add_0_r |];
      reflexivity.
  - exists dx', gx.
    rewrite dict_get_set_same in Gx. injection Gx as <- <-.
    rewrite dict_get_set_other in Gr by discriminate.
    rewrite Hsx, Hsr, Gx', Gr', Gr, (goal_count_positive _ Hn). simpl.
    rewrite length_app, Lr. repeat split; auto.
Qed.

End Pointcloud.

Lemma observation_pointcloud_mode {World : Type} {L : Libraries World}
    (self : ManiSkill2_ObsWrapper.t World) (observation : value) :
  obs_mode (ManiSkill2_ObsWrapper.env self) = "pointcloud" ->
  ManiSkill2_ObsWrapper.observation self observation
  = ManiSkill2_ObsWrapper.observation_pointcloud self observation.
Proof.
  intros Hmode. unfold ManiSkill2_ObsWrapper.observation. rewrite Hmode.
  reflexivity.
Qed.

(** C1, as amended: in pointcloud mode, when the wrapper downsamples (the
    wrapped environment does not print as a PointCloudPreprocessObsWrapper),
    the observation returned has [n_points] points plus the injected goal
    points, in [xyz] and in [rgb]; when the wrapped environment is already
    preprocessed, the wrapper does not downsample, and the observation has
    the points left by the masking step plus the injected goal points. *)
Theorem pointcloud_point_count :
  forall (World : Type) (L : Libraries World) (self : ManiSkill2_ObsWrapper.t World)
         (observation v : value) (w w' : World),
    obs_mode (ManiSkill2_ObsWrapper.env self) = "pointcloud" ->
    ManiSkill2_ObsWrapper.observation self observation w = (Return v, w') ->
    exists ret_,
      v = VDict ret_
      /\ (ManiSkill2_ObsWrapper.preprocessed self = false ->
          n_rows (dict_get "xyz" ret_)
          = Some (ManiSkill2_ObsWrapper.n_points self
                  + goal_count (ManiSkill2_ObsWrapper.n_goal_points self))%nat
          /\ n_rows (dict_get "rgb" ret_)
             = Some (ManiSkill2_ObsWrapper.n_points self
                     + goal_count (ManiSkill2_ObsWrapper.n_goal_points self))%nat)
      /\ (ManiSkill2_ObsWrapper.preprocessed self = true ->
          exists pointcloud pc,
            item observation "pointcloud" = Return (VDict pointcloud)
            /\ ManiSkill2_ObsWrapper.mask_pointcloud pointcloud = Return pc
            /\ n_rows (dict_get "xyz" ret_)
               = option_map
                   (fun k => (k + goal_count (ManiSkill2_ObsWrapper.n_goal_points self))%nat)
                   (n_rows (dict_get "xyz" pc))
            /\ n_rows (dict_get "rgb" ret_)
               = option_map
                   (fun k => (k + goal_count (ManiSkill2_ObsWrapper.n_goal_points self))%nat)
                   (n_rows (dict_get "rgb" pc))).
Proof.
  intros World L self observation v w w' Hmode H.
  rewrite (observation_pointcloud_mode _ _ Hmode) in H.
  destruct (observation_pointcloud_cloud _ _ _ _ _ H)
    as (to_origin & pointcloud & pc & rgb0 & rgb & ret2 & w2 & dtx & m & ret_
        & dx' & gx & Ho & Hi & Hm & Hr0 & Hr & Hd & Hx & -> & Hxyz & Lg & Hrgb).
  exists ret_. split; [reflexivity |]. split; intros Hp; rewrite Hp in Hd; simpl in Hd.
  - destruct (pcd_uniform_downsample_Return _ _ _ _ _ _ Hd)
      as (dt & xyz & xyz' & Ex & Ex' & Lx & _ & Hall).
    rewrite Hx in Ex'. injection Ex' as -> ->.
    rewrite Hxyz, Hrgb. simpl. rewrite length_app, length_map, Lx, Lg.
    split; [reflexivity |].
    destruct (Hall "rgb" rgb (dict_get_set_same _ _ _)) as (v' & -> & Hv').
    rewrite Hv'. reflexivity.
  - inversion Hd; subst ret2 w2. clear Hd.
    exists pointcloud, pc. split; [assumption |]. split; [assumption |].
    rewrite dict_get_set_other, select_modes_get in Hx by (auto; discriminate).
    rewrite Hxyz, Hrgb, Hx, dict_get_set_same, Hr0,
      (true_divide_rows _ _ _ Hr). simpl.
    rewrite length_app, length_map, Lg. split; reflexivity.
Qed.

Lemma pointcloud_point_count_witness :
  exists v w',
    ManiSkill2_ObsWrapper.observation
      (Demo.cloud_wrapper "<Env>" 4 2 "base") Demo.cloud_obs 0%nat = (Return v, w')
    /\ exists ret_,
        v = VDict ret_
        /\ (ManiSkill2_ObsWrapper.preprocessed (Demo.cloud_wrapper "<Env>" 4 2 "base")
            = false ->
            n_rows (dict_get "xyz" ret_) = Some (4 + goal_count 2)%nat
            /\ n_rows (dict_get "rgb" ret_) = Some (4 + goal_count 2)%nat)
        /\ (ManiSkill2_ObsWrapper.preprocessed (Demo.cloud_wrapper "<Env>" 4 2 "base")
            = true ->
            exists pointcloud pc,
              item Demo.cloud_obs "pointcloud" = Return (VDict pointcloud)
              /\ ManiSkill2_ObsWrapper.mask_pointcloud pointcloud = Return pc
              /\ n_rows (dict_get "xyz" ret_)
                 = option_map (fun k => (k + goal_count 2)%nat)
                              (n_rows (dict_get "xyz" pc))
              /\ n_rows (dict_get "rgb" ret_)
                 = option_map (fun k => (k + goal_count 2)%nat)
                              (n_rows (dict_get "rgb" pc))).
Proof.
  eexists. eexists. split; [vm_compute; reflexivity |].
  exact (pointcloud_point_count Demo.World Demo.libraries
           (Demo.cloud_wrapper "<Env>" 4 2 "base") Demo.cloud_obs _ 0%nat _
           eq_refl eq_refl).
Defined.

(** C1, as stated, fails: around an environment that prints as a
    PointCloudPreprocessObsWrapper the wrapper does not downsample; with the
    default [n_points=1200] and [n_goal_points=-1], the cloud of three
    points, one of them masked, comes back with two points. *)
Lemma pointcloud_point_count_counterexample :
  exists ret_ w',
    ManiSkill2_ObsWrapper.observation
      (Demo.cloud_wrapper "<PointCloudPreprocessObsWrapper<Env>>" 1200 (-1) "base")
      Demo.cloud_obs 0%nat
    = (Return (VDict ret_), w')
    /\ n_rows (dict_get "xyz" ret_) = Some 2%nat
    /\ n_rows (dict_get "rgb" ret_) = Some 2%nat
    /\ 2%nat <> (1200 + goal_count (-1))%nat.
Proof.
  eexists. eexists. split; [vm_compute; reflexivity |].
  split; [reflexivity |]. split; [reflexivity |]. vm_compute. discriminate.
Qed.



(** ** [ExtendedEnv], the rest *)







(** X1: [step_states_actions] refuses an array of actions that is not of
    rank three with an assertion error, before it sets a state or takes a
    step: the world is left as it was. *)
Theorem step_states_actions_rank :
  forall (World : Type) (self : ExtendedEnv.t World) (api : StateApi World)
         (states : value) (dt : dtype) (a : array) (w : World),
    (forall t, a <> A3 t) ->
    ExtendedEnvApi.step_states_actions self api states (VArr dt a) w
    = (Raise (AssertionError ""), w).
Proof.
  intros World self api states dt a w Ha.
  destruct a as [x | v | m | t]; try reflexivity.
  exfalso. apply (Ha t). reflexivity.
Qed.

Lemma step_states_actions_rank_witness :
  ExtendedEnvApi.step_states_actions Cases.counting_self Cases.counter_api
    (VArr Int64 (A1 [5])) (VArr Float32 (A2 [[1; 0]; [3; 0]])) 4%nat
  = (Raise (AssertionError ""), 4%nat).
Proof.
  apply (step_states_actions_rank nat). intros t. discriminate.
Defined.



(** X3: [_process_action] is idempotent: an action it has processed goes
    through it unchanged.  On a discrete action space what it returns is an
    integer; on any other action space it returns the action it was
    given. *)
Theorem process_action_idempotent :
  forall (World : Type) (self : ExtendedEnv.t World) (a a' : action),
    ExtendedEnv._process_action self a = Return a' ->
    ExtendedEnv._process_action self a' = Return a'
    /\ (ExtendedEnv.is_discrete self = true -> exists n, a' = AInt n)
    /\ (ExtendedEnv.is_discrete self = false -> a' = a).
Proof.
  intros World self a a'. unfold ExtendedEnv._process_action.
  destruct (ExtendedEnv.is_discrete self).
  - intros H.
    assert (Hn : exists n, a' = AInt n).
    { destruct a as [n | x | arr]; simpl in H.
      - inversion H. eauto.
      - inversion H. eauto.
      - unbind. destruct (flatten arr); inversion H; eauto. }
    destruct Hn as [n ->]. split; [reflexivity |].
    split; [eauto | discriminate].
  - intros H. inversion H. split; [reflexivity |].
    split; [discriminate | reflexivity].
Qed.

Lemma process_action_idempotent_witness :
  ExtendedEnv._process_action Demo.discrete_self (AInt (int (5 # 2)))
  = Return (AInt (int (5 # 2)))
  /\ (ExtendedEnv.is_discrete Demo.discrete_self = true ->
      exists n, AInt (int (5 # 2)) = AInt n)
  /\ (ExtendedEnv.is_discrete Demo.discrete_self = false ->
      AInt (int (5 # 2)) = AArr (A2 [[5 # 2]])).
Proof.
  exact (process_action_idempotent nat Demo.discrete_self (AArr (A2 [[5 # 2]]))
           (AInt (int (5 # 2))) eq_refl).
Defined.

(** ** [FixedInitWrapper] *)

(** X4: when the wrapped environment, once its state is set to
    [init_state], observes [obs0] whatever its state was before, [reset]
    returns [obs0]: whatever arguments it is given, whatever the state
    before it, and whatever the wrapped [reset] returned. *)
Theorem fixed_init_reset_observation :
  forall (World : Type) (self : FixedInitWrapper.t World)
         (set : value -> M World unit) (obs0 : value),
    set_state (FixedInitWrapper.api self) = Some set ->
    (forall w0, exists w1,
        set (FixedInitWrapper.init_state self) w0 = (Return tt, w1)
        /\ env_get_obs (FixedInitWrapper.env self) w1 = (Return obs0, w1)) ->
    forall (kwargs : dict) (w w0 : World) (o : value),
      env_reset (FixedInitWrapper.env self)
                (match FixedInitWrapper.level self with
                 | Some l => [("level", l)]
                 | None => []
                 end) w = (Return o, w0) ->
      exists w1,
        FixedInitWrapper.reset self kwargs w = (Return obs0, w1)
        /\ set (FixedInitWrapper.init_state self) w0 = (Return tt, w1).
Proof.
  intros World self set obs0 Hset Hlaw kwargs w w0 o Hreset.
  destruct (Hlaw w0) as (w1 & Hs & Ho). exists w1. split; [| exact Hs].
  unfold FixedInitWrapper.reset. cbn [bind ret Monad_M]. unfold mbind.
  rewrite Hreset, Hset, Hs. exact Ho.
Qed.

Lemma fixed_init_reset_observation_witness :
  exists w1,
    FixedInitWrapper.reset Cases.fixed_counter [("seed", VInt 1)] 42%nat
    = (Return (VArr Float32 (A0 (inject_Z 7))), w1)
    /\ (@Return unit tt, 7%nat) = (Return tt, w1).
Proof.
  apply (fixed_init_reset_observation nat Cases.fixed_counter _
           (VArr Float32 (A0 (inject_Z 7))) eq_refl)
    with (o := VArr Float32 (A0 0)) (w0 := 0%nat).
  - intros w0. exists 7%nat. split; reflexivity.
  - reflexivity.
Defined.

(** X5: around an environment without [set_state], [reset] raises an
    attribute error, and by then the wrapped environment has been reset:
    the world is the one the wrapped [reset] left. *)
Theorem fixed_init_reset_needs_set_state :
  forall (World : Type) (self : FixedInitWrapper.t World) (kwargs : dict)
         (w w0 : World) (o : value),
    set_state (FixedInitWrapper.api self) = None ->
    env_reset (FixedInitWrapper.env self)
              (match FixedInitWrapper.level self with
               | Some l => [("level", l)]
               | None => []
               end) w = (Return o, w0) ->
    FixedInitWrapper.reset self kwargs w = (Raise (AttributeError "set_state"), w0).
Proof.
  intros World self kwargs w w0 o Hset Hreset.
  unfold FixedInitWrapper.reset. cbn [bind ret Monad_M]. unfold mbind.
  rewrite Hreset, Hset. reflexivity.
Qed.

Lemma fixed_init_reset_needs_set_state_witness :
  FixedInitWrapper.reset Cases.unfixable_counter [] 42%nat
  = (Raise (AttributeError "set_state"), 0%nat).
Proof.
  exact (fixed_init_reset_needs_set_state nat Cases.unfixable_counter [] 42%nat
           0%nat (VArr Float32 (A0 0)) eq_refl eq_refl).
Defined.

(** ** [ManiSkill2_ObsWrapper.render] *)

Lemma first3_channels (a a' : array) :
  first3 a = Return a' -> at_most_three_channels a'.
Proof.
  destruct a as [x | v | m | t]; unfold first3; intros H;
    try discriminate H; injection H as <-; cbn [at_most_three_channels].
  - exact (firstn_le_length 3 v).
  - apply Forall_map, Forall_forall. intros r _. exact (firstn_le_length 3 r).
  - apply Forall_map, Forall_forall. intros r _.
    apply Forall_map, Forall_forall. intros px _. exact (firstn_le_length 3 px).
Qed.

Lemma array_map_channels (f : Q -> Q) (a : array) :
  at_most_three_channels a -> at_most_three_channels (array_map f a).
Proof.
  destruct a as [x | v | m | t]; simpl; auto.
  - rewrite length_map. auto.
  - intros H. apply Forall_map. eapply Forall_impl; [| exact H].
    intros r Hr. simpl. rewrite length_map. exact Hr.
  - intros H. apply Forall_map. eapply Forall_impl; [| exact H].
    intros r Hr. simpl. apply Forall_map. eapply Forall_impl; [| exact Hr].
    intros px Hpx. simpl. rewrite length_map. exact Hpx.
Qed.

Lemma flatten_array_map (f : Q -> Q) (a : array) :
  flatten (array_map f a) = map f (flatten a).
Proof.
  destruct a as [x | v | m | t]; simpl; try reflexivity.
  - rewrite concat_map. reflexivity.
  - rewrite concat_map, map_map. f_equal. rewrite map_map.
    apply map_ext. intros r. rewrite concat_map. reflexivity.
Qed.

Lemma astype_uint8_bytes (a : array) : all_bytes (astype UInt8 a).
Proof.
  unfold all_bytes, astype. rewrite flatten_array_map.
  apply Forall_forall. intros x Hx. apply in_map_iff in Hx.
  destruct Hx as (y & <- & _). simpl. eexists. split; [reflexivity |].
  pose proof (Z.mod_pos_bound (int y) 256). lia.
Qed.

Lemma to_uint8_Return (img : rendered) (v : value) :
  Render.to_uint8 img = Return v ->
  exists a, v = VArr UInt8 a /\ at_most_three_channels a /\ all_bytes a.
Proof.
  unfold Render.to_uint8. cbn [bind ret Monad_outcome]. intros H. unbind.
  eexists. split; [reflexivity |]. split; [| apply astype_uint8_bytes].
  apply array_map_channels. eapply first3_channels. eassumption.
Qed.

Lemma render_Return {World : Type} (env_render : string -> M World rendered)
    (mode : string) (w w' : World) (v : value) :
  mode <> "human" ->
  Render.render env_render mode w = (Return v, w') ->
  exists img picked,
    env_render (if existsb (String.eqb mode) ["rgb_array"; "color_image"]
                then "rgb_array" else mode) w = (Return img, w')
    /\ Render.pick_image img = Return picked
    /\ Render.to_uint8 picked = Return v.
Proof.
  intros Hmode H. apply String.eqb_neq in Hmode.
  unfold Render.render in H. rewrite Hmode in H.
  cbn [bind ret Monad_M Monad_outcome] in H. unbind.
  exists x, x1. repeat split; try assumption.
  destruct (existsb (String.eqb mode) ["rgb_array"; "color_image"]); assumption.
Qed.

(** X6: in every mode but 'human', what [render] returns is a uint8 array
    whose last axis has at most three entries, every element a whole
    number from 0 to 255. *)
Theorem render_returns_uint8 :
  forall (World : Type) (env_render : string -> M World rendered) (mode : string)
         (w w' : World) (v : value),
    mode <> "human" ->
    Render.render env_render mode w = (Return v, w') ->
    exists a, v = VArr UInt8 a /\ at_most_three_channels a /\ all_bytes a.
Proof.
  intros World env_render mode w w' v Hmode H.
  destruct (render_Return _ _ _ _ _ Hmode H) as (img & picked & _ & _ & Hv).
  exact (to_uint8_Return _ _ Hv).
Qed.

Lemma render_returns_uint8_witness :
  exists a,
    VArr UInt8 (A3 [[[inject_Z 127; inject_Z 0; inject_Z 255]]]) = VArr UInt8 a
    /\ at_most_three_channels a /\ all_bytes a.
Proof.
  apply (render_returns_uint8 nat (Cases.renders Cases.float_image) "rgb_array"
           0%nat 1%nat); [discriminate | vm_compute; reflexivity].
Defined.

Lemma clip_unit (x : Q) : 0 <= clip x 0 1 /\ clip x 0 1 <= 1.
Proof.
  unfold clip. destruct (Qle_bool x 0) eqn:E0.
  - split; [apply Qle_refl | discriminate].
  - destruct (Qle_bool 1 x) eqn:E1.
    + split; [discriminate | apply Qle_refl].
    + split.
      * apply Qlt_le_weak, Qnot_le_lt. intros H.
        apply Qle_bool_iff in H. congruence.
      * apply Qlt_le_weak, Qnot_le_lt. intros H.
        apply Qle_bool_iff in H. congruence.
Qed.

Lemma first3_array_map (f : Q -> Q) (a : array) :
  first3 (array_map f a) = obind (first3 a) (fun a' => Return (array_map f a')).
Proof.
  destruct a as [x | v | m | t]; cbn [first3 array_map obind];
    [reflexivity | do 2 f_equal ..].
  - apply firstn_map.
  - rewrite !map_map. apply map_ext. intros r. apply firstn_map.
  - rewrite !map_map. apply map_ext. intros r. rewrite !map_map.
    apply map_ext. intros px. apply firstn_map.
Qed.

Lemma array_map_ext (f g : Q -> Q) (a : array) :
  (forall x, f x = g x) -> array_map f a = array_map g a.
Proof.
  intros H. destruct a as [x | v | m | t]; simpl; f_equal; auto.
  - apply map_ext. exact H.
  - apply map_ext. intros r. apply map_ext. exact H.
  - apply map_ext. intros r. apply map_ext. intros px. apply map_ext. exact H.
Qed.

Lemma array_map_map (f g : Q -> Q) (a : array) :
  array_map g (array_map f a) = array_map (fun x => g (f x)) a.
Proof.
  destruct a as [x | v | m | t]; simpl; f_equal.
  - apply map_map.
  - rewrite map_map. apply map_ext. intros r. apply map_map.
  - rewrite map_map. apply map_ext. intros r. rewrite map_map.
    apply map_ext. intros px. apply map_map.
Qed.

(** X7: a float32 or float64 image is mapped to uint8 without wrapping
    around: an element [x] becomes the whole part of [clip(x, 0, 1) * 255],
    the product rounded to the dtype of the image, which is 0 for
    [x <= 0], 255 for [x >= 1] and between the two otherwise; only the
    first three channels are kept. *)
Theorem render_float_saturates :
  forall (World : Type) (env_render : string -> M World rendered) (mode : string)
         (w w' : World) (dt : dtype) (a a' : array),
    mode <> "human" ->
    dt = Float32 \/ dt = Float64 ->
    env_render (if existsb (String.eqb mode) ["rgb_array"; "color_image"]
                then "rgb_array" else mode) w = (Return (RImg dt a), w') ->
    first3 a = Return a' ->
    Render.render env_render mode w
    = (Return (VArr UInt8
                 (array_map
                    (fun x => inject_Z (int (element (round dt (clip x 0 1 * 255)))))
                    a')), w')
    /\ forall x, (0 <= int (element (round dt (clip x 0 1 * 255))) <= 255)%Z
                 /\ (x <= 0 -> int (element (round dt (clip x 0 1 * 255))) = 0%Z)
                 /\ (1 <= x -> int (element (round dt (clip x 0 1 * 255))) = 255%Z).
Proof.
  intros World env_render mode w w' dt a a' Hmode Hdt He H3.
  apply String.eqb_neq in Hmode.
  assert (Hbyte : forall x,
             (0 <= int (element (round dt (clip x 0 1 * 255))) <= 255)%Z).
  { intros x. destruct (clip_unit x) as [H0 H1].
    destruct (round_byte dt (clip x 0 1 * 255) Hdt) as (y & -> & Hy0 & Hy1).
    - apply Qmult_le_0_compat; [exact H0 | discriminate].
    - setoid_replace 255 with (1 * 255) at 2 by ring.
      apply Qmult_le_compat_r; [exact H1 | discriminate].
    - apply int_byte; assumption. }
  split.
  - unfold Render.render. rewrite Hmode.
    cbn [bind ret Monad_M Monad_outcome]. unfold mbind.
    assert (Her : (if existsb (String.eqb mode) ["rgb_array"; "color_image"]
                   then env_render "rgb_array" else env_render mode) w
                  = (Return (RImg dt a), w')).
    { destruct (existsb (String.eqb mode) ["rgb_array"; "color_image"]); exact He. }
    rewrite Her. unfold lift, Render.pick_image, Render.to_uint8.
    cbn [bind ret Monad_outcome obind].
    assert (Hf : dtype_eqb dt Float32 || dtype_eqb dt Float64 = true)
      by (destruct Hdt; subst; reflexivity).
    rewrite Hf, first3_array_map, H3. cbn [obind].
    unfold astype. rewrite array_map_map. do 3 f_equal.
    apply array_map_ext. intros x. unfold cast. f_equal.
    apply Z.mod_small. pose proof (Hbyte x). lia.
  - intros x. split; [apply Hbyte | split].
    + intros Hx. apply Qle_bool_iff in Hx. unfold clip. rewrite Hx.
      destruct Hdt; subst; reflexivity.
    + intros Hx. unfold clip.
      destruct (Qle_bool x 0) eqn:E0.
      * apply Qle_bool_iff in E0. exfalso.
        apply (Qlt_irrefl 0). eapply Qlt_le_trans; [| exact E0].
        eapply Qlt_le_trans; [| exact Hx]. reflexivity.
      * apply Qle_bool_iff in Hx. rewrite Hx.
        destruct Hdt; subst; reflexivity.
Qed.

Lemma render_float_saturates_witness :
  (Render.render (Cases.renders Cases.dim_image) "color_image" 0%nat
   = (Return (VArr UInt8
                (array_map
                   (fun x => inject_Z (int (element (round Float64 (clip x 0 1 * 255)))))
                   (A3 [[[282578800148737 # 72057594037927936;
                          847736400446211 # 72057594037927936;
                          1978051601041159 # 72057594037927936]]]))), 1%nat)
   /\ forall x, (0 <= int (element (round Float64 (clip x 0 1 * 255))) <= 255)%Z
                /\ (x <= 0 -> int (element (round Float64 (clip x 0 1 * 255))) = 0%Z)
                /\ (1 <= x -> int (element (round Float64 (clip x 0 1 * 255))) = 255%Z))
  /\ Render.render (Cases.renders Cases.dim_image) "color_image" 0%nat
     = (Return (VArr UInt8 (A3 [[[inject_Z 1; inject_Z 3; inject_Z 7]]])), 1%nat).
Proof.
  split; [| vm_compute; reflexivity].
  apply (render_float_saturates nat (Cases.renders Cases.dim_image) "color_image"
           0%nat 1%nat Float64
           (A3 [[[282578800148737 # 72057594037927936;
                  847736400446211 # 72057594037927936;
                  1978051601041159 # 72057594037927936]]]));
    [discriminate | right; reflexivity | reflexivity | reflexivity].
Defined.

Lemma render_picks {World : Type} (env_render : string -> M World rendered)
    (mode : string) (w w' : World) (img : rendered) :
  mode <> "human" ->
  env_render (asked_mode mode) w = (Return img, w') ->
  Render.render env_render mode w
  = (obind (Render.pick_image img) Render.to_uint8, w').
Proof.
  intros Hmode He. apply String.eqb_neq in Hmode.
  unfold Render.render. rewrite Hmode.
  cbn [bind ret Monad_M Monad_outcome]. unfold mbind, asked_mode in *.
  destruct (existsb (String.eqb mode) ["rgb_array"; "color_image"]);
    rewrite He; reflexivity.
Qed.

(** X8: when the wrapped environment renders a dict, [render] takes its
    'world' image, or else its 'main' image, whatever else the dict
    holds; with neither of the two it ends the process ([exit(0)]),
    after the wrapped environment has rendered. *)
Theorem render_dict_world_main_exit :
  forall (World : Type) (env_render : string -> M World rendered) (mode : string)
         (w w' : World) (d : list (string * rendered)),
    mode <> "human" ->
    env_render (asked_mode mode) w = (Return (RDict d), w') ->
    (forall dt a, rendered_get "world" d = Some (RImg dt a) ->
       Render.render env_render mode w = (Render.to_uint8 (RImg dt a), w'))
    /\ (forall dt a, rendered_get "world" d = None ->
          rendered_get "main" d = Some (RImg dt a) ->
          Render.render env_render mode w = (Render.to_uint8 (RImg dt a), w'))
    /\ (rendered_get "world" d = None -> rendered_get "main" d = None ->
        Render.render env_render mode w = (Exit 0, w')).
Proof.
  intros World env_render mode w w' d Hmode He.
  rewrite (render_picks _ _ _ _ _ Hmode He). unfold Render.pick_image.
  cbn [bind ret Monad_outcome]. split; [| split].
  - intros dt a ->. reflexivity.
  - intros dt a -> ->. reflexivity.
  - intros -> ->. reflexivity.
Qed.

Lemma render_dict_world_main_exit_witness :
  (forall dt a,
      rendered_get "world" [("main", RImg UInt8 (A3 [[[7; 7; 7]]]));
                            ("world", RImg UInt8 (A3 [[[9; 9; 9]]]))]
      = Some (RImg dt a) ->
      Render.render
        (Cases.renders (RDict [("main", RImg UInt8 (A3 [[[7; 7; 7]]]));
                               ("world", RImg UInt8 (A3 [[[9; 9; 9]]]))]))
        "cameras" 0%nat
      = (Render.to_uint8 (RImg dt a), 1%nat))
  /\ Render.render (Cases.renders (RDict [("depth", Cases.float_image)]))
                   "cameras" 0%nat
     = (Exit 0, 1%nat).
Proof.
  split.
  - exact (proj1 (render_dict_world_main_exit nat
                    (Cases.renders (RDict [("main", RImg UInt8 (A3 [[[7; 7; 7]]]));
                                           ("world", RImg UInt8 (A3 [[[9; 9; 9]]]))]))
                    "cameras" 0%nat 1%nat _ ltac:(discriminate) eq_refl)).
  - exact (proj2 (proj2 (render_dict_world_main_exit nat
                    (Cases.renders (RDict [("depth", Cases.float_image)]))
                    "cameras" 0%nat 1%nat _ ltac:(discriminate) eq_refl))
                 eq_refl eq_refl).
Defined.

(** X9: a batch of images (rank four) is accepted only when it holds one
    image, which is then treated as the image itself; a batch of any other
    size fails the assertion. *)
Theorem render_batch_of_one :
  forall (World : Type) (env_render : string -> M World rendered) (mode : string)
         (w w' : World) (dt : dtype) (b : list tensor3),
    mode <> "human" ->
    env_render (asked_mode mode) w = (Return (RBatch dt b), w') ->
    (forall t, b = [t] ->
       Render.render env_render mode w = (Render.to_uint8 (RImg dt (A3 t)), w'))
    /\ (length b <> 1%nat ->
        Render.render env_render mode w = (Raise (AssertionError ""), w')).
Proof.
  intros World env_render mode w w' dt b Hmode He.
  rewrite (render_picks _ _ _ _ _ Hmode He). split.
  - intros t ->. reflexivity.
  - intros Hb. apply Nat.eqb_neq in Hb.
    unfold Render.pick_image, Render.to_uint8. cbn [bind ret Monad_outcome obind].
    rewrite Hb. reflexivity.
Qed.

Lemma render_batch_of_one_witness :
  Render.render (Cases.renders (RBatch UInt8 [[[[9; 8; 7; 6]]]])) "rgb_array" 0%nat
  = (Render.to_uint8 (RImg UInt8 (A3 [[[9; 8; 7; 6]]])), 1%nat)
  /\ Render.render (Cases.renders (RBatch UInt8 [[[[9]]]; [[[8]]]])) "rgb_array" 0%nat
     = (Raise (AssertionError ""), 1%nat).
Proof.
  split.
  - exact (proj1 (render_batch_of_one nat (Cases.renders (RBatch UInt8 [[[[9; 8; 7; 6]]]]))
                    "rgb_array" 0%nat 1%nat UInt8 _ ltac:(discriminate) eq_refl)
                 _ eq_refl).
  - apply (render_batch_of_one nat (Cases.renders (RBatch UInt8 [[[[9]]]; [[[8]]]]))
             "rgb_array" 0%nat 1%nat UInt8 _ ltac:(discriminate) eq_refl).
    simpl. lia.
Defined.

(** ** [ManiSkill2_ObsWrapper], the rest *)

(** X10: with [fix_seed] set, a [reset] that is given a seed of its own is
    refused with a type error before the wrapped environment is touched;
    any other [reset] calls the wrapped [reset] with [seed=fix_seed] put
    before the caller's keyword arguments and returns the transformed
    observation. *)
Theorem reset_fix_seed :
  forall (World : Type) (L : Libraries World) (self : ManiSkill2_ObsWrapper.t World)
         (seed : Z) (kwargs : dict) (w : World),
    ManiSkill2_ObsWrapper.fix_seed self = Some seed ->
    (dict_mem "seed" kwargs = true ->
     ManiSkill2_ObsWrapper.reset self kwargs w = (Raise TypeError, w))
    /\ (dict_mem "seed" kwargs = false ->
        forall obs w1,
          env_reset (ManiSkill2_ObsWrapper.env self) (("seed", VInt seed) :: kwargs) w
          = (Return obs, w1) ->
          ManiSkill2_ObsWrapper.reset self kwargs w
          = ManiSkill2_ObsWrapper.observation self obs w1).
Proof.
  intros World L self seed kwargs w Hseed.
  unfold ManiSkill2_ObsWrapper.reset. rewrite Hseed.
  cbn [bind ret Monad_M]. unfold mbind. split; intros Hk; rewrite Hk.
  - reflexivity.
  - intros obs w1 He. rewrite He. reflexivity.
Qed.

Lemma reset_fix_seed_witness :
  ManiSkill2_ObsWrapper.reset
    (ManiSkill2_ObsWrapper.__init__ Demo.discrete_env None 1200 (-1) "base" false
       (Some 7%Z)) [("seed", VInt 1)] 3%nat
  = (Raise TypeError, 3%nat)
  /\ ManiSkill2_ObsWrapper.reset
       (ManiSkill2_ObsWrapper.__init__ Demo.discrete_env None 1200 (-1) "base" false
          (Some 7%Z)) [("level", VInt 2)] 3%nat
     = ManiSkill2_ObsWrapper.observation
         (ManiSkill2_ObsWrapper.__init__ Demo.discrete_env None 1200 (-1) "base" false
            (Some 7%Z)) (VArr Float64 (A1 [1; 2])) 3%nat.
Proof.
  destruct (reset_fix_seed nat Demo.libraries
              (ManiSkill2_ObsWrapper.__init__ Demo.discrete_env None 1200 (-1) "base"
                 false (Some 7%Z)) 7%Z [("seed", VInt 1)] 3%nat eq_refl) as [H1 _].
  destruct (reset_fix_seed nat Demo.libraries
              (ManiSkill2_ObsWrapper.__init__ Demo.discrete_env None 1200 (-1) "base"
                 false (Some 7%Z)) 7%Z [("level", VInt 2)] 3%nat eq_refl) as [_ H2].
  split; [exact (H1 eq_refl) | exact (H2 eq_refl _ _ eq_refl)].
Defined.

(** X11: [step] changes nothing but the observation and, under
    [ignore_dones], the flag: the reward and the info it returns are those
    of the wrapped step, the observation is the wrapped one put through
    [observation], and without [ignore_dones] the flag is the wrapped
    one. *)
Theorem step_changes_observation_only :
  forall (World : Type) (L : Libraries World) (self : ManiSkill2_ObsWrapper.t World)
         (a : action) (w w' : World) (obs info : value) (reward : Q) (done : bool),
    ManiSkill2_ObsWrapper.step self a w = (Return (obs, reward, done, info), w') ->
    exists obs0 done0 w0,
      env_step (ManiSkill2_ObsWrapper.env self) a w
      = (Return (obs0, reward, done0, info), w0)
      /\ ManiSkill2_ObsWrapper.observation self obs0 w0 = (Return obs, w')
      /\ done = (if ManiSkill2_ObsWrapper.ignore_dones self then false else done0).
Proof.
  intros World L self a w w' obs info reward done H.
  unfold ManiSkill2_ObsWrapper.step, ManiSkill2_ObsWrapper.super_step in H.
  cbn [bind ret Monad_M] in H. unbind. eauto 7.
Qed.

Lemma step_changes_observation_only_witness :
  exists obs0 done0 w0,
    env_step Demo.discrete_env (AInt 2) 0%nat
    = (Return (obs0, 1 # 2, done0, VDict []), w0)
    /\ ManiSkill2_ObsWrapper.observation
         (ManiSkill2_ObsWrapper.__init__ Demo.discrete_env None 1200 (-1) "base"
            false None) obs0 w0
       = (Return (VArr Float64 (A1 [1; 2])), 0%nat)
    /\ true = (if false then false else done0).
Proof.
  exact (step_changes_observation_only nat Demo.libraries
           (ManiSkill2_ObsWrapper.__init__ Demo.discrete_env None 1200 (-1) "base"
              false None) (AInt 2) 0%nat 0%nat (VArr Float64 (A1 [1; 2])) (VDict [])
           (1 # 2) true eq_refl).
Defined.

(** X12: the frames 'world' and 'base' are one and the same to
    [observation]: both take the inverse of the base pose of the robot as
    the change of frame. *)
Theorem observation_world_is_base :
  forall (World : Type) (L : Libraries World) (env : GymEnv World)
         (img_size : option (nat * nat)) (n_points : nat) (n_goal_points : Z)
         (ignore_dones : bool) (fix_seed : option Z) (observation : value),
    ManiSkill2_ObsWrapper.observation
      (ManiSkill2_ObsWrapper.__init__ env img_size n_points n_goal_points "world"
         ignore_dones fix_seed) observation
    = ManiSkill2_ObsWrapper.observation
        (ManiSkill2_ObsWrapper.__init__ env img_size n_points n_goal_points "base"
           ignore_dones fix_seed) observation.
Proof. reflexivity. Qed.

(** X13: in pointcloud mode the change of frame is read before the cloud
    is: with [obs_frame] 'ee' an observation whose [extra] has no
    'tcp_pose' raises a key error for 'tcp_pose', and with 'base' or
    'world' an observation whose [agent] has no 'base_pose' raises one for
    'base_pose'; the world is left as it was. *)
Theorem observation_frame_pose_missing :
  forall (World : Type) (L : Libraries World) (self : ManiSkill2_ObsWrapper.t World)
         (observation : value) (w : World),
    obs_mode (ManiSkill2_ObsWrapper.env self) = "pointcloud" ->
    (forall extra,
        ManiSkill2_ObsWrapper.obs_frame self = "ee" ->
        item observation "extra" = Return (VDict extra) ->
        dict_get "tcp_pose" extra = None ->
        ManiSkill2_ObsWrapper.observation self observation w
        = (Raise (KeyError "tcp_pose"), w))
    /\ (forall agent,
          ManiSkill2_ObsWrapper.obs_frame self = "base"
          \/ ManiSkill2_ObsWrapper.obs_frame self = "world" ->
          item observation "agent" = Return (VDict agent) ->
          dict_get "base_pose" agent = None ->
          ManiSkill2_ObsWrapper.observation self observation w
          = (Raise (KeyError "base_pose"), w)).
Proof.
  intros World L self observation w Hmode.
  rewrite (observation_pointcloud_mode _ _ Hmode).
  unfold ManiSkill2_ObsWrapper.observation_pointcloud,
    ManiSkill2_ObsWrapper.to_origin_of.
  cbn [bind ret Monad_M Monad_outcome]. unfold mbind, lift. split.
  - intros extra -> Hi Hk. simpl. rewrite Hi. unfold item, getitem. simpl.
    rewrite Hk. reflexivity.
  - intros agent Hf Hi Hk.
    assert (He : existsb (String.eqb (ManiSkill2_ObsWrapper.obs_frame self))
                         ["base"; "world"] = true)
      by (destruct Hf as [-> | ->]; reflexivity).
    rewrite He, Hi. unfold item, getitem. simpl. rewrite Hk. reflexivity.
Qed.

Lemma observation_frame_pose_missing_witness :
  ManiSkill2_ObsWrapper.observation
    (Demo.cloud_wrapper "<Env>" 4 2 "ee")
    (VDict [("pointcloud", VDict []); ("extra", VDict [("goal_pos", VNone)])]) 3%nat
  = (Raise (KeyError "tcp_pose"), 3%nat)
  /\ ManiSkill2_ObsWrapper.observation
       (Demo.cloud_wrapper "<Env>" 4 2 "world")
       (VDict [("pointcloud", VDict []); ("agent", VDict [("qpos", VNone)])]) 3%nat
     = (Raise (KeyError "base_pose"), 3%nat).
Proof.
  split.
  - apply (proj1 (observation_frame_pose_missing nat Demo.libraries
                    (Demo.cloud_wrapper "<Env>" 4 2 "ee")
                    (VDict [("pointcloud", VDict []);
                            ("extra", VDict [("goal_pos", VNone)])])
                    3%nat eq_refl) [("goal_pos", VNone)]); reflexivity.
  - apply (proj2 (observation_frame_pose_missing nat Demo.libraries
                    (Demo.cloud_wrapper "<Env>" 4 2 "world")
                    (VDict [("pointcloud", VDict []);
                            ("agent", VDict [("qpos", VNone)])])
                    3%nat eq_refl) [("qpos", VNone)]);
      [right; reflexivity | reflexivity | reflexivity].
Defined.

(** X14: a cloud that carries both 'xyzw' and 'xyz' fails the assertion of
    the masking step: in pointcloud mode, once the change of frame is
    read, [observation] raises an assertion error and leaves the world as
    it was. *)
Theorem observation_xyzw_excludes_xyz :
  forall (World : Type) (L : Libraries World) (self : ManiSkill2_ObsWrapper.t World)
         (observation : value) (w : World) (to_origin : Pose) (pointcloud : dict)
         (xyzw xyz : value),
    obs_mode (ManiSkill2_ObsWrapper.env self) = "pointcloud" ->
    ManiSkill2_ObsWrapper.to_origin_of self observation = Return to_origin ->
    item observation "pointcloud" = Return (VDict pointcloud) ->
    dict_get "xyzw" pointcloud = Some xyzw ->
    xyzw <> VNone ->
    dict_get "xyz" pointcloud = Some xyz ->
    ManiSkill2_ObsWrapper.observation self observation w
    = (Raise (AssertionError ""), w).
Proof.
  intros World L self observation w to_origin pointcloud xyzw xyz
    Hmode Ho Hi Hw Hn Hx.
  rewrite (observation_pointcloud_mode _ _ Hmode).
  unfold ManiSkill2_ObsWrapper.observation_pointcloud.
  cbn [bind ret Monad_M Monad_outcome]. unfold mbind, lift.
  rewrite Ho, Hi. cbn [obind as_dict].
  unfold ManiSkill2_ObsWrapper.mask_pointcloud. rewrite Hw.
  assert (Hm : dict_mem "xyz" (dict_pop "xyzw" pointcloud) = true).
  { unfold dict_mem. rewrite dict_get_pop_other by discriminate.
    rewrite Hx. reflexivity. }
  destruct xyzw; try (exfalso; apply Hn; reflexivity);
    cbn [bind ret Monad_outcome]; rewrite Hm; reflexivity.
Qed.

Lemma observation_xyzw_excludes_xyz_witness :
  ManiSkill2_ObsWrapper.observation
    (Demo.cloud_wrapper "<Env>" 4 2 "base")
    (VDict [("pointcloud",
             VDict [("xyzw", VArr Float32 (A2 [[1; 0; 1; 1]]));
                    ("xyz", VArr Float32 (A2 [[1; 0; 1]]))]);
            ("agent", VDict [("base_pose", VArr Float32 (A1 [1; 0; 0; 1; 0; 0; 0]))])])
    5%nat
  = (Raise (AssertionError ""), 5%nat).
Proof.
  apply (observation_xyzw_excludes_xyz nat Demo.libraries
           (Demo.cloud_wrapper "<Env>" 4 2 "base") _ 5%nat
           ([-1; 0; 0], [1; 0; 0; 0])
           [("xyzw", VArr Float32 (A2 [[1; 0; 1; 1]]));
            ("xyz", VArr Float32 (A2 [[1; 0; 1]]))]
           (VArr Float32 (A2 [[1; 0; 1; 1]])) (VArr Float32 (A2 [[1; 0; 1]])));
    try reflexivity. discriminate.
Defined.

(** X15: in particles mode, an observation that is a dict without
    'particles' is returned as it is; one with 'particles' needs the
    velocities 'v' beside the positions 'x', although it does not use
    them (a key error for 'v' otherwise), and what is returned then holds
    exactly 'xyz', the positions, and 'state', the flattened [agent]. *)
Theorem observation_particles_mode :
  forall (World : Type) (L : Libraries World) (self : ManiSkill2_ObsWrapper.t World)
         (obs : dict) (w : World),
    obs_mode (ManiSkill2_ObsWrapper.env self) = "particles" ->
    (dict_get "particles" obs = None ->
     ManiSkill2_ObsWrapper.observation self (VDict obs) w = (Return (VDict obs), w))
    /\ (forall particles x,
          dict_get "particles" obs = Some (VDict particles) ->
          dict_get "x" particles = Some x ->
          dict_get "v" particles = None ->
          ManiSkill2_ObsWrapper.observation self (VDict obs) w
          = (Raise (KeyError "v"), w))
    /\ (forall v w',
          dict_mem "particles" obs = true ->
          ManiSkill2_ObsWrapper.observation self (VDict obs) w = (Return v, w') ->
          exists particles x vel agent state,
            dict_get "particles" obs = Some (VDict particles)
            /\ dict_get "x" particles = Some x
            /\ dict_get "v" particles = Some vel
            /\ dict_get "agent" obs = Some agent
            /\ flatten_state_dict agent = Return state
            /\ v = VDict [("xyz", x); ("state", state)]
            /\ w' = w).
Proof.
  intros World L self obs w Hmode.
  unfold ManiSkill2_ObsWrapper.observation. rewrite Hmode. simpl.
  unfold ManiSkill2_ObsWrapper.observation_particles, lift, dict_mem.
  split; [| split].
  - intros ->. reflexivity.
  - intros particles x Hp Hx Hv. rewrite Hp.
    cbn [bind ret Monad_outcome]. unfold getitem, item. rewrite Hp.
    cbn [obind as_dict bind Monad_outcome]. unfold getitem. rewrite Hx, Hv.
    reflexivity.
  - intros v w' Hp H.
    destruct (dict_get "particles" obs) as [p |] eqn:Ep; [| discriminate].
    cbn [bind ret Monad_outcome] in H. inversion H as [[Ho Hw]]. subst w'.
    unbind.
    repeat match goal with
      | H : getitem _ _ = Return _ |- _ => apply getitem_Return in H
      | H : item _ _ = Return _ |- _ => unfold item in H; cbn [bind Monad_outcome] in H
      | H : as_dict _ = Return _ |- _ => apply as_dict_Return in H
      end; unbind.
    repeat match goal with
      | H : getitem _ _ = Return _ |- _ => apply getitem_Return in H
      | H : as_dict _ = Return _ |- _ => apply as_dict_Return in H
      end.
    subst. rewrite Ep in *.
    repeat match goal with
      | H : Some _ = Some _ |- _ => injection H as ?; subst
      | H : VDict _ = VDict _ |- _ => injection H as ?; subst
      end.
    do 5 eexists. repeat split; try eassumption; reflexivity.
Qed.

Lemma observation_particles_mode_witness :
  ManiSkill2_ObsWrapper.observation
    (ManiSkill2_ObsWrapper.__init__
       (Demo.constant_env (Box [2%nat]) "particles" "<Env>" VNone 1 false VNone)
       None 1200 (-1) "base" false None)
    (VDict [("agent", VDict [("qpos", VArr Float32 (A1 [1]))])]) 2%nat
  = (Return (VDict [("agent", VDict [("qpos", VArr Float32 (A1 [1]))])]), 2%nat)
  /\ ManiSkill2_ObsWrapper.observation
       (ManiSkill2_ObsWrapper.__init__
          (Demo.constant_env (Box [2%nat]) "particles" "<Env>" VNone 1 false VNone)
          None 1200 (-1) "base" false None)
       (VDict [("particles", VDict [("x", VArr Float32 (A2 [[0; 0; 1]]))]);
               ("agent", VDict [("qpos", VArr Float32 (A1 [1]))])]) 2%nat
     = (Raise (KeyError "v"), 2%nat).
Proof.
  split.
  - apply (observation_particles_mode nat Demo.libraries
             (ManiSkill2_ObsWrapper.__init__
                (Demo.constant_env (Box [2%nat]) "particles" "<Env>" VNone 1 false VNone)
                None 1200 (-1) "base" false None)
             [("agent", VDict [("qpos", VArr Float32 (A1 [1]))])] 2%nat eq_refl).
    reflexivity.
  - apply (proj1 (proj2 (observation_particles_mode nat Demo.libraries
             (ManiSkill2_ObsWrapper.__init__
                (Demo.constant_env (Box [2%nat]) "particles" "<Env>" VNone 1 false VNone)
                None 1200 (-1) "base" false None)
             [("particles", VDict [("x", VArr Float32 (A2 [[0; 0; 1]]))]);
              ("agent", VDict [("qpos", VArr Float32 (A1 [1]))])] 2%nat eq_refl))
             [("x", VArr Float32 (A2 [[0; 0; 1]]))] (VArr Float32 (A2 [[0; 0; 1]])));
      reflexivity.
Defined.

(** X16: an observation mode that is none of 'state', 'rgbd',
    'pointcloud' and 'particles' is not an error: [observation] returns the
    observation it was given. *)
Theorem observation_other_mode_identity :
  forall (World : Type) (L : Libraries World) (self : ManiSkill2_ObsWrapper.t World)
         (observation : value) (w : World),
    obs_mode (ManiSkill2_ObsWrapper.env self) <> "state" ->
    obs_mode (ManiSkill2_ObsWrapper.env self) <> "rgbd" ->
    obs_mode (ManiSkill2_ObsWrapper.env self) <> "pointcloud" ->
    obs_mode (ManiSkill2_ObsWrapper.env self) <> "particles" ->
    ManiSkill2_ObsWrapper.observation self observation w = (Return observation, w).
Proof.
  intros World L self observation w Hs Hr Hp Hq.
  apply String.eqb_neq in Hs, Hr, Hp, Hq.
  unfold ManiSkill2_ObsWrapper.observation. rewrite Hs, Hr, Hp, Hq. reflexivity.
Qed.

Lemma observation_other_mode_identity_witness :
  ManiSkill2_ObsWrapper.observation
    (ManiSkill2_ObsWrapper.__init__
       (Demo.constant_env (Box [2%nat]) "state_dict" "<Env>" VNone 1 false VNone)
       None 1200 (-1) "camera" false None)
    Demo.image_obs 2%nat
  = (Return Demo.image_obs, 2%nat).
Proof.
  apply (observation_other_mode_identity nat Demo.libraries); discriminate.
Defined.

(** ** The pointcloud mode, the rest *)

Lemma keys_dict_set (k : string) (v : value) (d : dict) :
  keys (dict_set k v d) = if dict_mem k d then keys d else (keys d ++ [k])%list.
Proof.
  unfold keys, dict_mem. induction d as [| [k' v'] d IH]; simpl; [reflexivity |].
  destruct (String.eqb_spec k k') as [-> | Hk]; simpl; [reflexivity |].
  rewrite IH. destruct (dict_get k d); reflexivity.
Qed.

Lemma dict_mem_keys (k : string) (d : dict) :
  dict_mem k d = existsb (String.eqb k) (keys d).
Proof.
  unfold keys, dict_mem. induction d as [| [k' v'] d IH]; simpl; [reflexivity |].
  destruct (String.eqb k k'); simpl; [reflexivity | exact IH].
Qed.

Lemma mapM_dict_keys (f : value -> outcome value) (d d' : dict) :
  mapM (fun kv => v <- f (snd kv) ;; ret (fst kv, v)) d = Return d' ->
  keys d' = keys d.
Proof.
  unfold keys. revert d'. induction d as [| [k v] d IH]; simpl; intros d' H.
  - inversion H. reflexivity.
  - unbind. simpl. f_equal. apply IH. assumption.
Qed.

Section PointcloudKeys.
Context {World : Type} {L : Libraries World}.

Lemma read_extras_Return (extra : dict) (e : ManiSkill2_ObsWrapper.extras) :
  ManiSkill2_ObsWrapper.read_extras extra = Return e ->
  length (ManiSkill2_ObsWrapper.opt_list (ManiSkill2_ObsWrapper.tcp_pose e))
  = Nat.b2n (has_tcp_pose extra)
  /\ length (ManiSkill2_ObsWrapper.opt_list (ManiSkill2_ObsWrapper.goal_pos e))
     = Nat.b2n (has_goal extra)
  /\ length (ManiSkill2_ObsWrapper.opt_list (ManiSkill2_ObsWrapper.goal_pose e))
     = Nat.b2n (uses_goal_pose extra)
  /\ length (ManiSkill2_ObsWrapper.opt_list (ManiSkill2_ObsWrapper.tcp_to_goal_pos e))
     = Nat.b2n (has_tcp_pose extra && has_goal extra).
Proof.
  unfold ManiSkill2_ObsWrapper.read_extras, has_tcp_pose, has_goal, uses_goal_pose.
  cbn [bind ret Monad_outcome]. intros H.
  destruct (dict_mem "tcp_pose" extra), (dict_mem "goal_pos" extra),
    (dict_mem "goal_pose" extra); unbind; simpl; auto.
Qed.

Lemma stack_length {A : Type} (l : list (dtype * list A)) (r : dtype * list (list A)) :
  stack l = Return r -> length (snd r) = length l /\ snd r = map snd l.
Proof.
  unfold stack. destruct l as [| [d x] l]; [discriminate |].
  destruct (forallb _ _); [| discriminate].
  intros H. inversion H. simpl. rewrite length_map. auto.
Qed.

Lemma frame_related_states_rows (observation : value) (extra : dict)
    (e : ManiSkill2_ObsWrapper.extras) (to_origin : Pose) (frs : dtype * mat) :
  ManiSkill2_ObsWrapper.read_extras extra = Return e ->
  ManiSkill2_ObsWrapper.frame_related_states observation extra e to_origin
  = Return frs ->
  length (snd frs)
  = (1 + Nat.b2n (has_tcp_pose extra) + Nat.b2n (has_goal extra)
     + Nat.b2n (has_tcp_pose extra && has_goal extra)
     + Nat.b2n (dict_mem "gripper_pose" extra)
     + Nat.b2n (dict_mem "joint_axis" extra)
     + Nat.b2n (dict_mem "link_pos" extra))%nat.
Proof.
  intros He H. destruct (read_extras_Return _ _ He) as (Ht & Hg & _ & Htg).
  unfold ManiSkill2_ObsWrapper.frame_related_states in H.
  cbn [bind ret Monad_outcome] in H. unbind.
  apply stack_length in H as [H _]. unfold mat, vec in *. rewrite H. simpl.
  rewrite !length_app, !length_map, Ht, Hg, Htg.
  destruct (dict_mem "gripper_pose" extra), (dict_mem "joint_axis" extra),
    (dict_mem "link_pos" extra); unbind; simpl; lia.
Qed.

Lemma to_frames_count (observation : value) (extra : dict)
    (e : ManiSkill2_ObsWrapper.extras) (to_origin : Pose) (frames : dtype * tensor3) :
  ManiSkill2_ObsWrapper.read_extras extra = Return e ->
  ManiSkill2_ObsWrapper.to_frames observation e to_origin = Return frames ->
  length (snd frames)
  = (1 + Nat.b2n (has_tcp_pose extra) + Nat.b2n (uses_goal_pose extra))%nat.
Proof.
  intros He H. destruct (read_extras_Return _ _ He) as (Ht & _ & Hp & _).
  unfold ManiSkill2_ObsWrapper.to_frames in H.
  cbn [bind ret Monad_outcome] in H. unbind.
  apply stack_length in H as [H _]. unfold tensor3, mat, vec in *.
  rewrite H. simpl. rewrite !length_app, !length_map, Ht, Hp. lia.
Qed.

Lemma frame_goal_related_poses_count (extra : dict)
    (e : ManiSkill2_ObsWrapper.extras) (to_origin : Pose) :
  ManiSkill2_ObsWrapper.read_extras extra = Return e ->
  length (ManiSkill2_ObsWrapper.frame_goal_related_poses e to_origin)
  = (Nat.b2n (uses_goal_pose extra) * (1 + Nat.b2n (has_tcp_pose extra)))%nat.
Proof.
  intros He. destruct (read_extras_Return _ _ He) as (Ht & _ & Hp & _).
  unfold ManiSkill2_ObsWrapper.frame_goal_related_poses.
  destruct (ManiSkill2_ObsWrapper.goal_pose e); simpl in *; rewrite <- Hp; simpl.
  - rewrite length_map, Ht. lia.
  - reflexivity.
Qed.

End PointcloudKeys.

Section PointcloudParts.
Context {World : Type} {L : Libraries World}.

Lemma dict_pop_absent (k : string) (d : dict) :
  dict_get k d = None -> dict_pop k d = d.
Proof.
  induction d as [| [k' v'] d IH]; simpl; [reflexivity |].
  destruct (String.eqb k k'); [discriminate |].
  intros H. rewrite (IH H). reflexivity.
Qed.

Lemma keys_dict_pop_mem (k k' : string) (d : dict) :
  k <> k' -> dict_mem k (dict_pop k' d) = dict_mem k d.
Proof.
  intros Hk. unfold dict_mem. rewrite dict_get_pop_other by assumption.
  reflexivity.
Qed.

(** The masking step keeps the fields of the cloud, 'xyzw' apart, which
    gives way to 'xyz'. *)
Lemma mask_pointcloud_mem (pointcloud pc : dict) (k : string) :
  ManiSkill2_ObsWrapper.mask_pointcloud pointcloud = Return pc ->
  k <> "xyzw" -> k <> "xyz" ->
  dict_mem k pc = dict_mem k pointcloud.
Proof.
  intros H Hw Hx. unfold ManiSkill2_ObsWrapper.mask_pointcloud in H.
  assert (Hpop : dict_mem k (dict_pop "xyzw" pointcloud) = dict_mem k pointcloud)
    by (apply keys_dict_pop_mem; assumption).
  destruct (dict_get "xyzw" pointcloud) as [xyzw |] eqn:E.
  - destruct xyzw as [| | | | dt a | |];
      try (cbn [bind ret Monad_outcome] in H; unbind; discriminate);
      try (inversion H; subst; exact Hpop).
    cbn [bind ret Monad_outcome] in H. unbind.
    unfold dict_mem at 1. rewrite dict_get_set_other by assumption.
    match goal with
    | Hm : mapM _ _ = Return _ |- _ =>
        pose proof (mapM_dict_get _ _ _ k Hm) as Hk
    end.
    rewrite <- Hpop. unfold dict_mem.
    destruct (dict_get k (dict_pop "xyzw" pointcloud)).
    + destruct Hk as (v' & _ & ->). reflexivity.
    + rewrite Hk. reflexivity.
  - inversion H; subst. exact Hpop.
Qed.

Lemma keys_select_modes (pc : dict) :
  dict_mem "xyz" pc = true -> dict_mem "rgb" pc = true ->
  keys (ManiSkill2_ObsWrapper.select_modes pc)
  = (["xyz"; "rgb"] ++ (if dict_mem "robot_seg" pc then ["robot_seg"] else []))%list.
Proof.
  unfold ManiSkill2_ObsWrapper.select_modes, dict_mem, keys. simpl.
  destruct (dict_get "xyz" pc); [| discriminate].
  destruct (dict_get "rgb" pc); [| discriminate].
  destruct (dict_get "robot_seg" pc); reflexivity.
Qed.

Lemma getitem_mem (k : string) (d : dict) (v : value) :
  dict_get k d = Some v -> dict_mem k d = true.
Proof. unfold dict_mem. intros ->. reflexivity. Qed.

Lemma pcd_uniform_downsample_keys (ret_ ret' : dict) (eps : Q) (num : nat)
    (w w' : World) :
  ManiSkill2_ObsWrapper.pcd_uniform_downsample ret_ eps num w = (Return ret', w') ->
  keys ret' = keys ret_.
Proof.
  unfold ManiSkill2_ObsWrapper.pcd_uniform_downsample.
  cbn [bind ret Monad_M Monad_outcome]. intros H. unbind.
  destruct l as [| r0 l0]; [apply lift_Return in H; destruct H; discriminate |].
  unbind. eapply mapM_dict_keys. eassumption.
Qed.

Lemma add_goal_points_keys (self : ManiSkill2_ObsWrapper.t World)
    (to_origin : Pose) (goal_pos : option (dtype * vec)) (ret_ ret' : dict)
    (w w' : World) :
  ManiSkill2_ObsWrapper.add_goal_points self to_origin goal_pos ret_ w
  = (Return ret', w') ->
  keys ret' = keys ret_
  /\ ((0 < ManiSkill2_ObsWrapper.n_goal_points self)%Z -> goal_pos <> None).
Proof.
  unfold ManiSkill2_ObsWrapper.add_goal_points.
  destruct (Z.gtb_spec (ManiSkill2_ObsWrapper.n_goal_points self) 0) as [Hn | Hn].
  - intros H.
    destruct goal_pos as [[gdt g] |];
      [| apply lift_Return in H; destruct H; discriminate].
    split; [| discriminate].
    cbn [bind ret Monad_M Monad_outcome] in H. unbind.
    repeat match goal with
      | H : getitem _ _ = Return _ |- _ => apply getitem_Return in H
      end.
    rewrite !keys_dict_set.
    match goal with
    | H : dict_get "rgb" ?d = Some _ |- _ => rewrite (getitem_mem _ _ _ H)
    end.
    match goal with
    | H : dict_get "xyz" ?d = Some _ |- _ => rewrite (getitem_mem _ _ _ H)
    end.
    reflexivity.
  - intros H. inversion H. split; [reflexivity | lia].
Qed.

(** What a returning run of the pointcloud mode went through, with what
    it read of [extra]. *)
Lemma observation_pointcloud_parts (self : ManiSkill2_ObsWrapper.t World)
    (observation v : value) (w w' : World) :
  ManiSkill2_ObsWrapper.observation_pointcloud self observation w = (Return v, w') ->
  exists to_origin pointcloud pc extra e ret2 w2 ret3,
    ManiSkill2_ObsWrapper.to_origin_of self observation = Return to_origin
    /\ item observation "pointcloud" = Return (VDict pointcloud)
    /\ ManiSkill2_ObsWrapper.mask_pointcloud pointcloud = Return pc
    /\ item observation "extra" = Return (VDict extra)
    /\ ManiSkill2_ObsWrapper.read_extras extra = Return e
    /\ keys ret2
       = (["xyz"; "rgb"] ++ (if dict_mem "robot_seg" pc then ["robot_seg"] else []))%list
    /\ ManiSkill2_ObsWrapper.add_goal_points self to_origin
         (ManiSkill2_ObsWrapper.goal_pos e) ret2 w2 = (Return ret3, w')
    /\ ManiSkill2_ObsWrapper.add_states observation extra e to_origin ret3 = Return v.
Proof.
  unfold ManiSkill2_ObsWrapper.observation_pointcloud.
  cbn [bind ret Monad_M Monad_outcome]. intros H. unbind.
  repeat match goal with
    | H : getitem _ _ = Return _ |- _ => apply getitem_Return in H
    | H : as_dict _ = Return _ |- _ => apply as_dict_Return in H
    end.
  subst.
  match goal with
  | H : dict_get "rgb" (ManiSkill2_ObsWrapper.select_modes _) = _ |- _ =>
      rewrite select_modes_get in H by auto; pose proof (getitem_mem _ _ _ H) as Hrgb
  end.
  do 8 eexists. repeat split; try eassumption.
  match goal with
  | Hd : (if negb _ then _ else _) _ = (Return ?r2, _),
    Hx : dict_get "xyz" ?r2 = Some _,
    Hm : ManiSkill2_ObsWrapper.mask_pointcloud _ = Return ?pc,
    Hv : true_divide _ _ = Return ?rgb |- _ =>
      assert (Hkeys : keys r2
                      = keys (dict_set "rgb" rgb (ManiSkill2_ObsWrapper.select_modes pc)));
      [ destruct (negb (ManiSkill2_ObsWrapper.preprocessed self));
        [ eapply pcd_uniform_downsample_keys; eassumption
        | inversion Hd; reflexivity ]
      | pose proof (getitem_mem _ _ _ Hx) as Hmx;
        assert (Hxyz : dict_mem "xyz" pc = true);
        [ rewrite dict_mem_keys, Hkeys, <- dict_mem_keys in Hmx;
          unfold dict_mem in Hmx;
          rewrite dict_get_set_other in Hmx by discriminate;
          rewrite select_modes_get in Hmx by auto; exact Hmx
        | rewrite keys_dict_set, Hmx, Hkeys, keys_dict_set;
          unfold dict_mem at 1; rewrite select_modes_get by auto;
          fold (dict_mem "rgb" pc); rewrite Hrgb;
          apply keys_select_modes; assumption ] ]
  end.
Qed.

End PointcloudParts.

Section PointcloudFields.
Context {World : Type} {L : Libraries World}.

Lemma dict_mem_set_other (k k' : string) (v : value) (d : dict) :
  k <> k' -> dict_mem k (dict_set k' v d) = dict_mem k d.
Proof.
  intros Hk. unfold dict_mem. rewrite dict_get_set_other by assumption.
  reflexivity.
Qed.

Lemma poses_present (extra : dict) (e : ManiSkill2_ObsWrapper.extras)
    (to_origin : Pose) :
  ManiSkill2_ObsWrapper.read_extras extra = Return e ->
  Nat.ltb 0 (length (ManiSkill2_ObsWrapper.frame_goal_related_poses e to_origin))
  = uses_goal_pose extra.
Proof.
  intros He. rewrite (frame_goal_related_poses_count _ _ _ He).
  destruct (uses_goal_pose extra), (has_tcp_pose extra); reflexivity.
Qed.

(** The fields that the pointcloud mode adds to the cloud. *)
Lemma add_states_parts (observation : value) (extra : dict)
    (e : ManiSkill2_ObsWrapper.extras) (to_origin : Pose) (ret_ : dict) (v : value) :
  ManiSkill2_ObsWrapper.read_extras extra = Return e ->
  dict_mem "frame_related_states" ret_ = false ->
  dict_mem "frame_goal_related_poses" ret_ = false ->
  dict_mem "to_frames" ret_ = false ->
  dict_mem "state" ret_ = false ->
  ManiSkill2_ObsWrapper.add_states observation extra e to_origin ret_ = Return v ->
  exists frs frames state ret',
    v = VDict ret'
    /\ ManiSkill2_ObsWrapper.frame_related_states observation extra e to_origin
       = Return frs
    /\ ManiSkill2_ObsWrapper.to_frames observation e to_origin = Return frames
    /\ ManiSkill2_ObsWrapper.agent_state observation extra frs
         (ManiSkill2_ObsWrapper.frame_goal_related_poses e to_origin) = Return state
    /\ keys ret'
       = (keys ret_ ++ ["frame_related_states"]
          ++ (if uses_goal_pose extra then ["frame_goal_related_poses"] else [])
          ++ ["to_frames"; "state"])%list
    /\ dict_get "frame_related_states" ret' = Some (VArr (fst frs) (A2 (snd frs)))
    /\ dict_get "to_frames" ret' = Some (VArr (fst frames) (A3 (snd frames)))
    /\ dict_get "state" ret' = Some (VArr (fst state) (A1 (snd state)))
    /\ (uses_goal_pose extra = true ->
        exists poses,
          stack (ManiSkill2_ObsWrapper.frame_goal_related_poses e to_origin)
          = Return poses
          /\ dict_get "frame_goal_related_poses" ret'
             = Some (VArr (fst poses) (A2 (snd poses)))).
Proof.
  intros He Hf Hg Ht Hs H.
  unfold ManiSkill2_ObsWrapper.add_states in H.
  cbn [bind ret Monad_outcome] in H. rewrite (poses_present _ _ _ He) in H.
  unbind.
  match goal with
  | H1 : ManiSkill2_ObsWrapper.frame_related_states _ _ _ _ = Return ?frs,
    H2 : ManiSkill2_ObsWrapper.to_frames _ _ _ = Return ?frames,
    H3 : ManiSkill2_ObsWrapper.agent_state _ _ _ _ = Return ?state |- _ =>
      exists frs, frames, state
  end.
  eexists. split; [reflexivity |]. do 3 (split; [assumption |]).
  assert (Hnew : forall k v d, dict_mem k d = false ->
                   keys (dict_set k v d) = (keys d ++ [k])%list).
  { intros k v d Hk. rewrite keys_dict_set, Hk. reflexivity. }
  destruct (uses_goal_pose extra) eqn:Eu; unbind.
  - split.
    + repeat (rewrite Hnew
               by (rewrite ?dict_mem_set_other by discriminate; assumption)).
      rewrite <- !app_assoc. reflexivity.
    + repeat split.
      * rewrite !dict_get_set_other by discriminate. apply dict_get_set_same.
      * rewrite !dict_get_set_other by discriminate. apply dict_get_set_same.
      * apply dict_get_set_same.
      * intros _. eexists. split; [eassumption |].
        rewrite !dict_get_set_other by discriminate. apply dict_get_set_same.
  - split.
    + repeat (rewrite Hnew
               by (rewrite ?dict_mem_set_other by discriminate; assumption)).
      rewrite <- !app_assoc. reflexivity.
    + repeat split.
      * rewrite !dict_get_set_other by discriminate. apply dict_get_set_same.
      * rewrite !dict_get_set_other by discriminate. apply dict_get_set_same.
      * apply dict_get_set_same.
      * discriminate.
Qed.

End PointcloudFields.

(** The observation a returning run of the pointcloud mode hands out:
    its keys and the fields added to the cloud. *)
Lemma observation_pointcloud_fields {World : Type} {L : Libraries World}
    (self : ManiSkill2_ObsWrapper.t World) (observation v : value) (w w' : World) :
  ManiSkill2_ObsWrapper.observation_pointcloud self observation w = (Return v, w') ->
  exists to_origin pointcloud extra e frs frames state ret_,
    ManiSkill2_ObsWrapper.to_origin_of self observation = Return to_origin
    /\ item observation "pointcloud" = Return (VDict pointcloud)
    /\ item observation "extra" = Return (VDict extra)
    /\ ManiSkill2_ObsWrapper.read_extras extra = Return e
    /\ ((0 < ManiSkill2_ObsWrapper.n_goal_points self)%Z ->
        ManiSkill2_ObsWrapper.goal_pos e <> None)
    /\ v = VDict ret_
    /\ keys ret_ = pointcloud_keys pointcloud extra
    /\ ManiSkill2_ObsWrapper.frame_related_states observation extra e to_origin
       = Return frs
    /\ ManiSkill2_ObsWrapper.to_frames observation e to_origin = Return frames
    /\ ManiSkill2_ObsWrapper.agent_state observation extra frs
         (ManiSkill2_ObsWrapper.frame_goal_related_poses e to_origin) = Return state
    /\ dict_get "frame_related_states" ret_ = Some (VArr (fst frs) (A2 (snd frs)))
    /\ dict_get "to_frames" ret_ = Some (VArr (fst frames) (A3 (snd frames)))
    /\ dict_get "state" ret_ = Some (VArr (fst state) (A1 (snd state)))
    /\ (uses_goal_pose extra = true ->
        exists poses,
          stack (ManiSkill2_ObsWrapper.frame_goal_related_poses e to_origin)
          = Return poses
          /\ dict_get "frame_goal_related_poses" ret_
             = Some (VArr (fst poses) (A2 (snd poses)))).
Proof.
  intros H.
  destruct (observation_pointcloud_parts _ _ _ _ _ H)
    as (to_origin & pointcloud & pc & extra & e & ret2 & w2 & ret3
        & Ho & Hp & Hm & Hx & He & Hk & Hg & Hs).
  destruct (add_goal_points_keys _ _ _ _ _ _ _ Hg) as [Hk3 Hgoal].
  rewrite Hk in Hk3.
  rewrite (mask_pointcloud_mem _ _ "robot_seg" Hm) in Hk3 by discriminate.
  assert (Hnew : forall k, In k ["frame_related_states"; "frame_goal_related_poses";
                                 "to_frames"; "state"] ->
                           dict_mem k ret3 = false).
  { intros k Hin. rewrite dict_mem_keys, Hk3.
    destruct (dict_mem "robot_seg" pointcloud);
      simpl in Hin; destruct Hin as [<- | [<- | [<- | [<- | []]]]]; reflexivity. }
  assert (N1 : dict_mem "frame_related_states" ret3 = false)
    by (apply Hnew; simpl; auto).
  assert (N2 : dict_mem "frame_goal_related_poses" ret3 = false)
    by (apply Hnew; simpl; auto).
  assert (N3 : dict_mem "to_frames" ret3 = false) by (apply Hnew; simpl; auto).
  assert (N4 : dict_mem "state" ret3 = false) by (apply Hnew; simpl; auto).
  destruct (add_states_parts _ _ _ _ _ _ He N1 N2 N3 N4 Hs)
    as (frs & frames & state & ret_ & -> & Hf & Ht & Ha & Hkeys & Gf & Gt & Gs & Gp).
  exists to_origin, pointcloud, extra, e, frs, frames, state, ret_.
  repeat split; try assumption.
  rewrite Hkeys, Hk3. unfold pointcloud_keys. rewrite <- !app_assoc. reflexivity.
Qed.

(** X17: in pointcloud mode the observation returned holds 'xyz' and
    'rgb', then 'robot_seg' if the cloud has it, then
    'frame_related_states', then 'frame_goal_related_poses' if [extra]
    gives a goal pose and no goal position, then 'to_frames' and 'state',
    and nothing else. *)
Theorem pointcloud_observation_keys :
  forall (World : Type) (L : Libraries World) (self : ManiSkill2_ObsWrapper.t World)
         (observation v : value) (w w' : World),
    obs_mode (ManiSkill2_ObsWrapper.env self) = "pointcloud" ->
    ManiSkill2_ObsWrapper.observation self observation w = (Return v, w') ->
    exists pointcloud extra ret_,
      item observation "pointcloud" = Return (VDict pointcloud)
      /\ item observation "extra" = Return (VDict extra)
      /\ v = VDict ret_
      /\ keys ret_ = pointcloud_keys pointcloud extra.
Proof.
  intros World L self observation v w w' Hmode H.
  rewrite (observation_pointcloud_mode _ _ Hmode) in H.
  destruct (observation_pointcloud_fields _ _ _ _ _ H)
    as (to_origin & pointcloud & extra & e & frs & frames & state & ret_
        & _ & Hp & Hx & _ & _ & Hv & Hk & _).
  exists pointcloud, extra, ret_. auto.
Qed.

Lemma pointcloud_observation_keys_witness :
  exists v w',
    ManiSkill2_ObsWrapper.observation
      (Demo.cloud_wrapper "<Env>" 4 2 "base") Demo.cloud_obs 0%nat = (Return v, w')
    /\ exists pointcloud extra ret_,
        item Demo.cloud_obs "pointcloud" = Return (VDict pointcloud)
        /\ item Demo.cloud_obs "extra" = Return (VDict extra)
        /\ v = VDict ret_
        /\ keys ret_ = pointcloud_keys pointcloud extra.
Proof.
  eexists. eexists. split; [vm_compute; reflexivity |].
  exact (pointcloud_observation_keys nat Demo.libraries
           (Demo.cloud_wrapper "<Env>" 4 2 "base") Demo.cloud_obs _ 0%nat _
           eq_refl eq_refl).
Defined.

(** X18: in pointcloud mode, 'to_frames' stacks one transform for the
    base, one more if [extra] has 'tcp_pose' and one more if it gives a
    goal pose and no goal position; 'frame_related_states' stacks one
    position for the base and one more for each of: 'tcp_pose', a goal,
    both of them (the offset from the one to the other), 'gripper_pose',
    'joint_axis' and 'link_pos'; 'frame_goal_related_poses', when there, has
    one pose, or two with 'tcp_pose'. *)
Theorem pointcloud_frame_counts :
  forall (World : Type) (L : Libraries World) (self : ManiSkill2_ObsWrapper.t World)
         (observation v : value) (w w' : World),
    obs_mode (ManiSkill2_ObsWrapper.env self) = "pointcloud" ->
    ManiSkill2_ObsWrapper.observation self observation w = (Return v, w') ->
    exists extra ret_ dt1 states dt2 frames,
      item observation "extra" = Return (VDict extra)
      /\ v = VDict ret_
      /\ dict_get "frame_related_states" ret_ = Some (VArr dt1 (A2 states))
      /\ length states
         = (1 + Nat.b2n (has_tcp_pose extra) + Nat.b2n (has_goal extra)
            + Nat.b2n (has_tcp_pose extra && has_goal extra)
            + Nat.b2n (dict_mem "gripper_pose" extra)
            + Nat.b2n (dict_mem "joint_axis" extra)
            + Nat.b2n (dict_mem "link_pos" extra))%nat
      /\ dict_get "to_frames" ret_ = Some (VArr dt2 (A3 frames))
      /\ length frames
         = (1 + Nat.b2n (has_tcp_pose extra) + Nat.b2n (uses_goal_pose extra))%nat
      /\ (uses_goal_pose extra = true ->
          exists dt3 poses,
            dict_get "frame_goal_related_poses" ret_ = Some (VArr dt3 (A2 poses))
            /\ length poses = (1 + Nat.b2n (has_tcp_pose extra))%nat)
      /\ (uses_goal_pose extra = false ->
          dict_get "frame_goal_related_poses" ret_ = None).
Proof.
  intros World L self observation v w w' Hmode H.
  rewrite (observation_pointcloud_mode _ _ Hmode) in H.
  destruct (observation_pointcloud_fields _ _ _ _ _ H)
    as (to_origin & pointcloud & extra & e & frs & frames & state & ret_
        & _ & Hp & Hx & He & _ & Hv & Hk & Hf & Ht & _ & Gf & Gt & _ & Gp).
  exists extra, ret_, (fst frs), (snd frs), (fst frames), (snd frames).
  repeat split; try assumption.
  - exact (frame_related_states_rows _ _ _ _ _ He Hf).
  - exact (to_frames_count _ _ _ _ _ He Ht).
  - intros Hu. destruct (Gp Hu) as (poses & Hs & Hg).
    exists (fst poses), (snd poses). split; [exact Hg |].
    apply stack_length in Hs as [Hs _]. unfold mat, vec in *. rewrite Hs.
    rewrite (frame_goal_related_poses_count _ _ _ He), Hu. simpl. lia.
  - intros Hu.
    assert (Hm : dict_mem "frame_goal_related_poses" ret_ = false).
    { rewrite dict_mem_keys, Hk. unfold pointcloud_keys. rewrite Hu.
      destruct (dict_mem "robot_seg" pointcloud); reflexivity. }
    unfold dict_mem in Hm.
    destruct (dict_get "frame_goal_related_poses" ret_); [discriminate | reflexivity].
Qed.

Lemma pointcloud_frame_counts_witness :
  exists v w',
    ManiSkill2_ObsWrapper.observation
      (Demo.cloud_wrapper "<Env>" 4 2 "base") Demo.cloud_obs 0%nat = (Return v, w')
    /\ exists extra ret_ dt1 states dt2 frames,
        item Demo.cloud_obs "extra" = Return (VDict extra)
        /\ v = VDict ret_
        /\ dict_get "frame_related_states" ret_ = Some (VArr dt1 (A2 states))
        /\ length states
           = (1 + Nat.b2n (has_tcp_pose extra) + Nat.b2n (has_goal extra)
              + Nat.b2n (has_tcp_pose extra && has_goal extra)
              + Nat.b2n (dict_mem "gripper_pose" extra)
              + Nat.b2n (dict_mem "joint_axis" extra)
              + Nat.b2n (dict_mem "link_pos" extra))%nat
        /\ dict_get "to_frames" ret_ = Some (VArr dt2 (A3 frames))
        /\ length frames
           = (1 + Nat.b2n (has_tcp_pose extra) + Nat.b2n (uses_goal_pose extra))%nat
        /\ (uses_goal_pose extra = true ->
            exists dt3 poses,
              dict_get "frame_goal_related_poses" ret_ = Some (VArr dt3 (A2 poses))
              /\ length poses = (1 + Nat.b2n (has_tcp_pose extra))%nat)
        /\ (uses_goal_pose extra = false ->
            dict_get "frame_goal_related_poses" ret_ = None).
Proof.
  eexists. eexists. split; [vm_compute; reflexivity |].
  exact (pointcloud_frame_counts nat Demo.libraries
           (Demo.cloud_wrapper "<Env>" 4 2 "base") Demo.cloud_obs _ 0%nat _
           eq_refl eq_refl).
Defined.

(** X19: in pointcloud mode goal points cannot be injected without a
    goal: when [observation] returns with [n_goal_points] above 0, [extra]
    has 'goal_pos' or 'goal_pose'. *)
Theorem pointcloud_goal_points_need_goal :
  forall (World : Type) (L : Libraries World) (self : ManiSkill2_ObsWrapper.t World)
         (observation v : value) (w w' : World),
    obs_mode (ManiSkill2_ObsWrapper.env self) = "pointcloud" ->
    (0 < ManiSkill2_ObsWrapper.n_goal_points self)%Z ->
    ManiSkill2_ObsWrapper.observation self observation w = (Return v, w') ->
    exists extra,
      item observation "extra" = Return (VDict extra)
      /\ (dict_mem "goal_pos" extra = true \/ dict_mem "goal_pose" extra = true).
Proof.
  intros World L self observation v w w' Hmode Hn H.
  rewrite (observation_pointcloud_mode _ _ Hmode) in H.
  destruct (observation_pointcloud_fields _ _ _ _ _ H)
    as (to_origin & pointcloud & extra & e & frs & frames & state & ret_
        & _ & _ & Hx & He & Hg & _).
  exists extra. split; [exact Hx |].
  destruct (read_extras_Return _ _ He) as (_ & Hl & _).
  specialize (Hg Hn). unfold has_goal in Hl.
  destruct (dict_mem "goal_pos" extra); [left; reflexivity |].
  destruct (dict_mem "goal_pose" extra); [right; reflexivity |].
  destruct (ManiSkill2_ObsWrapper.goal_pos e); [discriminate Hl | contradiction].
Qed.

Lemma pointcloud_goal_points_need_goal_witness :
  exists v w',
    ManiSkill2_ObsWrapper.observation
      (Demo.cloud_wrapper "<Env>" 4 2 "base") Demo.cloud_obs 0%nat = (Return v, w')
    /\ exists extra,
        item Demo.cloud_obs "extra" = Return (VDict extra)
        /\ (dict_mem "goal_pos" extra = true \/ dict_mem "goal_pose" extra = true).
Proof.
  eexists. eexists. split; [vm_compute; reflexivity |].
  exact (pointcloud_goal_points_need_goal nat Demo.libraries
           (Demo.cloud_wrapper "<Env>" 4 2 "base") Demo.cloud_obs _ 0%nat _
           eq_refl eq_refl eq_refl).
Defined.

(** ** The colours of the pointcloud mode *)

Section PointcloudColours.
Context {World : Type} {L : Libraries World}.








End PointcloudColours.



(** ** The rgbd mode *)

Section Rgbd.
Context {World : Type} {L : Libraries World}.

Lemma observation_rgbd_mode (self : ManiSkill2_ObsWrapper.t World)
    (observation : value) :
  obs_mode (ManiSkill2_ObsWrapper.env self) = "rgbd" ->
  ManiSkill2_ObsWrapper.observation self observation
  = lift (ManiSkill2_ObsWrapper.observation_rgbd self observation).
Proof.
  intros Hmode. unfold ManiSkill2_ObsWrapper.observation. rewrite Hmode.
  reflexivity.
Qed.

Lemma transpose_Return (a : dtype * array) (v : value) :
  ManiSkill2_ObsWrapper.transpose a = Return v ->
  exists t, snd a = A3 t /\ v = VArr (fst a) (A3 (transpose201 t)).
Proof.
  unfold ManiSkill2_ObsWrapper.transpose.
  destruct (snd a) as [x | x | m | t]; try discriminate.
  intros H. inversion H. eauto.
Qed.

Lemma dtype_eqb_eq (a b : dtype) : dtype_eqb a b = true -> a = b.
Proof. destruct a, b; simpl; congruence. Qed.

Lemma promote_uint8 (a b : dtype) :
  promote a b = UInt8 -> (a = UInt8 \/ a = Bool_) /\ (b = UInt8 \/ b = Bool_).
Proof. destruct a, b; simpl; intros H; try discriminate; auto. Qed.

Lemma fold_promote_uint8 (l : list dtype) (a : dtype) :
  fold_left promote l a = UInt8 ->
  (a = UInt8 \/ a = Bool_) /\ Forall (fun b => b = UInt8 \/ b = Bool_) l.
Proof.
  revert a. induction l as [| b l IH]; simpl; intros a H.
  - auto.
  - destruct (IH _ H) as [Hab Hl]. split.
    + destruct a, b; simpl in Hab; destruct Hab; try discriminate; auto.
    + constructor; [| assumption].
      destruct a, b; simpl in Hab; destruct Hab; try discriminate; auto.
Qed.

(** The dtype of a concatenation along the channels is the promotion of
    the dtypes of its parts. *)
Lemma concatenate_fold_dtype (l : list (dtype * tensor3))
    (c : outcome (dtype * tensor3)) (r : dtype * tensor3) :
  fold_left (fun acc x =>
               '(dt, t) <- acc ;;
               t' <- ManiSkill2_ObsWrapper.zip_with_strict
                       (ManiSkill2_ObsWrapper.zip_with_strict
                          (fun px py => Return (px ++ py)%list))
                       t (snd x) ;;
               ret (promote dt (fst x), t'))
            l c = Return r ->
  exists a, c = Return a /\ fst r = fold_left promote (map fst l) (fst a).
Proof.
  revert c. induction l as [| x l IH]; simpl; intros c H.
  - exists r. auto.
  - destruct (IH _ H) as (a' & Ha' & Hr).
    cbn [bind ret Monad_outcome] in Ha'. unbind.
    eexists. split; [reflexivity |]. rewrite Hr. reflexivity.
Qed.

Lemma concatenate_axis2_uint8 (l : list value) (r : dtype * tensor3) :
  ManiSkill2_ObsWrapper.concatenate_axis2 l = Return r ->
  fst r = UInt8 ->
  l <> []
  /\ Forall (fun v => exists dt t, v = VArr dt (A3 t) /\ (dt = UInt8 \/ dt = Bool_)) l.
Proof.
  unfold ManiSkill2_ObsWrapper.concatenate_axis2.
  cbn [bind ret Monad_outcome]. intros H Hu. unbind.
  match goal with
  | Hm : mapM as_tensor3 l = Return ?l' |- _ =>
      apply mapM_Forall2 in Hm; destruct l' as [| first l'']; [discriminate |];
      destruct (concatenate_fold_dtype _ _ _ H) as (a & Ha & Hr);
      injection Ha as <-; rewrite Hu in Hr; symmetry in Hr;
      apply fold_promote_uint8 in Hr;
      assert (Hall : Forall (fun y : dtype * tensor3 => fst y = UInt8 \/ fst y = Bool_)
                       (first :: l''))
        by (destruct Hr as [Hf Hl]; constructor;
            [assumption | apply Forall_map in Hl; assumption]);
      clear Hr H; split; [inversion Hm; discriminate |];
      revert Hall; induction Hm as [| v y l0 l1 Hv _ IH]; intros Hall;
      constructor; inversion Hall; subst; auto
  end.
  destruct v as [| | | | dt [x | x | m | t] | |]; try discriminate.
  inversion Hv; subst. eauto.
Qed.

(** What a returning run of the rgbd mode did. *)
Lemma observation_rgbd_Return (self : ManiSkill2_ObsWrapper.t World)
    (observation v : value) :
  ManiSkill2_ObsWrapper.observation_rgbd self observation = Return v ->
  exists obs imgs extra obs' s rgb depth,
    observation = VDict obs
    /\ dict_get "image" obs = Some (VDict imgs)
    /\ imgs <> []
    /\ Forall (fun cam => exists dt t,
                 item (snd cam) "rgb" = Return (VArr dt (A3 t))
                 /\ (dt = UInt8 \/ dt = Bool_)) imgs
    /\ dict_get "extra" (dict_pop "image" obs) = Some (VDict extra)
    /\ (if dict_mem "tcp_pose" extra && dict_mem "goal_pos" extra
        then g <- (v <- getitem "goal_pos" extra ;; as_vec v) ;;
             t <- (v <- getitem "tcp_pose" extra ;; ManiSkill2_ObsWrapper.head3 v) ;;
             d <- vzip Qminus (snd g) (snd t) ;;
             ret (dict_set "extra"
                    (VDict (dict_set "tcp_to_goal_pos"
                              (VArr (promote (fst g) (fst t)) (A1 d)) extra))
                    (dict_pop "image" obs))
        else ret (dict_pop "image" obs)) = Return obs'
    /\ flatten_state_dict (VDict obs') = Return s
    /\ v = VDict [("rgb", VArr UInt8 (A3 rgb)); ("depth", VArr Float16 (A3 depth));
                  ("state", s)].
Proof.
  unfold ManiSkill2_ObsWrapper.observation_rgbd.
  cbn [bind ret Monad_outcome]. intros H. unbind.
  repeat match goal with
    | H : ManiSkill2_ObsWrapper.transpose _ = Return _ |- _ =>
        apply transpose_Return in H; destruct H as (? & ? & ?)
    | H : assert _ _ = Return _ |- _ => apply assert_Return, dtype_eqb_eq in H
    | H : getitem _ _ = Return _ |- _ => apply getitem_Return in H
    | H : as_dict _ = Return _ |- _ => apply as_dict_Return in H
    end.
  subst. simpl in *.
  match goal with
  | Hc : ManiSkill2_ObsWrapper.concatenate_axis2 (map fst ?cams) = Return ?rgb,
    Hu : fst ?rgb = UInt8,
    Hm : mapM _ ?imgs = Return ?cams |- _ =>
      destruct (concatenate_axis2_uint8 _ _ Hc Hu) as [Hne Hall];
      apply mapM_Forall2 in Hm;
      assert (Himgs : imgs <> []
                      /\ Forall (fun cam => exists dt t,
                                   item (snd cam) "rgb" = Return (VArr dt (A3 t))
                                   /\ (dt = UInt8 \/ dt = Bool_)) imgs)
  end.
  { split.
    - match goal with Hm : Forall2 _ _ _ |- _ => inversion Hm; subst end;
        [exfalso; apply Hne; reflexivity | discriminate].
    - match goal with Hm : Forall2 _ _ _ |- _ =>
        clear - Hm Hall; induction Hm as [| cam c l0 l1 Hc _ IH];
        constructor; inversion Hall; subst; auto
      end.
      cbn [bind ret Monad_outcome] in Hc. unbind. simpl in *.
      match goal with
      | Hx : exists dt t, _ = VArr dt (A3 t) /\ _ |- _ =>
          destruct Hx as (dt & t & -> & Hdt)
      end.
      eauto. }
  destruct Himgs as [Hne' Hall'].
  match goal with
  | Hsz : match ManiSkill2_ObsWrapper.img_size self with _ => _ end = Return (?p, _)
    |- _ =>
      assert (Hp : fst p = UInt8)
        by (destruct (ManiSkill2_ObsWrapper.img_size self) as [sz |];
            [destruct (negb _) |]; unbind; simpl; congruence)
  end.
  do 7 eexists.
  repeat match goal with |- _ /\ _ => split end;
    try reflexivity; try eassumption.
  rewrite Hp. reflexivity.
Qed.

End Rgbd.

(** X21: in rgbd mode the observation returned has exactly the fields
    'rgb', 'depth' and 'state', in this order; 'rgb' is a uint8 image and
    'depth' a float16 image, whatever the dtypes the cameras gave and
    whether or not the images were resized. *)
Theorem rgbd_observation_layout :
  forall (World : Type) (L : Libraries World) (self : ManiSkill2_ObsWrapper.t World)
         (observation v : value) (w w' : World),
    obs_mode (ManiSkill2_ObsWrapper.env self) = "rgbd" ->
    ManiSkill2_ObsWrapper.observation self observation w = (Return v, w') ->
    exists rgb depth s,
      v = VDict [("rgb", VArr UInt8 (A3 rgb)); ("depth", VArr Float16 (A3 depth));
                 ("state", s)].
Proof.
  intros World L self observation v w w' Hmode H.
  rewrite (observation_rgbd_mode _ _ Hmode) in H.
  apply lift_Return in H as [H _].
  destruct (observation_rgbd_Return _ _ _ H)
    as (obs & imgs & extra & obs' & s & rgb & depth & _ & _ & _ & _ & _ & _ & _ & ->).
  eauto.
Qed.

Lemma rgbd_observation_layout_witness :
  exists v w',
    ManiSkill2_ObsWrapper.observation Demo.rgbd_wrapper Demo.image_obs 0%nat
    = (Return v, w')
    /\ exists rgb depth s,
        v = VDict [("rgb", VArr UInt8 (A3 rgb)); ("depth", VArr Float16 (A3 depth));
                   ("state", s)].
Proof.
  eexists. eexists. split; [vm_compute; reflexivity |].
  exact (rgbd_observation_layout nat Demo.libraries Demo.rgbd_wrapper
           Demo.image_obs _ 0%nat _ eq_refl eq_refl).
Defined.

(** X22: in rgbd mode [observation] returns only if there is at least
    one camera under 'image' and the colours of every camera are a
    three-axis array of dtype uint8 or bool: colours given as floats fail the
    assertion on the dtype. *)
Theorem rgbd_needs_byte_colours :
  forall (World : Type) (L : Libraries World) (self : ManiSkill2_ObsWrapper.t World)
         (observation v : value) (w w' : World),
    obs_mode (ManiSkill2_ObsWrapper.env self) = "rgbd" ->
    ManiSkill2_ObsWrapper.observation self observation w = (Return v, w') ->
    exists imgs,
      item observation "image" = Return (VDict imgs)
      /\ imgs <> []
      /\ Forall byte_image imgs.
Proof.
  intros World L self observation v w w' Hmode H.
  rewrite (observation_rgbd_mode _ _ Hmode) in H.
  apply lift_Return in H as [H _].
  destruct (observation_rgbd_Return _ _ _ H)
    as (obs & imgs & extra & obs' & s & rgb & depth & -> & Hi & Hne & Hall & _).
  exists imgs. unfold item, getitem. simpl. rewrite Hi. auto.
Qed.

Lemma rgbd_needs_byte_colours_witness :
  exists v w',
    ManiSkill2_ObsWrapper.observation Demo.rgbd_wrapper Demo.image_obs 0%nat
    = (Return v, w')
    /\ exists imgs,
        item Demo.image_obs "image" = Return (VDict imgs)
        /\ imgs <> []
        /\ Forall byte_image imgs.
Proof.
  eexists. eexists. split; [vm_compute; reflexivity |].
  exact (rgbd_needs_byte_colours nat Demo.libraries Demo.rgbd_wrapper
           Demo.image_obs _ 0%nat _ eq_refl eq_refl).
Defined.

(** X23: in rgbd mode the 'state' vector does not depend on the images
    nor on [img_size]: two observations that are the same once 'image' is
    taken out give the same 'state', also through two wrappers. *)
Theorem rgbd_state_ignores_images :
  forall (World : Type) (L : Libraries World)
         (self1 self2 : ManiSkill2_ObsWrapper.t World)
         (obs1 obs2 : dict) (v1 v2 : value) (w1 w1' w2 w2' : World),
    obs_mode (ManiSkill2_ObsWrapper.env self1) = "rgbd" ->
    obs_mode (ManiSkill2_ObsWrapper.env self2) = "rgbd" ->
    dict_pop "image" obs1 = dict_pop "image" obs2 ->
    ManiSkill2_ObsWrapper.observation self1 (VDict obs1) w1 = (Return v1, w1') ->
    ManiSkill2_ObsWrapper.observation self2 (VDict obs2) w2 = (Return v2, w2') ->
    exists s, item v1 "state" = Return s /\ item v2 "state" = Return s.
Proof.
  intros World L self1 self2 obs1 obs2 v1 v2 w1 w1' w2 w2' Hm1 Hm2 Heq H1 H2.
  rewrite (observation_rgbd_mode _ _ Hm1) in H1.
  rewrite (observation_rgbd_mode _ _ Hm2) in H2.
  apply lift_Return in H1 as [H1 _]. apply lift_Return in H2 as [H2 _].
  destruct (observation_rgbd_Return _ _ _ H1)
    as (o1 & imgs1 & extra1 & obs1' & s1 & rgb1 & depth1
        & E1 & _ & _ & _ & Hx1 & Ho1 & Hs1 & ->).
  destruct (observation_rgbd_Return _ _ _ H2)
    as (o2 & imgs2 & extra2 & obs2' & s2 & rgb2 & depth2
        & E2 & _ & _ & _ & Hx2 & Ho2 & Hs2 & ->).
  injection E1 as <-. injection E2 as <-.
  rewrite Heq in Hx1, Ho1. rewrite Hx1 in Hx2. injection Hx2 as <-.
  rewrite Ho1 in Ho2. injection Ho2 as <-.
  rewrite Hs1 in Hs2. injection Hs2 as <-.
  exists s1. split; reflexivity.
Qed.

Lemma rgbd_state_ignores_images_witness :
  exists v1 v2 w1' w2',
    Demo.image_obs <> blue_image_obs
    /\ ManiSkill2_ObsWrapper.observation Demo.rgbd_wrapper Demo.image_obs 0%nat
       = (Return v1, w1')
    /\ ManiSkill2_ObsWrapper.observation Demo.rgbd_wrapper blue_image_obs 0%nat
       = (Return v2, w2')
    /\ exists s, item v1 "state" = Return s /\ item v2 "state" = Return s.
Proof.
  do 4 eexists. split; [discriminate |].
  split; [vm_compute; reflexivity |]. split; [vm_compute; reflexivity |].
  exact (rgbd_state_ignores_images nat Demo.libraries Demo.rgbd_wrapper
           Demo.rgbd_wrapper
           (match Demo.image_obs with VDict d => d | _ => [] end)
           (match blue_image_obs with VDict d => d | _ => [] end)
           _ _ 0%nat _ 0%nat _
           eq_refl eq_refl eq_refl eq_refl eq_refl).
Defined.

(** ** The state vector of the pointcloud mode *)

Section PointcloudState.
Context {World : Type} {L : Libraries World}.

Lemma as_vec_Return (v : value) (p : dtype * vec) :
  as_vec v = Return p -> v = VArr (fst p) (A1 (snd p)).
Proof.
  destruct v as [| | | | dt0 [x | x | m0 | t] | |]; simpl; intros H;
    inversion H; reflexivity.
Qed.

(** The loop over [extra] only appends. *)
Lemma extra_loop_appends (extra : dict) (c : outcome (dtype * vec))
    (r : dtype * vec) :
  fold_left (fun acc kv =>
               agent_state <- acc ;;
               if existsb (String.eqb (fst kv)) ManiSkill2_ObsWrapper.state_keys_left_out
               then ret agent_state
               else val <- ManiSkill2_ObsWrapper.as_flat (snd kv) ;;
                    concatenate [agent_state; val])
            extra c = Return r ->
  exists a rest, c = Return a /\ snd r = (snd a ++ rest)%list.
Proof.
  revert c. induction extra as [| kv extra IH]; intros c H.
  - exists r, []. rewrite app_nil_r. auto.
  - cbn [fold_left] in H. destruct (IH _ H) as (a' & rest & Ha' & Hr).
    cbn [bind ret Monad_outcome] in Ha'. unbind.
    match goal with
    | Hc : (if ?b then _ else _) = Return a' |- _ => destruct b
    end.
    + unbind. eauto.
    + unbind.
      match goal with
      | Hc : concatenate [_; _] = Return _ |- _ =>
          apply concatenate_two in Hc; simpl in Hc
      end.
      eexists. eexists. split; [eassumption |].
      rewrite Hr. etransitivity; [apply f_equal2; [eassumption | reflexivity] |].
      rewrite <- app_assoc. reflexivity.
Qed.

Lemma agent_state_layout (observation : value) (extra : dict)
    (frs : dtype * mat) (fgp : list (dtype * vec)) (state : dtype * vec) :
  ManiSkill2_ObsWrapper.agent_state observation extra frs fgp = Return state ->
  exists agent dq qpos dv qvel rest,
    item observation "agent" = Return agent
    /\ item agent "qpos" = Return (VArr dq (A1 qpos))
    /\ item agent "qvel" = Return (VArr dv (A1 qvel))
    /\ snd state = (qpos ++ qvel ++ concat (snd frs) ++ rest)%list.
Proof.
  unfold ManiSkill2_ObsWrapper.agent_state.
  cbn [bind ret Monad_outcome]. intros H.
  repeat match goal with
    | H : obind _ _ = Return _ |- _ =>
        apply obind_Return in H; destruct H as (? & ? & H)
    end.
  apply extra_loop_appends in H as (a & rest & Ha & Hr).
  repeat match goal with
    | H : as_vec _ = Return _ |- _ => apply as_vec_Return in H; subst
    | H : concatenate [_; _] = Return _ |- _ => apply concatenate_two in H; simpl in H
    end.
  injection Ha as <-.
  match goal with
  | H3 : (if (0 <? length (snd frs))%nat then _ else _) = Return ?y3,
    H4 : (if (0 <? length fgp)%nat then _ else _) = Return ?y4 |- _ =>
      rename y3 into x3; rename y4 into x4;
      assert (Hx3 : snd x3 = (snd x0 ++ snd x1 ++ concat (snd frs))%list);
      [| assert (Hx4 : exists r1, snd x4 = (snd x3 ++ r1)%list)]
  end.
  - match goal with
    | H3 : (if ?b then _ else _) = Return x3 |- _ => destruct b eqn:E
    end.
    + match goal with
      | Hc : concatenate [_; _] = Return _ |- _ =>
          apply concatenate_two in Hc; simpl in Hc; rewrite Hc
      end.
      match goal with
      | Hq : snd _ = (snd x0 ++ snd x1)%list |- _ => rewrite Hq
      end.
      rewrite <- app_assoc. reflexivity.
    + apply Nat.ltb_ge in E. destruct (snd frs); [| simpl in E; lia].
      unbind. simpl. rewrite app_nil_r. assumption.
  - match goal with
    | H4 : (if ?b then _ else _) = Return x4 |- _ => destruct b
    end.
    + unbind.
      match goal with
      | Hc : concatenate [_; _] = Return _ |- _ =>
          apply concatenate_two in Hc; simpl in Hc; rewrite Hc
      end.
      eauto.
    + unbind. exists []. rewrite app_nil_r. reflexivity.
  - destruct Hx4 as (r1 & Hx4).
    exists x, (fst x0), (snd x0), (fst x1), (snd x1), (r1 ++ rest)%list.
    split; [assumption |]. split; [assumption |]. split; [assumption |].
    unfold mat, vec in *.
    rewrite Hr, Hx4, Hx3. rewrite <- !app_assoc. reflexivity.
Qed.

End PointcloudState.

(** X24: in pointcloud mode the 'state' vector starts with the joint
    positions 'qpos' of the agent, then its joint velocities 'qvel', then
    the rows of 'frame_related_states' one after the other; what follows
    (goal poses, further entries of [extra]) comes after them. *)
Theorem pointcloud_state_layout :
  forall (World : Type) (L : Libraries World) (self : ManiSkill2_ObsWrapper.t World)
         (observation v : value) (w w' : World),
    obs_mode (ManiSkill2_ObsWrapper.env self) = "pointcloud" ->
    ManiSkill2_ObsWrapper.observation self observation w = (Return v, w') ->
    exists ret_ agent dq qpos dv qvel dt states ds rest,
      v = VDict ret_
      /\ item observation "agent" = Return agent
      /\ item agent "qpos" = Return (VArr dq (A1 qpos))
      /\ item agent "qvel" = Return (VArr dv (A1 qvel))
      /\ dict_get "frame_related_states" ret_ = Some (VArr dt (A2 states))
      /\ dict_get "state" ret_
         = Some (VArr ds (A1 (qpos ++ qvel ++ concat states ++ rest)%list)).
Proof.
  intros World L self observation v w w' Hmode H.
  rewrite (observation_pointcloud_mode _ _ Hmode) in H.
  destruct (observation_pointcloud_fields _ _ _ _ _ H)
    as (to_origin & pointcloud & extra & e & frs & frames & state & ret_
        & _ & _ & _ & _ & _ & Hv & _ & _ & _ & Ha & Gf & _ & Gs & _).
  destruct (agent_state_layout _ _ _ _ _ Ha)
    as (agent & dq & qpos & dv & qvel & rest & Hag & Hq & Hqv & Hst).
  exists ret_, agent, dq, qpos, dv, qvel, (fst frs), (snd frs), (fst state), rest.
  rewrite <- Hst. auto 10.
Qed.

Lemma pointcloud_state_layout_witness :
  exists v w',
    ManiSkill2_ObsWrapper.observation
      (Demo.cloud_wrapper "<Env>" 4 2 "base") Demo.cloud_obs 0%nat = (Return v, w')
    /\ exists ret_ agent dq qpos dv qvel dt states ds rest,
        v = VDict ret_
        /\ item Demo.cloud_obs "agent" = Return agent
        /\ item agent "qpos" = Return (VArr dq (A1 qpos))
        /\ item agent "qvel" = Return (VArr dv (A1 qvel))
        /\ dict_get "frame_related_states" ret_ = Some (VArr dt (A2 states))
        /\ dict_get "state" ret_
           = Some (VArr ds (A1 (qpos ++ qvel ++ concat states ++ rest)%list)).
Proof.
  eexists. eexists. split; [vm_compute; reflexivity |].
  exact (pointcloud_state_layout nat Demo.libraries
           (Demo.cloud_wrapper "<Env>" 4 2 "base") Demo.cloud_obs _ 0%nat _
           eq_refl eq_refl).
Defined.
